(** * card-snaps: the hybrid online/offline client (services/api.ts)
      and the community handlers of the REST server.

    The client class [ApiService] is embedded as a small state-and-exception
    monad over
    - the instance field [this.token],
    - the browser's [localStorage], one typed slot per entry of [KEYS],
    - the list of HTTP requests handed to [fetch].
    What the environment decides (the value of [navigator.onLine], the
    outcome of each [fetch], [Date.now()], [crypto.randomUUID()]) is read
    from an [Env]. *)

From Stdlib Require Import ZArith String List Bool Lia.
From stdpp Require Import base option list strings gmap.

Local Open Scope Z_scope.

(** ** JavaScript arrays *)

Section Arrays.
Context {A : Type}.

(** [Array.prototype.findIndex]: index of the first element satisfying
    the callback, [-1] when there is none. *)
Fixpoint findIndex (p : A -> bool) (l : list A) : Z :=
  match l with
  | [] => -1
  | x :: l' =>
      if p x then 0
      else let r := findIndex p l' in
         if r =? -1 then -1 else r + 1
  end.

(** [Array.prototype.find]: the first element satisfying the callback,
    [None] for [undefined]. *)
Definition find (p : A -> bool) (l : list A) : option A := List.find p l.

(** [arr.unshift(x)] *)
Definition unshift (x : A) (l : list A) : list A := x :: l.

(** [arr.push(x)] *)
Definition push (x : A) (l : list A) : list A := l ++ [x].

(** [arr[index] = x].  Every call site guards it with [index !== -1] on an
    index returned by [findIndex], so the index is within the array; out of
    that range (where JavaScript would extend the array) the list is left
    as it is. *)
Definition array_set (l : list A) (index : Z) (x : A) : list A :=
  <[Z.to_nat index := x]> l.

(** Number of elements satisfying [p]. *)
Definition count (p : A -> bool) (l : list A) : nat :=
  length (List.filter p l).
End Arrays.

(** ** JavaScript values *)

(** [a || b] on a string that may be [undefined]: the empty string is falsy
    too. *)
Definition or_else (a : option string) (b : string) : string :=
  match a with
  | Some s => if (s =? "")%string then b else s
  | None => b
  end.

(** JavaScript truthiness of a string that may be [null]. *)
Definition truthy (t : option string) : bool :=
  match t with
  | Some s => negb (s =? "")%string
  | None => false
  end.

(** ** Domain records

    api.ts imports [Deck], [Note], [Test], [UserStats] and [ChatSession] from
    [../types], a file that is not among the sources. *)

Module Card.
(** Modelled from the spec: the card type of types.ts (a front text, a back
    text and a color tag), with the [id] the seed literals of api.ts give
    each card. *)
Record t := { id : string; front : string; back : string; color : string }.
End Card.

Module Deck.
(** Modelled from the spec: [Deck] of types.ts (id, title, description,
    ordered cards, creation timestamp), the fields of the [as Deck] literals
    of api.ts.  The owning user id is added by the server and is not part of
    what the client stores. *)
Record t := {
  id : string; title : string; description : string;
  cards : list Card.t; createdAt : Z }.
End Deck.

Module Note.
(** Modelled from the spec: [Note] of types.ts (id, title, subject, content,
    background style, created and last-modified timestamps), the fields of
    the [as Note] literal of api.ts. *)
Record t := {
  id : string; title : string; subject : string; content : string;
  background : string; createdAt : Z; lastModified : Z }.
End Note.

Module Test.
(** Modelled from the spec: [Test] of types.ts (id, title, date, topic
    strings), the fields the server's POST /api/tests reads. *)
Record t := { id : string; title : string; date : Z; topics : list string }.
End Test.

Module UserStats.
(** Modelled from the spec: [UserStats] of types.ts (experience points and
    goals), as the server's registration handler creates it. *)
Record t := { xp : Z; goals : list string }.
End UserStats.

Module ChatSession.
(** Modelled from the spec: [ChatSession] of types.ts (id, title, ordered
    messages, last-active timestamp), the fields the server's POST
    /api/chats reads; a message is kept as its text. *)
Record t := {
  id : string; title : string; messages : list string; lastActive : Z }.
End ChatSession.

(** ** JavaScript numbers

    A number is an IEEE 754 double.  The counters and timestamps of this
    program hold integers, and an integer-valued double is kept as the
    integer it denotes.  Every integer of magnitude up to [2^53] is a double;
    a larger double is a 53-bit integer times a power of two. *)

(** The double nearest to the integer [z]; of two that are equally near, the
    one whose 53-bit part is even (the rounding of IEEE 754 arithmetic). *)
Definition nearest_double (z : Z) : Z :=
  let n := Z.abs z in
  if n <=? 2 ^ 53 then z
  else
    let e := Z.log2 n - 52 in
    let q := Z.shiftr n e in
    let r := Z.land n (Z.ones e) in
    let half := Z.shiftl 1 (e - 1) in
    let q' :=
      if r <? half then q
      else if half <? r then q + 1
      else if Z.even q then q else q + 1 in
    Z.sgn z * Z.shiftl q' e.

(** [a + b] on numbers: the exact sum, rounded to the nearest double.  The
    program only ever adds [1] to a double, which never leaves the finite
    range. *)
Definition number_add (a b : Z) : Z := nearest_double (a + b).

(** [type: 'deck' | 'note'] *)
Inductive ItemType := deck | note.

Module CommunityItem.
(** [interface CommunityItem] of api.ts. *)
Record t := {
  id : string;
  type : ItemType;
  title : string;
  description : string;
  author : string;
  data : Deck.t + Note.t;
  downloads : Z;
  timestamp : Z }.

(** [item.downloads += 1] *)
Definition bump (c : t) : t :=
  {| id := id c; type := type c; title := title c;
     description := description c; author := author c; data := data c;
     downloads := number_add (downloads c) 1; timestamp := timestamp c |}.
End CommunityItem.

(** Modelled from the spec: [UserProfile] of types.ts and the user object
    the server sends, as a plain JavaScript object with primitive fields
    (identity, display name, avatar, preferences), merged with the spread
    operator. *)
Inductive JsPrim := JString (s : string) | JBool (b : bool) | JNumber (n : Z).

Abbreviation JsObject := (gmap string JsPrim).

(** [{...a, ...b}]: the fields of [b] win.  Spreading [null] adds nothing. *)
Definition spread (a b : JsObject) : JsObject := b ∪ a.

Definition object_of (o : option JsObject) : JsObject := default ∅ o.

(** The body of a successful login or registration: [{ token, user }]. *)
Module AuthData.
Record t := { token : string; user : JsObject }.
End AuthData.

(** ** localStorage *)

(** One slot per key of [KEYS].  A slot is [None] when [getItem] yields
    nothing usable: the key is absent, or its text is empty or does not parse
    (the two cases [getLocal] answers with the default value).  The user and
    stats slots hold a JSON value that may be [null]. *)
Record Storage := {
  cardsnaps_user : option (option JsObject);
  cardsnaps_token : option string;
  cardsnaps_decks : option (list Deck.t);
  cardsnaps_notes : option (list Note.t);
  cardsnaps_tests : option (list Test.t);
  cardsnaps_stats : option (option UserStats.t);
  cardsnaps_chats : option (list ChatSession.t);
  cardsnaps_community_db : option (list CommunityItem.t) }.

(** [KEYS], each key indexed by the type of what is stored under it. *)
Inductive Key : Type -> Type :=
| USER : Key (option JsObject)
| TOKEN : Key string
| DECKS : Key (list Deck.t)
| NOTES : Key (list Note.t)
| TESTS : Key (list Test.t)
| STATS : Key (option UserStats.t)
| CHATS : Key (list ChatSession.t)
| COMMUNITY : Key (list CommunityItem.t).

Definition key_name {T} (k : Key T) : string :=
  match k with
  | USER => "cardsnaps_user"
  | TOKEN => "cardsnaps_token"
  | DECKS => "cardsnaps_decks"
  | NOTES => "cardsnaps_notes"
  | TESTS => "cardsnaps_tests"
  | STATS => "cardsnaps_stats"
  | CHATS => "cardsnaps_chats"
  | COMMUNITY => "cardsnaps_community_db"
  end.

Definition getItem {T} (k : Key T) (s : Storage) : option T :=
  match k in Key T0 return option T0 with
  | USER => cardsnaps_user s
  | TOKEN => cardsnaps_token s
  | DECKS => cardsnaps_decks s
  | NOTES => cardsnaps_notes s
  | TESTS => cardsnaps_tests s
  | STATS => cardsnaps_stats s
  | CHATS => cardsnaps_chats s
  | COMMUNITY => cardsnaps_community_db s
  end.

(** Overwrite one slot, leaving the seven others. *)
Definition write_slot {T} (k : Key T) (v : option T) (s : Storage) : Storage :=
  match k in Key T0 return option T0 -> Storage with
  | USER => fun v =>
      {| cardsnaps_user := v; cardsnaps_token := cardsnaps_token s;
         cardsnaps_decks := cardsnaps_decks s; cardsnaps_notes := cardsnaps_notes s;
         cardsnaps_tests := cardsnaps_tests s; cardsnaps_stats := cardsnaps_stats s;
         cardsnaps_chats := cardsnaps_chats s;
         cardsnaps_community_db := cardsnaps_community_db s |}
  | TOKEN => fun v =>
      {| cardsnaps_user := cardsnaps_user s; cardsnaps_token := v;
         cardsnaps_decks := cardsnaps_decks s; cardsnaps_notes := cardsnaps_notes s;
         cardsnaps_tests := cardsnaps_tests s; cardsnaps_stats := cardsnaps_stats s;
         cardsnaps_chats := cardsnaps_chats s;
         cardsnaps_community_db := cardsnaps_community_db s |}
  | DECKS => fun v =>
      {| cardsnaps_user := cardsnaps_user s; cardsnaps_token := cardsnaps_token s;
         cardsnaps_decks := v; cardsnaps_notes := cardsnaps_notes s;
         cardsnaps_tests := cardsnaps_tests s; cardsnaps_stats := cardsnaps_stats s;
         cardsnaps_chats := cardsnaps_chats s;
         cardsnaps_community_db := cardsnaps_community_db s |}
  | NOTES => fun v =>
      {| cardsnaps_user := cardsnaps_user s; cardsnaps_token := cardsnaps_token s;
         cardsnaps_decks := cardsnaps_decks s; cardsnaps_notes := v;
         cardsnaps_tests := cardsnaps_tests s; cardsnaps_stats := cardsnaps_stats s;
         cardsnaps_chats := cardsnaps_chats s;
         cardsnaps_community_db := cardsnaps_community_db s |}
  | TESTS => fun v =>
      {| cardsnaps_user := cardsnaps_user s; cardsnaps_token := cardsnaps_token s;
         cardsnaps_decks := cardsnaps_decks s; cardsnaps_notes := cardsnaps_notes s;
         cardsnaps_tests := v; cardsnaps_stats := cardsnaps_stats s;
         cardsnaps_chats := cardsnaps_chats s;
         cardsnaps_community_db := cardsnaps_community_db s |}
  | STATS => fun v =>
      {| cardsnaps_user := cardsnaps_user s; cardsnaps_token := cardsnaps_token s;
         cardsnaps_decks := cardsnaps_decks s; cardsnaps_notes := cardsnaps_notes s;
         cardsnaps_tests := cardsnaps_tests s; cardsnaps_stats := v;
         cardsnaps_chats := cardsnaps_chats s;
         cardsnaps_community_db := cardsnaps_community_db s |}
  | CHATS => fun v =>
      {| cardsnaps_user := cardsnaps_user s; cardsnaps_token := cardsnaps_token s;
         cardsnaps_decks := cardsnaps_decks s; cardsnaps_notes := cardsnaps_notes s;
         cardsnaps_tests := cardsnaps_tests s; cardsnaps_stats := cardsnaps_stats s;
         cardsnaps_chats := v;
         cardsnaps_community_db := cardsnaps_community_db s |}
  | COMMUNITY => fun v =>
      {| cardsnaps_user := cardsnaps_user s; cardsnaps_token := cardsnaps_token s;
         cardsnaps_decks := cardsnaps_decks s; cardsnaps_notes := cardsnaps_notes s;
         cardsnaps_tests := cardsnaps_tests s; cardsnaps_stats := cardsnaps_stats s;
         cardsnaps_chats := cardsnaps_chats s;
         cardsnaps_community_db := v |}
  end v.

(** [localStorage.setItem(key, text)] *)
Definition setItem {T} (k : Key T) (v : T) (s : Storage) : Storage :=
  write_slot k (Some v) s.

(** [localStorage.removeItem(key)] *)
Definition removeItem {T} (k : Key T) (s : Storage) : Storage :=
  write_slot k None s.

Definition empty_storage : Storage :=
  {| cardsnaps_user := None; cardsnaps_token := None; cardsnaps_decks := None;
     cardsnaps_notes := None; cardsnaps_tests := None; cardsnaps_stats := None;
     cardsnaps_chats := None; cardsnaps_community_db := None |}.

(** ** HTTP *)

Inductive Method := GET | POST | PUT | DELETE.

(** The [headers] option of a [fetch] call. *)
Record Headers := { Content_Type : option string; Authorization : option string }.

Definition no_headers : Headers :=
  {| Content_Type := None; Authorization := None |}.

Definition json_headers : Headers :=
  {| Content_Type := Some "application/json"; Authorization := None |}.

Record Request := { method : Method; url : string; headers : Headers }.

(** The endpoints the client calls, each with what it sends and indexed by
    the type of the JSON body the client reads from a response.  Bodies the
    client never reads have type [unit]. *)
Inductive Endpoint : Type -> Type :=
| POST_auth_login (email password : string) : Endpoint AuthData.t
| POST_auth_register (email password name : string) : Endpoint AuthData.t
| GET_auth_me : Endpoint JsObject
| PUT_user_preferences (themeMode colorScheme : string) (enableSeasonal : bool) :
    Endpoint unit
| GET_decks : Endpoint (list Deck.t)
| POST_decks (d : Deck.t) : Endpoint unit
| PUT_decks (d : Deck.t) : Endpoint unit
| DELETE_decks (id : string) : Endpoint unit
| GET_notes : Endpoint (list Note.t)
| POST_notes (n : Note.t) : Endpoint unit
| DELETE_notes (id : string) : Endpoint unit
| GET_tests : Endpoint (list Test.t)
| POST_tests (t : Test.t) : Endpoint unit
| DELETE_tests (id : string) : Endpoint unit
| GET_stats : Endpoint (option UserStats.t)
| POST_stats (s : UserStats.t) : Endpoint unit
| GET_chats : Endpoint (list ChatSession.t)
| POST_chats (s : ChatSession.t) : Endpoint unit
| POST_community (c : CommunityItem.t) : Endpoint unit
| GET_community : Endpoint (list CommunityItem.t)
| POST_community_download (id : string) : Endpoint unit.

Definition endpoint_method {T} (ep : Endpoint T) : Method :=
  match ep with
  | GET_auth_me | GET_decks | GET_notes | GET_tests | GET_stats | GET_chats
  | GET_community => GET
  | PUT_user_preferences _ _ _ | PUT_decks _ => PUT
  | DELETE_decks _ | DELETE_notes _ | DELETE_tests _ => DELETE
  | _ => POST
  end.

(** The path after [API_URL]. *)
Definition endpoint_path {T} (ep : Endpoint T) : string :=
  match ep with
  | POST_auth_login _ _ => "/auth/login"
  | POST_auth_register _ _ _ => "/auth/register"
  | GET_auth_me => "/auth/me"
  | PUT_user_preferences _ _ _ => "/user/preferences"
  | GET_decks | POST_decks _ => "/decks"
  | PUT_decks d => "/decks/" +:+ Deck.id d
  | DELETE_decks id => "/decks/" +:+ id
  | GET_notes | POST_notes _ => "/notes"
  | DELETE_notes id => "/notes/" +:+ id
  | GET_tests | POST_tests _ => "/tests"
  | DELETE_tests id => "/tests/" +:+ id
  | GET_stats | POST_stats _ => "/stats"
  | GET_chats | POST_chats _ => "/chats"
  | POST_community _ | GET_community => "/community"
  | POST_community_download id => "/community/" +:+ id +:+ "/download"
  end.

(** A JavaScript [Error] object, by its message. *)
Inductive Error := MkError (message : string).

Definition message (e : Error) : string := let 'MkError m := e in m.

(** What a settled [fetch] gave: [ok] is the status test [res.ok]; [body] is
    what [res.json()] resolves to, or the error it rejects with. *)
Record Response (T : Type) := { ok : bool; body : Error + T }.
Arguments ok {T} _.
Arguments body {T} _.

(** The promise [fetch] returns either rejects (network error, or the abort
    of [AbortSignal.timeout]) or resolves to a response. *)
Inductive FetchOutcome (T : Type) :=
| Rejected (e : Error)
| Resolved (res : Response T).
Arguments Rejected {T} e.
Arguments Resolved {T} res.

(** ** Environment and state *)

Record Navigator := { onLine : bool }.

Record Env := {
  (** [None]: [typeof navigator === 'undefined'] *)
  navigator : option Navigator;
  API_URL : string;
  (** how the remote side answers each request *)
  remote : forall T, Endpoint T -> FetchOutcome T;
  Date_now : Z;
  crypto_randomUUID : string }.

(** The connectivity oracle:
    [typeof navigator !== 'undefined' && navigator.onLine]. *)
Definition online (env : Env) : bool :=
  match navigator env with
  | Some n => onLine n
  | None => false
  end.

Record World := {
  (** [this.token] *)
  token : option string;
  localStorage : Storage;
  (** the requests issued so far, oldest first *)
  requests : list Request }.

Definition with_token (t : option string) (w : World) : World :=
  {| token := t; localStorage := localStorage w; requests := requests w |}.

Definition with_storage (s : Storage) (w : World) : World :=
  {| token := token w; localStorage := s; requests := requests w |}.

Definition with_request (r : Request) (w : World) : World :=
  {| token := token w; localStorage := localStorage w;
     requests := requests w ++ [r] |}.

(** ** The effect monad: state plus exceptions *)

Inductive Completion (A : Type) :=
| Return (a : A)
| Throw (e : Error).
Arguments Return {A} a.
Arguments Throw {A} e.

Definition Op (A : Type) : Type := Env -> World -> Completion A * World.

Definition ret {A} (a : A) : Op A := fun _ w => (Return a, w).

Definition throw {A} (e : Error) : Op A := fun _ w => (Throw e, w).

Definition bind {A B} (m : Op A) (k : A -> Op B) : Op B :=
  fun env w =>
    match m env w with
    | (Return a, w') => k a env w'
    | (Throw e, w') => (Throw e, w')
    end.

(** [try { body } catch (e) { handler }]: what [body] did to the state before
    it threw stays done. *)
Definition try_catch {A} (body : Op A) (handler : Error -> Op A) : Op A :=
  fun env w =>
    match body env w with
    | (Return a, w') => (Return a, w')
    | (Throw e, w') => handler e env w'
    end.

Notation "x <- c1 ;; c2" := (bind c1 (fun x => c2))
  (at level 100, c1 at next level, right associativity).
Notation "c1 ;; c2" := (bind c1 (fun _ => c2))
  (at level 100, right associativity).

(** [console.warn(..)] and empty [catch] blocks: nothing observable. *)
Definition ignore {A} (_ : A) : Op unit := ret tt.

Definition ask {A} (f : Env -> A) : Op A := fun env w => (Return (f env), w).

Definition this_token : Op (option string) := fun _ w => (Return (token w), w).

Definition set_this_token (t : option string) : Op unit :=
  fun _ w => (Return tt, with_token t w).

Definition localStorage_getItem {T} (k : Key T) : Op (option T) :=
  fun _ w => (Return (getItem k (localStorage w)), w).

Definition localStorage_setItem {T} (k : Key T) (v : T) : Op unit :=
  fun _ w => (Return tt, with_storage (setItem k v (localStorage w)) w).

Definition localStorage_removeItem {T} (k : Key T) : Op unit :=
  fun _ w => (Return tt, with_storage (removeItem k (localStorage w)) w).

(** [fetch(url, init)]: the request goes out, then the promise settles the
    way the environment says. *)
Definition fetch {T} (ep : Endpoint T) (h : Headers) : Op (Response T) :=
  fun env w =>
    let r := {| method := endpoint_method ep;
                url := API_URL env +:+ endpoint_path ep;
                headers := h |} in
    match remote env T ep with
    | Rejected e => (Throw e, with_request r w)
    | Resolved res => (Return res, with_request r w)
    end.

(** [await res.json()] *)
Definition json {T} (res : Response T) : Op T :=
  match body res with
  | inl e => throw e
  | inr v => ret v
  end.

(** ** class ApiService (services/api.ts) *)

Module ApiService.

(** [getHeaders()] *)
Definition getHeaders : Op Headers :=
  tok <- this_token ;;
  ret {| Content_Type := Some "application/json";
         Authorization :=
           Some ("Bearer " +:+ match tok with Some t => t | None => "null" end) |}.

(** [isOnline()] *)
Definition isOnline : Op bool := ask online.

(** The guard [this.token && this.isOnline()]. *)
Definition token_and_online : Op bool :=
  tok <- this_token ;;
  if truthy tok then isOnline else ret false.

(** [getLocal(key, defaultVal)] *)
Definition getLocal {T} (key : Key T) (defaultVal : T) : Op T :=
  item <- localStorage_getItem key ;;
  ret match item with
      | Some v => v
      | None => defaultVal
      end.

(** [setLocal(key, value)] *)
Definition setLocal {T} (key : Key T) (value : T) : Op unit :=
  localStorage_setItem key value.

(** *** Auth *)

Definition isAuthenticated : Op bool :=
  tok <- this_token ;; ret (truthy tok).

Definition login (email password : string) : Op JsObject :=
  online <- isOnline ;;
  if negb online then throw (MkError "Offline. Cannot login.") else
  res <- fetch (POST_auth_login email password) json_headers ;;
  if negb (ok res) then throw (MkError "Login failed") else
  data <- json res ;;
  set_this_token (Some (AuthData.token data)) ;;
  localStorage_setItem TOKEN (AuthData.token data) ;;
  localStorage_setItem USER (Some (AuthData.user data)) ;;
  ret (AuthData.user data).

Definition register (email password name : string) : Op JsObject :=
  online <- isOnline ;;
  if negb online then throw (MkError "Offline. Cannot register.") else
  res <- fetch (POST_auth_register email password name) json_headers ;;
  if negb (ok res) then throw (MkError "Registration failed") else
  data <- json res ;;
  set_this_token (Some (AuthData.token data)) ;;
  localStorage_setItem TOKEN (AuthData.token data) ;;
  localStorage_setItem USER (Some (AuthData.user data)) ;;
  ret (AuthData.user data).

(** In the bodies below a [try] block that may [return] evaluates to
    [Some v] when it returned [v] and to [None] when control goes on to the
    statement after the [try]. *)

Definition getMe : Op (option JsObject) :=
  c <- token_and_online ;;
  returned <-
    (if c then
       try_catch
         (h <- getHeaders ;;
          res <- fetch GET_auth_me h ;;
          if ok res then
            user <- json res ;;
            setLocal USER (Some user) ;;
            ret (Some (Some user))
          else ret None)
         (fun _ => ret None)
     else ret None) ;;
  match returned with
  | Some user => ret user
  | None => getLocal USER None
  end.

Definition saveProfile (profile : JsObject) : Op JsObject :=
  current <- getLocal USER (Some ∅) ;;
  let updated := spread (object_of current) profile in
  setLocal USER (Some updated) ;;
  ret updated.

Definition savePreferences (themeMode colorScheme : string)
    (enableSeasonal : bool) : Op unit :=
  c <- token_and_online ;;
  (if c then
     (* not awaited; [.catch(e => console.warn(e))] *)
     try_catch
       (h <- getHeaders ;;
        fetch (PUT_user_preferences themeMode colorScheme enableSeasonal) h ;;
        ret tt)
       ignore
   else ret tt) ;;
  current <- getLocal USER (Some ∅) ;;
  let updated :=
    <["enableSeasonal" := JBool enableSeasonal]>
      (<["colorScheme" := JString colorScheme]>
         (<["themeMode" := JString themeMode]> (object_of current))) in
  setLocal USER (Some updated).

Definition logout : Op unit :=
  set_this_token None ;;
  localStorage_removeItem TOKEN ;;
  localStorage_removeItem USER.

(** *** Decks *)

Definition getDecks : Op (list Deck.t) :=
  c <- token_and_online ;;
  returned <-
    (if c then
       try_catch
         (h <- getHeaders ;;
          res <- fetch GET_decks h ;;
          if ok res then
            decks <- json res ;;
            setLocal DECKS decks ;;
            ret (Some decks)
          else ret None)
         (fun _ => ret None)
     else ret None) ;;
  match returned with
  | Some decks => ret decks
  | None => getLocal DECKS []
  end.

Definition createDeck (deck : Deck.t) : Op Deck.t :=
  c <- token_and_online ;;
  (if c then
     try_catch (h <- getHeaders ;; fetch (POST_decks deck) h ;; ret tt) ignore
   else ret tt) ;;
  decks <- getLocal DECKS [] ;;
  let decks := unshift deck decks in
  setLocal DECKS decks ;;
  ret deck.

Definition updateDeck (deck : Deck.t) : Op unit :=
  c <- token_and_online ;;
  (if c then
     try_catch (h <- getHeaders ;; fetch (PUT_decks deck) h ;; ret tt) ignore
   else ret tt) ;;
  decks <- getLocal DECKS [] ;;
  let index := findIndex (fun d => Deck.id d =? Deck.id deck)%string decks in
  if negb (index =? -1) then
    setLocal DECKS (array_set decks index deck)
  else ret tt.

Definition deleteDeck (id : string) : Op unit :=
  c <- token_and_online ;;
  (if c then
     try_catch (h <- getHeaders ;; fetch (DELETE_decks id) h ;; ret tt) ignore
   else ret tt) ;;
  decks <- getLocal DECKS [] ;;
  let decks := List.filter (fun d => negb (Deck.id d =? id)%string) decks in
  setLocal DECKS decks.

(** *** Notes *)

Definition getNotes : Op (list Note.t) :=
  c <- token_and_online ;;
  returned <-
    (if c then
       try_catch
         (h <- getHeaders ;;
          res <- fetch GET_notes h ;;
          if ok res then
            notes <- json res ;;
            setLocal NOTES notes ;;
            ret (Some notes)
          else ret None)
         (fun _ => ret None)
     else ret None) ;;
  match returned with
  | Some notes => ret notes
  | None => getLocal NOTES []
  end.

Definition saveNote (n : Note.t) : Op Note.t :=
  c <- token_and_online ;;
  (if c then
     try_catch (h <- getHeaders ;; fetch (POST_notes n) h ;; ret tt) ignore
   else ret tt) ;;
  notes <- getLocal NOTES [] ;;
  let index := findIndex (fun x => Note.id x =? Note.id n)%string notes in
  let notes :=
    if negb (index =? -1) then array_set notes index n else unshift n notes in
  setLocal NOTES notes ;;
  ret n.

Definition deleteNote (id : string) : Op unit :=
  c <- token_and_online ;;
  (if c then
     try_catch (h <- getHeaders ;; fetch (DELETE_notes id) h ;; ret tt) ignore
   else ret tt) ;;
  notes <- getLocal NOTES [] ;;
  let notes := List.filter (fun x => negb (Note.id x =? id)%string) notes in
  setLocal NOTES notes.

(** *** Tests *)

Definition getTests : Op (list Test.t) :=
  c <- token_and_online ;;
  returned <-
    (if c then
       try_catch
         (h <- getHeaders ;;
          res <- fetch GET_tests h ;;
          if ok res then
            tests <- json res ;;
            ret (Some tests)
          else ret None)
         (fun _ => ret None)
     else ret None) ;;
  match returned with
  | Some tests => ret tests
  | None => getLocal TESTS []
  end.

Definition addTest (t : Test.t) : Op Test.t :=
  c <- token_and_online ;;
  (if c then
     try_catch (h <- getHeaders ;; fetch (POST_tests t) h ;; ret tt) ignore
   else ret tt) ;;
  tests <- getLocal TESTS [] ;;
  let tests := push t tests in
  setLocal TESTS tests ;;
  ret t.

Definition deleteTest (id : string) : Op unit :=
  c <- token_and_online ;;
  (if c then
     try_catch (h <- getHeaders ;; fetch (DELETE_tests id) h ;; ret tt) ignore
   else ret tt) ;;
  tests <- getLocal TESTS [] ;;
  let tests := List.filter (fun x => negb (Test.id x =? id)%string) tests in
  setLocal TESTS tests.

(** *** Stats *)

Definition getStats : Op (option UserStats.t) :=
  c <- token_and_online ;;
  returned <-
    (if c then
       try_catch
         (h <- getHeaders ;;
          res <- fetch GET_stats h ;;
          if ok res then
            stats <- json res ;;
            (* [if(stats)]: a [null] body is not cached *)
            match stats with
            | Some _ => setLocal STATS stats
            | None => ret tt
            end ;;
            ret (Some stats)
          else ret None)
         (fun _ => ret None)
     else ret None) ;;
  match returned with
  | Some stats => ret stats
  | None => getLocal STATS None
  end.

Definition syncStats (stats : UserStats.t) : Op unit :=
  c <- token_and_online ;;
  (if c then
     try_catch (h <- getHeaders ;; fetch (POST_stats stats) h ;; ret tt) ignore
   else ret tt) ;;
  setLocal STATS (Some stats).

(** *** Chat *)

Definition getChatSessions : Op (list ChatSession.t) :=
  c <- token_and_online ;;
  returned <-
    (if c then
       try_catch
         (h <- getHeaders ;;
          res <- fetch GET_chats h ;;
          if ok res then
            sessions <- json res ;;
            ret (Some sessions)
          else ret None)
         (fun _ => ret None)
     else ret None) ;;
  match returned with
  | Some sessions => ret sessions
  | None => getLocal CHATS []
  end.

Definition saveChatSession (session : ChatSession.t) : Op unit :=
  c <- token_and_online ;;
  (if c then
     try_catch (h <- getHeaders ;; fetch (POST_chats session) h ;; ret tt) ignore
   else ret tt) ;;
  sessions <- getLocal CHATS [] ;;
  let index :=
    findIndex (fun s => ChatSession.id s =? ChatSession.id session)%string
      sessions in
  let sessions :=
    if negb (index =? -1) then array_set sessions index session
    else unshift session sessions in
  setLocal CHATS sessions.

(** *** Community *)

Definition item_title (item : Deck.t + Note.t) : string :=
  match item with
  | inl d => Deck.title d
  | inr n => Note.title n
  end.

Definition item_description (item : Deck.t + Note.t) : option string :=
  match item with
  | inl d => Some (Deck.description d)
  | inr _ => None
  end.

Definition item_subject (item : Deck.t + Note.t) : option string :=
  match item with
  | inl _ => None
  | inr n => Some (Note.subject n)
  end.

(** The seed literal of [_localGetCommunity].  [now] stands for [Date.now()],
    which is taken to give the same instant each time the literal evaluates
    it. *)
Definition seeds (now : Z) : list CommunityItem.t :=
  [ {| CommunityItem.id := "seed-1"; CommunityItem.type := deck;
       CommunityItem.title := "Biology: Cell Structure";
       CommunityItem.description := "Deep dive into mitochondria and ribbons.";
       CommunityItem.author := "Dr. Science";
       CommunityItem.downloads := 124; CommunityItem.timestamp := now;
       CommunityItem.data := inl
         {| Deck.id := "s1"; Deck.title := "Biology: Cell Structure";
            Deck.description := "Deep dive into mitochondria.";
            Deck.cards :=
              [ {| Card.id := "c1"; Card.front := "Powerhouse?";
                   Card.back := "Mitochondria"; Card.color := "bg-green-100" |} ];
            Deck.createdAt := now |} |};
    {| CommunityItem.id := "seed-2"; CommunityItem.type := deck;
       CommunityItem.title := "Spanish Verbs 101";
       CommunityItem.description := "Essential conjugation for beginners.";
       CommunityItem.author := "Se√±orita A";
       CommunityItem.downloads := 45; CommunityItem.timestamp := now - 100000;
       CommunityItem.data := inl
         {| Deck.id := "s2"; Deck.title := "Spanish Verbs 101";
            Deck.description := "Conjugations.";
            Deck.cards :=
              [ {| Card.id := "c2"; Card.front := "Ser";
                   Card.back := "To be"; Card.color := "bg-orange-100" |} ];
            Deck.createdAt := now |} |};
    {| CommunityItem.id := "seed-3"; CommunityItem.type := note;
       CommunityItem.title := "Calculus Cheat Sheet";
       CommunityItem.description := "Derivatives and Integrals quick ref.";
       CommunityItem.author := "MathWhiz";
       CommunityItem.downloads := 89; CommunityItem.timestamp := now - 200000;
       CommunityItem.data := inr
         {| Note.id := "s3"; Note.title := "Calculus Cheat Sheet";
            Note.subject := "Math"; Note.content := "<b>Power Rule:</b> nx^(n-1)";
            Note.background := "grid"; Note.createdAt := now;
            Note.lastModified := now |} |} ].

Definition _localShare (item : CommunityItem.t) : Op unit :=
  community <- getLocal COMMUNITY [] ;;
  match find (fun c => CommunityItem.id c =? CommunityItem.id item)%string
          community with
  | None =>
      let community := unshift item community in
      setLocal COMMUNITY community
  | Some _ => ret tt
  end.

Definition _localGetCommunity : Op (list CommunityItem.t) :=
  community <- getLocal COMMUNITY [] ;;
  if Z.of_nat (length community) =? 0 then
    now <- ask Date_now ;;
    setLocal COMMUNITY (seeds now) ;;
    ret (seeds now)
  else ret community.

Definition _localIncrement (id : string) : Op unit :=
  community <- getLocal COMMUNITY [] ;;
  let index := findIndex (fun c => CommunityItem.id c =? id)%string community in
  if negb (index =? -1) then
    match community !! Z.to_nat index with
    | Some c =>
        setLocal COMMUNITY (array_set community index (CommunityItem.bump c))
    | None =>
        (* [community[index]] is [undefined]: the property access throws *)
        throw (MkError "TypeError: cannot read properties of undefined")
    end
  else ret tt.

Definition shareToCommunity (item : Deck.t + Note.t) (type : ItemType)
    (authorName : string) : Op unit :=
  uuid <- ask crypto_randomUUID ;;
  now <- ask Date_now ;;
  let sharedItem :=
    {| CommunityItem.id := uuid;
       CommunityItem.type := type;
       CommunityItem.title := item_title item;
       CommunityItem.description :=
         or_else (item_description item)
           (or_else (item_subject item) "No description");
       CommunityItem.author := authorName;
       CommunityItem.data := item;
       CommunityItem.downloads := 0;
       CommunityItem.timestamp := now |} in
  online <- isOnline ;;
  (if online then
     try_catch (fetch (POST_community sharedItem) json_headers ;; ret tt) ignore
   else ret tt) ;;
  _localShare sharedItem.

Definition getCommunityItems : Op (list CommunityItem.t) :=
  online <- isOnline ;;
  returned <-
    (if online then
       try_catch
         (res <- fetch GET_community no_headers ;;
          if ok res then
            items <- json res ;;
            setLocal COMMUNITY items ;;
            ret (Some items)
          else ret None)
         (fun _ => ret None)
     else ret None) ;;
  match returned with
  | Some items => ret items
  | None => _localGetCommunity
  end.

Definition incrementDownload (communityId : string) : Op unit :=
  _localIncrement communityId ;;
  online <- isOnline ;;
  if online then
    try_catch (fetch (POST_community_download communityId) no_headers ;; ret tt)
      ignore
  else ret tt.

End ApiService.

(** ** The public methods of the client, as one type of calls *)

Inductive Call : Type -> Type :=
| IsAuthenticated : Call bool
| Login (email password : string) : Call JsObject
| Register (email password name : string) : Call JsObject
| GetMe : Call (option JsObject)
| SaveProfile (profile : JsObject) : Call JsObject
| SavePreferences (themeMode colorScheme : string) (enableSeasonal : bool) :
    Call unit
| Logout : Call unit
| GetDecks : Call (list Deck.t)
| CreateDeck (d : Deck.t) : Call Deck.t
| UpdateDeck (d : Deck.t) : Call unit
| DeleteDeck (id : string) : Call unit
| GetNotes : Call (list Note.t)
| SaveNote (n : Note.t) : Call Note.t
| DeleteNote (id : string) : Call unit
| GetTests : Call (list Test.t)
| AddTest (t : Test.t) : Call Test.t
| DeleteTest (id : string) : Call unit
| GetStats : Call (option UserStats.t)
| SyncStats (s : UserStats.t) : Call unit
| GetChatSessions : Call (list ChatSession.t)
| SaveChatSession (s : ChatSession.t) : Call unit
| ShareToCommunity (item : Deck.t + Note.t) (type : ItemType) (author : string) :
    Call unit
| GetCommunityItems : Call (list CommunityItem.t)
| IncrementDownload (id : string) : Call unit.

Definition perform {T} (c : Call T) : Op T :=
  match c in Call T0 return Op T0 with
  | IsAuthenticated => ApiService.isAuthenticated
  | Login e p => ApiService.login e p
  | Register e p n => ApiService.register e p n
  | GetMe => ApiService.getMe
  | SaveProfile p => ApiService.saveProfile p
  | SavePreferences t c s => ApiService.savePreferences t c s
  | Logout => ApiService.logout
  | GetDecks => ApiService.getDecks
  | CreateDeck d => ApiService.createDeck d
  | UpdateDeck d => ApiService.updateDeck d
  | DeleteDeck id => ApiService.deleteDeck id
  | GetNotes => ApiService.getNotes
  | SaveNote n => ApiService.saveNote n
  | DeleteNote id => ApiService.deleteNote id
  | GetTests => ApiService.getTests
  | AddTest t => ApiService.addTest t
  | DeleteTest id => ApiService.deleteTest id
  | GetStats => ApiService.getStats
  | SyncStats s => ApiService.syncStats s
  | GetChatSessions => ApiService.getChatSessions
  | SaveChatSession s => ApiService.saveChatSession s
  | ShareToCommunity i t a => ApiService.shareToCommunity i t a
  | GetCommunityItems => ApiService.getCommunityItems
  | IncrementDownload id => ApiService.incrementDownload id
  end.

(** [login] and [register], the two calls that may reject. *)
Definition is_auth_call {T} (c : Call T) : bool :=
  match c with
  | Login _ _ | Register _ _ _ => true
  | _ => false
  end.

(** ** The server's publish handler (POST /api/community) *)

Module Server.

(** The fields the handler destructures from [req.body]; [id] is [None]
    when the body has none. *)
Module Body.
Record t := {
  id : option string;
  type : ItemType;
  title : string;
  description : string;
  author : string;
  data : Deck.t + Note.t }.
End Body.

(** What [res.json(..)] sends, with status 200. *)
Module Reply.
Record t := { success : bool; message : option string; id : option string }.
End Reply.

(** [db.data.community], the one collection the handler touches. *)
Record Db := { community : list CommunityItem.t }.

(** [app.post('/api/community', ..)], with [uuid] for [generateUUID()] and
    [now] for [Date.now()]. *)
Definition post_community (uuid : string) (now : Z) (body : Body.t) (db : Db) :
    Db * Reply.t :=
  let matches (i : CommunityItem.t) :=
    match Body.id body with
    | Some id => (CommunityItem.id i =? id)%string
    | None => false
    end in
  match find matches (community db) with
  | Some _ =>
      (db, {| Reply.success := true; Reply.message := Some "Already shared";
              Reply.id := None |})
  | None =>
      let newItem :=
        {| CommunityItem.id := or_else (Body.id body) uuid;
           CommunityItem.type := Body.type body;
           CommunityItem.title := Body.title body;
           CommunityItem.description := Body.description body;
           CommunityItem.author := Body.author body;
           CommunityItem.data := Body.data body;
           CommunityItem.downloads := 0;
           CommunityItem.timestamp := now |} in
      ({| community := unshift newItem (community db) |},
       {| Reply.success := true; Reply.message := None;
          Reply.id := Some (CommunityItem.id newItem) |})
  end.

(** The body the client's [shareToCommunity] posts for an item. *)
Definition body_of (c : CommunityItem.t) : Body.t :=
  {| Body.id := Some (CommunityItem.id c); Body.type := CommunityItem.type c;
     Body.title := CommunityItem.title c;
     Body.description := CommunityItem.description c;
     Body.author := CommunityItem.author c; Body.data := CommunityItem.data c |}.

End Server.

(** ** Vocabulary of the statements *)

(** The local mirror of a collection, as [getLocal(key, [])] reads it. *)
Definition cached {A} (k : Key (list A)) (w : World) : list A :=
  match getItem k (localStorage w) with
  | Some l => l
  | None => []
  end.

(** What a read obtains from the remote side: the parsed body of a response
    with a success status.  [None] covers a rejected [fetch] (network error,
    timeout), a non-success status and a body that does not parse. *)
Definition obtained {T} (o : FetchOutcome T) : option T :=
  match o with
  | Rejected _ => None
  | Resolved res =>
      if ok res then
        match body res with
        | inr v => Some v
        | inl _ => None
        end
      else None
  end.

(** The world after the requests [rs] went out and nothing else changed. *)
Definition sent (rs : list Request) (w : World) : World :=
  {| token := token w; localStorage := localStorage w;
     requests := requests w ++ rs |}.

(** How many items of [l] carry the identifier [i]. *)
Definition occurrences {A} (key : A -> string) (i : string) (l : list A) : nat :=
  count (fun x => (key x =? i)%string) l.

(** [new] is [old] with the first item whose identifier is that of [x]
    replaced by [x], every other position being as before. *)
Definition replaced_in_place {A} (key : A -> string) (old : list A) (x : A)
    (new : list A) : Prop :=
  exists (i : nat) (y : A),
    old !! i = Some y /\ key y = key x /\
    (forall (j : nat) (z : A), (j < i)%nat -> old !! j = Some z -> key z <> key x) /\
    new !! i = Some x /\
    length new = length old /\
    (forall j : nat, j <> i -> new !! j = old !! j) /\
    occurrences key (key x) new = occurrences key (key x) old.

(** The request a guarded call sends: [fetch(url, { headers: this.getHeaders() })]. *)
Definition bearer_request {T} (ep : Endpoint T) (env : Env) (w : World) : Request :=
  {| method := endpoint_method ep;
     url := API_URL env +:+ endpoint_path ep;
     headers :=
       {| Content_Type := Some "application/json";
          Authorization :=
            Some ("Bearer " +:+
                  match token w with Some t => t | None => "null" end) |} |}.

(** [c'] is [c] after [downloads += 1]: the counter is the sum as the number
    type computes it, every other field is the same. *)
Definition downloads_bumped (c c' : CommunityItem.t) : Prop :=
  CommunityItem.downloads c' = number_add (CommunityItem.downloads c) 1 /\
  CommunityItem.id c' = CommunityItem.id c /\
  CommunityItem.type c' = CommunityItem.type c /\
  CommunityItem.title c' = CommunityItem.title c /\
  CommunityItem.description c' = CommunityItem.description c /\
  CommunityItem.author c' = CommunityItem.author c /\
  CommunityItem.data c' = CommunityItem.data c /\
  CommunityItem.timestamp c' = CommunityItem.timestamp c.

(** The request an unguarded call sends. *)
Definition plain_request {T} (ep : Endpoint T) (h : Headers) (env : Env) : Request :=
  {| method := endpoint_method ep;
     url := API_URL env +:+ endpoint_path ep;
     headers := h |}.

(** ** Sample inputs *)

Definition deck_d1 : Deck.t :=
  {| Deck.id := "d1"; Deck.title := "Old"; Deck.description := "";
     Deck.cards := []; Deck.createdAt := 10 |}.

Definition deck_d1_new : Deck.t :=
  {| Deck.id := "d1"; Deck.title := "New"; Deck.description := "";
     Deck.cards := []; Deck.createdAt := 10 |}.

Definition deck_d2 : Deck.t :=
  {| Deck.id := "d2"; Deck.title := "Other"; Deck.description := "x";
     Deck.cards := []; Deck.createdAt := 20 |}.

Definition note_n1 : Note.t :=
  {| Note.id := "n1"; Note.title := "Old"; Note.subject := "Math";
     Note.content := ""; Note.background := "grid"; Note.createdAt := 1;
     Note.lastModified := 1 |}.

Definition note_n1_new : Note.t :=
  {| Note.id := "n1"; Note.title := "New"; Note.subject := "Math";
     Note.content := "text"; Note.background := "grid"; Note.createdAt := 1;
     Note.lastModified := 2 |}.

Definition note_n2 : Note.t :=
  {| Note.id := "n2"; Note.title := "Other"; Note.subject := "";
     Note.content := ""; Note.background := "lined"; Note.createdAt := 3;
     Note.lastModified := 3 |}.

Definition test_t1 : Test.t :=
  {| Test.id := "t1"; Test.title := "Midterm"; Test.date := 100;
     Test.topics := ["cells"] |}.

Definition test_t2 : Test.t :=
  {| Test.id := "t2"; Test.title := "Final"; Test.date := 200;
     Test.topics := [] |}.

Definition chat_c1 : ChatSession.t :=
  {| ChatSession.id := "c1"; ChatSession.title := "Old";
     ChatSession.messages := []; ChatSession.lastActive := 5 |}.

Definition chat_c1_new : ChatSession.t :=
  {| ChatSession.id := "c1"; ChatSession.title := "New";
     ChatSession.messages := ["hi"]; ChatSession.lastActive := 6 |}.

Definition chat_c2 : ChatSession.t :=
  {| ChatSession.id := "c2"; ChatSession.title := "Other";
     ChatSession.messages := []; ChatSession.lastActive := 7 |}.

Definition stats_s1 : UserStats.t := {| UserStats.xp := 50; UserStats.goals := [] |}.

Definition shared_x1 : CommunityItem.t :=
  {| CommunityItem.id := "x1"; CommunityItem.type := deck;
     CommunityItem.title := "Old"; CommunityItem.description := "No description";
     CommunityItem.author := "Ann"; CommunityItem.data := inl deck_d1;
     CommunityItem.downloads := 7; CommunityItem.timestamp := 30 |}.

Definition shared_x2 : CommunityItem.t :=
  {| CommunityItem.id := "x2"; CommunityItem.type := note;
     CommunityItem.title := "Other"; CommunityItem.description := "Math";
     CommunityItem.author := "Bob"; CommunityItem.data := inr note_n2;
     CommunityItem.downloads := 0; CommunityItem.timestamp := 40 |}.

(** A store holding one or two items per collection. *)
Definition sample_storage : Storage :=
  {| cardsnaps_user := None; cardsnaps_token := Some "tok";
     cardsnaps_decks := Some [deck_d2; deck_d1];
     cardsnaps_notes := Some [note_n2; note_n1];
     cardsnaps_tests := Some [test_t1];
     cardsnaps_stats := Some (Some stats_s1);
     cardsnaps_chats := Some [chat_c2; chat_c1];
     cardsnaps_community_db := Some [shared_x2; shared_x1] |}.

Definition sample_world : World :=
  {| token := Some "tok"; localStorage := sample_storage; requests := [] |}.

Definition fresh_world : World :=
  {| token := None; localStorage := empty_storage; requests := [] |}.

(** The browser offline. *)
Definition offline_env : Env :=
  {| navigator := Some {| onLine := false |}; API_URL := "/api";
     remote := fun T _ => Rejected (MkError "Failed to fetch");
     Date_now := 1700000000000; crypto_randomUUID := "x1" |}.

(** Online, the server unreachable. *)
Definition unreachable_env : Env :=
  {| navigator := Some {| onLine := true |}; API_URL := "/api";
     remote := fun T _ => Rejected (MkError "Failed to fetch");
     Date_now := 1700000000000; crypto_randomUUID := "x3" |}.

(** A response with status 500 and a body that is not JSON. *)
Definition error_response {T} : Response T :=
  {| ok := false; body := inl (MkError "Unexpected token") |}.

(** Online, every request answered with status 500. *)
Definition erroring_env : Env :=
  {| navigator := Some {| onLine := true |}; API_URL := "/api";
     remote := fun T _ => Resolved error_response;
     Date_now := 1700000000000; crypto_randomUUID := "x3" |}.

(** Online, the server answering the reads: one deck, one note, one test, no
    stats record ([null]), one chat session. *)
Definition serving_env : Env :=
  {| navigator := Some {| onLine := true |}; API_URL := "/api";
     remote := fun T ep =>
       match ep in Endpoint T0 return FetchOutcome T0 with
       | GET_decks => Resolved {| ok := true; body := inr [deck_d1_new] |}
       | GET_notes => Resolved {| ok := true; body := inr [note_n1_new] |}
       | GET_tests => Resolved {| ok := true; body := inr [test_t2] |}
       | GET_stats => Resolved {| ok := true; body := inr None |}
       | GET_chats => Resolved {| ok := true; body := inr [chat_c1_new] |}
       | _ => Rejected (MkError "Failed to fetch")
       end;
     Date_now := 1700000000000; crypto_randomUUID := "x3" |}.

(** A server collection holding one published item. *)
Definition sample_db : Server.Db := {| Server.community := [shared_x1] |}.

(** An item whose counter has reached [2^53], and a store holding only it. *)
Definition shared_x9 : CommunityItem.t :=
  {| CommunityItem.id := "x9"; CommunityItem.type := note;
     CommunityItem.title := "Popular"; CommunityItem.description := "Math";
     CommunityItem.author := "Bob"; CommunityItem.data := inr note_n2;
     CommunityItem.downloads := 9007199254740992;
     CommunityItem.timestamp := 40 |}.

Definition saturated_world : World :=
  {| token := None;
     localStorage :=
       {| cardsnaps_user := None; cardsnaps_token := None;
          cardsnaps_decks := None; cardsnaps_notes := None;
          cardsnaps_tests := None; cardsnaps_stats := None;
          cardsnaps_chats := None;
          cardsnaps_community_db := Some [shared_x9] |};
     requests := [] |}.

(** ** Vocabulary for the client as a whole *)

(** What a call guarded by [this.token && this.isOnline()] sends. *)
Definition gated {T} (ep : Endpoint T) (env : Env) (w : World) : list Request :=
  if truthy (token w) && online env then [bearer_request ep env w] else [].

(** What a call guarded by [this.isOnline()] alone sends. *)
Definition ungated {T} (ep : Endpoint T) (h : Headers) (env : Env) : list Request :=
  if online env then [plain_request ep h env] else [].

(** The item [shareToCommunity] builds. *)
Definition shared_item (item : Deck.t + Note.t) (type : ItemType)
    (author : string) (env : Env) : CommunityItem.t :=
  {| CommunityItem.id := crypto_randomUUID env;
     CommunityItem.type := type;
     CommunityItem.title := ApiService.item_title item;
     CommunityItem.description :=
       or_else (ApiService.item_description item)
         (or_else (ApiService.item_subject item) "No description");
     CommunityItem.author := author;
     CommunityItem.data := item;
     CommunityItem.downloads := 0;
     CommunityItem.timestamp := Date_now env |}.

(** The requests a call hands to [fetch], read off the method bodies. *)
Definition call_requests {T} (c : Call T) (env : Env) (w : World) : list Request :=
  match c with
  | IsAuthenticated | SaveProfile _ | Logout => []
  | Login e p => ungated (POST_auth_login e p) json_headers env
  | Register e p n => ungated (POST_auth_register e p n) json_headers env
  | GetMe => gated GET_auth_me env w
  | SavePreferences t c s => gated (PUT_user_preferences t c s) env w
  | GetDecks => gated GET_decks env w
  | CreateDeck d => gated (POST_decks d) env w
  | UpdateDeck d => gated (PUT_decks d) env w
  | DeleteDeck id => gated (DELETE_decks id) env w
  | GetNotes => gated GET_notes env w
  | SaveNote n => gated (POST_notes n) env w
  | DeleteNote id => gated (DELETE_notes id) env w
  | GetTests => gated GET_tests env w
  | AddTest t => gated (POST_tests t) env w
  | DeleteTest id => gated (DELETE_tests id) env w
  | GetStats => gated GET_stats env w
  | SyncStats s => gated (POST_stats s) env w
  | GetChatSessions => gated GET_chats env w
  | SaveChatSession s => gated (POST_chats s) env w
  | ShareToCommunity i t a =>
      ungated (POST_community (shared_item i t a env)) json_headers env
  | GetCommunityItems => ungated GET_community no_headers env
  | IncrementDownload id => ungated (POST_community_download id) no_headers env
  end.

(** The methods guarded by [this.token && this.isOnline()]. *)
Definition needs_credential {T} (c : Call T) : bool :=
  match c with
  | GetMe | SavePreferences _ _ _
  | GetDecks | CreateDeck _ | UpdateDeck _ | DeleteDeck _
  | GetNotes | SaveNote _ | DeleteNote _
  | GetTests | AddTest _ | DeleteTest _
  | GetStats | SyncStats _
  | GetChatSessions | SaveChatSession _ => true
  | _ => false
  end.

(** Two environments that differ at most in how the remote side answers. *)
Definition same_but_remote (env1 env2 : Env) : Prop :=
  navigator env1 = navigator env2 /\
  API_URL env1 = API_URL env2 /\
  Date_now env1 = Date_now env2 /\
  crypto_randomUUID env1 = crypto_randomUUID env2.

(** The [localStorage] keys a method may write or remove. *)
Definition touched {T} (c : Call T) : list string :=
  match c with
  | Login _ _ | Register _ _ _ | Logout => [key_name TOKEN; key_name USER]
  | GetMe | SaveProfile _ | SavePreferences _ _ _ => [key_name USER]
  | GetDecks | CreateDeck _ | UpdateDeck _ | DeleteDeck _ => [key_name DECKS]
  | GetNotes | SaveNote _ | DeleteNote _ => [key_name NOTES]
  | AddTest _ | DeleteTest _ => [key_name TESTS]
  | GetStats | SyncStats _ => [key_name STATS]
  | SaveChatSession _ => [key_name CHATS]
  | ShareToCommunity _ _ _ | GetCommunityItems | IncrementDownload _ =>
      [key_name COMMUNITY]
  | IsAuthenticated | GetTests | GetChatSessions => []
  end.

(** The methods that assign [this.token]. *)
Definition assigns_token {T} (c : Call T) : bool :=
  match c with
  | Login _ _ | Register _ _ _ | Logout => true
  | _ => false
  end.

(** A guarded read gets nothing from the remote side: the guard is closed, or
    the fetch is rejected, has a non-success status or an unparsable body. *)
Definition nothing_obtained {T} (ep : Endpoint T) (env : Env) (w : World) : Prop :=
  truthy (token w) && online env = false \/ obtained (remote env T ep) = None.

(** No two items of a mirror share an id, for each of the five collections. *)
Definition distinct_ids (w : World) : Prop :=
  List.NoDup (map Deck.id (cached DECKS w)) /\
  List.NoDup (map Note.id (cached NOTES w)) /\
  List.NoDup (map Test.id (cached TESTS w)) /\
  List.NoDup (map ChatSession.id (cached CHATS w)) /\
  List.NoDup (map CommunityItem.id (cached COMMUNITY w)).

(** What the caller and the server must supply for ids to stay distinct:
    [createDeck] and [addTest], which insert without looking, get an id that
    is not in the mirror; a list read from the server has distinct ids. *)
Definition supplies_distinct_ids {T} (c : Call T) (env : Env) (w : World) : Prop :=
  match c with
  | CreateDeck d => ~ In (Deck.id d) (map Deck.id (cached DECKS w))
  | AddTest t => ~ In (Test.id t) (map Test.id (cached TESTS w))
  | GetDecks =>
      forall l, obtained (remote env _ GET_decks) = Some l ->
                List.NoDup (map Deck.id l)
  | GetNotes =>
      forall l, obtained (remote env _ GET_notes) = Some l ->
                List.NoDup (map Note.id l)
  | GetCommunityItems =>
      forall l, obtained (remote env _ GET_community) = Some l ->
                List.NoDup (map CommunityItem.id l)
  | _ => True
  end.

Definition deck_d3 : Deck.t :=
  {| Deck.id := "d3"; Deck.title := "Third"; Deck.description := "";
     Deck.cards := []; Deck.createdAt := 30 |}.

Definition note_n3 : Note.t :=
  {| Note.id := "n3"; Note.title := "Third"; Note.subject := "";
     Note.content := ""; Note.background := "plain"; Note.createdAt := 8;
     Note.lastModified := 8 |}.

Definition chat_c3 : ChatSession.t :=
  {| ChatSession.id := "c3"; ChatSession.title := "Third";
     ChatSession.messages := []; ChatSession.lastActive := 9 |}.

(** The profile object the two profile writers start from:
    [getLocal(KEYS.USER, {})], spread. *)
Definition stored_profile (w : World) : JsObject :=
  object_of match getItem USER (localStorage w) with
            | Some v => v
            | None => Some ∅
            end.

Definition profile_ann : JsObject :=
  <["name" := JString "Ann"]> (<["themeMode" := JString "dark"]> ∅).

(** ** The REST server (the express handlers) *)

Module Backend.

(** [Array.prototype.sort(compare)]: the array ordered so that [compare a b]
    is not positive for [a] before [b], elements that compare equal keeping
    their order (the sort is stable).  For a comparator that is a difference
    of numeric keys this fixes the result; it is computed here by insertion. *)
Fixpoint insert_sorted {A} (compare : A -> A -> Z) (x : A) (l : list A) : list A :=
  match l with
  | [] => [x]
  | y :: l' =>
      if compare x y <=? 0 then x :: y :: l'
      else y :: insert_sorted compare x l'
  end.

Definition sort {A} (compare : A -> A -> Z) (l : list A) : list A :=
  fold_right (insert_sorted compare) [] l.

(** [arr.slice(0, n)] *)
Definition slice0 {A} (n : nat) (l : list A) : list A := firstn n l.

(** [const x = arr.find(p); if (x) { ..assign fields of x.. }]: the array
    with its first element satisfying [p] changed by [f]; [None] when [find]
    gives [undefined]. *)
Fixpoint update_first {A} (p : A -> bool) (f : A -> A) (l : list A) :
    option (list A) :=
  match l with
  | [] => None
  | x :: l' =>
      if p x then Some (f x :: l')
      else match update_first p f l' with
           | Some l'' => Some (x :: l'')
           | None => None
           end
  end.

(** The space character. *)
Definition space : Ascii.ascii := Ascii.ascii_of_nat 32.

(** [s.split(' ')]: the pieces between the spaces; never the empty list. *)
Fixpoint split_space (s : string) : list string :=
  match s with
  | EmptyString => [EmptyString]
  | String c s' =>
      if Ascii.eqb c space then EmptyString :: split_space s'
      else match split_space s' with
           | [] => [String c EmptyString]
           | piece :: pieces => String c piece :: pieces
           end
  end.

(** What a handler sends back: [res.json(body)] with status 200,
    [res.status(code).json({ error })], or [res.sendStatus(code)]. *)
Inductive Reply (B : Type) :=
| Ok (body : B)
| Failed (code : Z) (error : string)
| SendStatus (code : Z).
Arguments Ok {B} body.
Arguments Failed {B} code error.
Arguments SendStatus {B} code.

(** The body [{ success: true }]. *)
Inductive Done := Success.

(** The status code of a reply. *)
Definition status {B} (r : Reply B) : Z :=
  match r with
  | Ok _ => 200
  | Failed code _ => code
  | SendStatus code => code
  end.

(** *** Rows of the database *)

Module User.
(** An element of [db.data.users], as the registration handler builds it. *)
Record t := {
  id : string; email : string; password : string; name : string;
  avatar : string; gradeLevel : string; themeMode : string;
  colorScheme : string; enableSeasonal : bool; created_at : Z }.
End User.

Module UserSafe.
(** [const { password: _, ...userSafe } = user]: a user without its
    password. *)
Record t := {
  id : string; email : string; name : string; avatar : string;
  gradeLevel : string; themeMode : string; colorScheme : string;
  enableSeasonal : bool; created_at : Z }.
End UserSafe.

Definition userSafe (u : User.t) : UserSafe.t :=
  {| UserSafe.id := User.id u; UserSafe.email := User.email u;
     UserSafe.name := User.name u; UserSafe.avatar := User.avatar u;
     UserSafe.gradeLevel := User.gradeLevel u;
     UserSafe.themeMode := User.themeMode u;
     UserSafe.colorScheme := User.colorScheme u;
     UserSafe.enableSeasonal := User.enableSeasonal u;
     UserSafe.created_at := User.created_at u |}.

Module DeckRow.
(** An element of [db.data.decks]. *)
Record t := {
  id : string; userId : string; title : string; description : string;
  cards : list Card.t; created_at : Z }.
End DeckRow.

Module DeckView.
(** What GET /api/decks sends for a row: [{ ...d, cards, createdAt }]. *)
Record t := {
  id : string; userId : string; title : string; description : string;
  cards : list Card.t; created_at : Z; createdAt : Z }.
End DeckView.

Module NoteRow.
(** An element of [db.data.notes]. *)
Record t := {
  id : string; userId : string; title : string; subject : string;
  content : string; background : string; created_at : Z; updated_at : Z }.
End NoteRow.

Module NoteView.
(** What GET /api/notes sends for a row:
    [{ ...n, createdAt, lastModified }]. *)
Record t := {
  id : string; userId : string; title : string; subject : string;
  content : string; background : string; created_at : Z; updated_at : Z;
  createdAt : Z; lastModified : Z }.
End NoteView.

(** A JSON value, as [express.json()] parses it from a request body and as
    the database holds it. *)
#[warnings="-register-all"]
Inductive Json :=
| JNull
| JBoolean (b : bool)
| JNum (n : Z)
| JStr (s : string)
| JArr (items : list Json)
| JObj (fields : list (string * Json)).

Module StatsRow.
(** An element of [db.data.stats]: a JavaScript object.  The registration
    handler creates it with the fields [userId], [xp] and [goals]; POST
    /api/stats spreads over it whatever fields the request body has. *)
Abbreviation t := (gmap string Json).

(** [{ userId: id, xp: 0, goals: [] }] *)
Definition initial (id : string) : t :=
  <["userId" := JStr id]> (<["xp" := JNum 0]> (<["goals" := JArr []]> ∅)).

(** [s.userId === id], for the string [id] of a verified token. *)
Definition owned_by (id : string) (s : t) : bool :=
  match s !! "userId" with
  | Some (JStr u) => (u =? id)%string
  | _ => false
  end.
End StatsRow.

(** The object with the fields of the [UserStats] above: what the
    [JSON.stringify(stats)] of the client's [syncStats] is parsed to. *)
Definition stats_body (s : UserStats.t) : StatsRow.t :=
  <["xp" := JNum (UserStats.xp s)]>
    (<["goals" := JArr (map JStr (UserStats.goals s))]> ∅).

(** [db.data], without the tests and chat sessions. *)
Record Db := {
  users : list User.t;
  decks : list DeckRow.t;
  notes : list NoteRow.t;
  stats : list StatsRow.t;
  community : list CommunityItem.t }.

Definition with_users (v : list User.t) (db : Db) : Db :=
  {| users := v; decks := decks db; notes := notes db; stats := stats db;
     community := community db |}.

Definition with_decks (v : list DeckRow.t) (db : Db) : Db :=
  {| users := users db; decks := v; notes := notes db; stats := stats db;
     community := community db |}.

Definition with_notes (v : list NoteRow.t) (db : Db) : Db :=
  {| users := users db; decks := decks db; notes := v; stats := stats db;
     community := community db |}.

Definition with_stats (v : list StatsRow.t) (db : Db) : Db :=
  {| users := users db; decks := decks db; notes := notes db; stats := v;
     community := community db |}.

Definition with_community (v : list CommunityItem.t) (db : Db) : Db :=
  {| users := users db; decks := decks db; notes := notes db; stats := stats db;
     community := v |}.

(** *** Request bodies *)

Module RegisterBody.
(** [const { email, password, name } = req.body]; a field the body lacks is
    [None]. *)
Record t := { email : option string; password : option string; name : string }.
End RegisterBody.

Module DeckBody.
(** [const { id, title, description, cards } = req.body] *)
Record t := {
  id : option string; title : string; description : string;
  cards : list Card.t }.
End DeckBody.

Module NoteBody.
(** [const { id, title, subject, content, background } = req.body] *)
Record t := {
  id : option string; title : string; subject : string; content : string;
  background : string }.
End NoteBody.

(** [{ token, user }], the body of a successful registration or login. *)
Module Session.
Record t := { token : string; user : UserSafe.t }.
End Session.

(** The payload of a verified token: [{ id, email }]. *)
Module Claims.
Record t := { id : string; email : string }.
End Claims.

(** The library calls of the handlers: [bcrypt.compare], [jwt.sign] and
    [jwt.verify] with [SECRET_KEY], and [encodeURIComponent].
    [jwt.sign(payload, SECRET_KEY)] stamps the token with the second it is
    issued at, read from the clock: [jwt_sign payload iat].
    [encodeURIComponent] throws a [URIError] on a string with a lone
    surrogate: [None]. *)
Record Lib := {
  bcrypt_compare : string -> string -> bool;
  jwt_sign : Claims.t -> Z -> string;
  jwt_verify : string -> option Claims.t;
  encodeURIComponent : string -> option string }.

(** What the runtime hands a request: [generateUUID()], [Date.now()], the
    outcome of [await bcrypt.hash(password, 10)] ([None] when it rejected)
    and the second [jwt.sign] reads from the clock. *)
Record Fresh := { uuid : string; now : Z; hashed : option string; iat : Z }.

(** *** Authentication *)

(** [authenticateToken]: the token is the second piece of the
    [authorization] header; without one the answer is 401, with one that does
    not verify it is 403, otherwise the handler runs for the verified user. *)
Definition authenticateToken {B} (lib : Lib) (authorization : option string)
    (next : Claims.t -> Db -> Db * Reply B) (db : Db) : Db * Reply B :=
  let token :=
    match authorization with
    | None => None
    | Some authHeader =>
        if (authHeader =? "")%string then Some ""
        else nth_error (split_space authHeader) 1
    end in
  if negb (truthy token) then (db, SendStatus 401)
  else
    match jwt_verify lib (default "" token) with
    | None => (db, SendStatus 403)
    | Some user => next user db
    end.

(** [app.post('/api/auth/register', ..)]; whatever is thrown between [try]
    and [catch] is answered with 500 "Server Error". *)
Definition post_auth_register (lib : Lib) (fresh : Fresh) (body : RegisterBody.t)
    (db : Db) : Db * Reply Session.t :=
  if negb (truthy (RegisterBody.email body)) ||
     negb (truthy (RegisterBody.password body)) then
    (db, Failed 400 "Missing fields")
  else
    let email := default "" (RegisterBody.email body) in
    match find (fun u => (User.email u =? email)%string) (users db) with
    | Some _ => (db, Failed 400 "Email already exists")
    | None =>
        match hashed fresh with
        | None => (db, Failed 500 "Server Error")
        | Some hashedPassword =>
            let id := uuid fresh in
            let name := RegisterBody.name body in
            match encodeURIComponent lib name with
            | None => (db, Failed 500 "Server Error")
            | Some seed =>
                let avatar :=
                  "https://api.dicebear.com/7.x/avataaars/svg?seed=" +:+ seed in
                let newUser :=
                  {| User.id := id; User.email := email;
                     User.password := hashedPassword; User.name := name;
                     User.avatar := avatar; User.gradeLevel := "10th Grade";
                     User.themeMode := "dark"; User.colorScheme := "midnight";
                     User.enableSeasonal := true;
                     User.created_at := now fresh |} in
                let db1 := with_users (push newUser (users db)) db in
                let db2 :=
                  with_stats (push (StatsRow.initial id) (stats db1)) db1 in
                let token :=
                  jwt_sign lib {| Claims.id := id; Claims.email := email |}
                    (iat fresh) in
                (db2, Ok {| Session.token := token;
                            Session.user := userSafe newUser |})
            end
        end
    end.

(** [app.post('/api/auth/login', ..)], for a body whose [email] and
    [password] are strings. *)
Definition post_auth_login (lib : Lib) (fresh : Fresh) (email password : string)
    (db : Db) : Db * Reply Session.t :=
  match find (fun u => (User.email u =? email)%string) (users db) with
  | None => (db, Failed 400 "User not found")
  | Some user =>
      if bcrypt_compare lib password (User.password user) then
        let token :=
          jwt_sign lib {| Claims.id := User.id user;
                          Claims.email := User.email user |} (iat fresh) in
        (db, Ok {| Session.token := token; Session.user := userSafe user |})
      else (db, Failed 403 "Invalid password")
  end.

(** *** Decks *)

(** [d => ({ ...d, cards: .., createdAt: d.created_at })].  Cards are kept
    as the array POST /api/decks stores; a database file holding them as JSON
    text is outside this model. *)
Definition deck_view (d : DeckRow.t) : DeckView.t :=
  {| DeckView.id := DeckRow.id d; DeckView.userId := DeckRow.userId d;
     DeckView.title := DeckRow.title d;
     DeckView.description := DeckRow.description d;
     DeckView.cards := DeckRow.cards d;
     DeckView.created_at := DeckRow.created_at d;
     DeckView.createdAt := DeckRow.created_at d |}.

(** [app.get('/api/decks', authenticateToken, ..)] *)
Definition get_decks (user : Claims.t) (db : Db) : Db * Reply (list DeckView.t) :=
  let userDecks :=
    sort (fun a b => DeckRow.created_at b - DeckRow.created_at a)
      (List.filter (fun d => (DeckRow.userId d =? Claims.id user)%string)
         (decks db)) in
  let processed := map deck_view userDecks in
  (db, Ok processed).

(** [app.post('/api/decks', authenticateToken, ..)] *)
Definition post_decks (fresh : Fresh) (body : DeckBody.t) (user : Claims.t)
    (db : Db) : Db * Reply DeckRow.t :=
  let deckId := or_else (DeckBody.id body) (uuid fresh) in
  let newDeck :=
    {| DeckRow.id := deckId; DeckRow.userId := Claims.id user;
       DeckRow.title := DeckBody.title body;
       DeckRow.description := DeckBody.description body;
       DeckRow.cards := DeckBody.cards body;
       DeckRow.created_at := now fresh |} in
  (with_decks (unshift newDeck (decks db)) db, Ok newDeck).

(** [app.put('/api/decks/:id', authenticateToken, ..)] *)
Definition put_decks (id : string) (body : DeckBody.t) (user : Claims.t)
    (db : Db) : Db * Reply Done :=
  let mine (d : DeckRow.t) :=
    (DeckRow.id d =? id)%string && (DeckRow.userId d =? Claims.id user)%string in
  let assign (deck : DeckRow.t) :=
    {| DeckRow.id := DeckRow.id deck; DeckRow.userId := DeckRow.userId deck;
       DeckRow.title := DeckBody.title body;
       DeckRow.description := DeckBody.description body;
       DeckRow.cards := DeckBody.cards body;
       DeckRow.created_at := DeckRow.created_at deck |} in
  match update_first mine assign (decks db) with
  | Some decks' => (with_decks decks' db, Ok Success)
  | None => (db, Failed 404 "Deck not found")
  end.

(** [app.delete('/api/decks/:id', authenticateToken, ..)] *)
Definition delete_decks (id : string) (user : Claims.t) (db : Db) :
    Db * Reply Done :=
  let initialLen := length (decks db) in
  let mine (d : DeckRow.t) :=
    (DeckRow.id d =? id)%string && (DeckRow.userId d =? Claims.id user)%string in
  let db' := with_decks (List.filter (fun d => negb (mine d)) (decks db)) db in
  if negb (length (decks db') =? initialLen)%nat then (db', Ok Success)
  else (db', Failed 404 "Deck not found").

(** *** Notes *)

(** [n => ({ ...n, createdAt: n.created_at, lastModified: n.updated_at })] *)
Definition note_view (n : NoteRow.t) : NoteView.t :=
  {| NoteView.id := NoteRow.id n; NoteView.userId := NoteRow.userId n;
     NoteView.title := NoteRow.title n;
     NoteView.subject := NoteRow.subject n;
     NoteView.content := NoteRow.content n;
     NoteView.background := NoteRow.background n;
     NoteView.created_at := NoteRow.created_at n;
     NoteView.updated_at := NoteRow.updated_at n;
     NoteView.createdAt := NoteRow.created_at n;
     NoteView.lastModified := NoteRow.updated_at n |}.

(** [app.get('/api/notes', authenticateToken, ..)] *)
Definition get_notes (user : Claims.t) (db : Db) : Db * Reply (list NoteView.t) :=
  let userNotes :=
    sort (fun a b => NoteRow.updated_at b - NoteRow.updated_at a)
      (List.filter (fun n => (NoteRow.userId n =? Claims.id user)%string)
         (notes db)) in
  (db, Ok (map note_view userNotes)).

(** [app.post('/api/notes', authenticateToken, ..)]; the reply echoes the
    request body. *)
Definition post_notes (fresh : Fresh) (body : NoteBody.t) (user : Claims.t)
    (db : Db) : Db * Reply NoteBody.t :=
  let existing (n : NoteRow.t) :=
    match NoteBody.id body with
    | Some id => (NoteRow.id n =? id)%string
    | None => false
    end && (NoteRow.userId n =? Claims.id user)%string in
  let assign (n : NoteRow.t) :=
    {| NoteRow.id := NoteRow.id n; NoteRow.userId := NoteRow.userId n;
       NoteRow.title := NoteBody.title body;
       NoteRow.subject := NoteBody.subject body;
       NoteRow.content := NoteBody.content body;
       NoteRow.background := NoteBody.background body;
       NoteRow.created_at := NoteRow.created_at n;
       NoteRow.updated_at := now fresh |} in
  match update_first existing assign (notes db) with
  | Some notes' => (with_notes notes' db, Ok body)
  | None =>
      (with_notes
         (unshift
            {| NoteRow.id := or_else (NoteBody.id body) (uuid fresh);
               NoteRow.userId := Claims.id user;
               NoteRow.title := NoteBody.title body;
               NoteRow.subject := NoteBody.subject body;
               NoteRow.content := NoteBody.content body;
               NoteRow.background := NoteBody.background body;
               NoteRow.created_at := now fresh;
               NoteRow.updated_at := now fresh |} (notes db)) db,
       Ok body)
  end.

(** [app.delete('/api/notes/:id', authenticateToken, ..)] *)
Definition delete_notes (id : string) (user : Claims.t) (db : Db) :
    Db * Reply Done :=
  (with_notes
     (List.filter
        (fun n => negb ((NoteRow.id n =? id)%string &&
                        (NoteRow.userId n =? Claims.id user)%string))
        (notes db)) db,
   Ok Success).

(** *** Stats *)

(** [app.get('/api/stats', authenticateToken, ..)]: the user's row, or
    [null]. *)
Definition get_stats (user : Claims.t) (db : Db) :
    Db * Reply (option StatsRow.t) :=
  (db, Ok (find (StatsRow.owned_by (Claims.id user)) (stats db))).

(** [app.post('/api/stats', authenticateToken, ..)]: the whole request body
    is spread over the first row of the user, [{ ...row, ...newStats }], or,
    when there is none, over [{ userId }] and the result is pushed.  Every
    field of the body wins, [userId] included. *)
Definition post_stats (newStats : StatsRow.t) (user : Claims.t) (db : Db) :
    Db * Reply Done :=
  match update_first (StatsRow.owned_by (Claims.id user))
          (fun row => newStats ∪ row) (stats db) with
  | Some stats' => (with_stats stats' db, Ok Success)
  | None =>
      (with_stats
         (push (newStats ∪ <["userId" := JStr (Claims.id user)]> ∅) (stats db))
         db,
       Ok Success)
  end.

(** *** Community *)

(** [app.get('/api/community', ..)]: [sort] orders [db.data.community] in
    place, newest first; the first fifty are sent. *)
Definition get_community (db : Db) : Db * Reply (list CommunityItem.t) :=
  let sorted :=
    sort (fun a b => CommunityItem.timestamp b - CommunityItem.timestamp a)
      (community db) in
  (with_community sorted db, Ok (slice0 50 sorted)).

(** [app.post('/api/community', ..)], on the whole database. *)
Definition post_community (fresh : Fresh) (body : Server.Body.t) (db : Db) :
    Db * Server.Reply.t :=
  let '(c, reply) :=
    Server.post_community (uuid fresh) (now fresh) body
      {| Server.community := community db |} in
  (with_community (Server.community c) db, reply).

(** [app.post('/api/community/:id/download', ..)] *)
Definition post_community_download (id : string) (db : Db) : Db * Reply Done :=
  match update_first (fun i => (CommunityItem.id i =? id)%string)
          CommunityItem.bump (community db) with
  | Some community' => (with_community community' db, Ok Success)
  | None => (db, Failed 404 "Item not found")
  end.

End Backend.

(** ** Vocabulary for the server *)

(** Every element is followed only by elements whose key is not larger. *)
Fixpoint newest_first {A} (key : A -> Z) (l : list A) : Prop :=
  match l with
  | [] => True
  | x :: l' => (forall y, In y l' -> key y <= key x) /\ newest_first key l'
  end.

(** Everything in the database except the deck, note and stats rows of
    [owner]: the rows of the other users in their order, the users and the
    community collection. *)
Definition outside_of (owner : string) (db : Backend.Db) :
    list Backend.DeckRow.t * list Backend.NoteRow.t * list Backend.StatsRow.t *
    list Backend.User.t * list CommunityItem.t :=
  (List.filter (fun d => negb (Backend.DeckRow.userId d =? owner)%string)
     (Backend.decks db),
   List.filter (fun n => negb (Backend.NoteRow.userId n =? owner)%string)
     (Backend.notes db),
   List.filter (fun s => negb (Backend.StatsRow.owned_by owner s))
     (Backend.stats db),
   Backend.users db, Backend.community db).

(** The body of a POST /api/stats leaves the row with its owner [me]: it
    has no [userId] field, or the field is [me]. *)
Definition keeps_owner (me : string) (body : Backend.StatsRow.t) : Prop :=
  body !! "userId" = None \/ body !! "userId" = Some (Backend.JStr me).

(** The row GET /api/stats finds for [me], or the [{ userId }] a first post
    starts from. *)
Definition stats_before (me : string) (db : Backend.Db) : Backend.StatsRow.t :=
  default (<["userId" := Backend.JStr me]> ∅)
    (find (Backend.StatsRow.owned_by me) (Backend.stats db)).

(** The [userId] field of every stats row, in order. *)
Definition owners (db : Backend.Db) : list (option Backend.Json) :=
  map (fun s : Backend.StatsRow.t => s !! "userId") (Backend.stats db).

(** No character of [s] is a space. *)
Fixpoint has_no_space (s : string) : bool :=
  match s with
  | EmptyString => true
  | String c s' => negb (Ascii.eqb c Backend.space) && has_no_space s'
  end.

(** ** Sample inputs for the server *)

Definition sample_lib : Backend.Lib :=
  {| Backend.bcrypt_compare := fun password hash => (hash =? "h:" +:+ password)%string;
     Backend.jwt_sign := fun c iat =>
       if iat =? 0 then "jwt:" +:+ Backend.Claims.id c
       else "jwt+:" +:+ Backend.Claims.id c;
     Backend.jwt_verify := fun t =>
       if (t =? "jwt:u1")%string
       then Some {| Backend.Claims.id := "u1"; Backend.Claims.email := "ann@x.org" |}
       else None;
     Backend.encodeURIComponent := fun s => Some s |}.

Definition sample_fresh : Backend.Fresh :=
  {| Backend.uuid := "u2"; Backend.now := 500; Backend.hashed := Some "h:secret";
     Backend.iat := 0 |}.

(** A later request: the clock has moved on. *)
Definition later_fresh : Backend.Fresh :=
  {| Backend.uuid := "u3"; Backend.now := 90500; Backend.hashed := Some "h:secret";
     Backend.iat := 90 |}.

Definition user_ann : Backend.User.t :=
  {| Backend.User.id := "u1"; Backend.User.email := "ann@x.org";
     Backend.User.password := "h:pw"; Backend.User.name := "Ann";
     Backend.User.avatar := ""; Backend.User.gradeLevel := "10th Grade";
     Backend.User.themeMode := "dark"; Backend.User.colorScheme := "midnight";
     Backend.User.enableSeasonal := true; Backend.User.created_at := 1 |}.

Definition claims_ann : Backend.Claims.t :=
  {| Backend.Claims.id := "u1"; Backend.Claims.email := "ann@x.org" |}.

Definition row_d1 : Backend.DeckRow.t :=
  {| Backend.DeckRow.id := "d1"; Backend.DeckRow.userId := "u1";
     Backend.DeckRow.title := "Old"; Backend.DeckRow.description := "";
     Backend.DeckRow.cards := []; Backend.DeckRow.created_at := 10 |}.

Definition row_d2 : Backend.DeckRow.t :=
  {| Backend.DeckRow.id := "d2"; Backend.DeckRow.userId := "u9";
     Backend.DeckRow.title := "Theirs"; Backend.DeckRow.description := "";
     Backend.DeckRow.cards := []; Backend.DeckRow.created_at := 20 |}.

Definition row_d3 : Backend.DeckRow.t :=
  {| Backend.DeckRow.id := "d3"; Backend.DeckRow.userId := "u1";
     Backend.DeckRow.title := "Newer"; Backend.DeckRow.description := "";
     Backend.DeckRow.cards := []; Backend.DeckRow.created_at := 30 |}.

Definition body_n1 : Backend.NoteBody.t :=
  {| Backend.NoteBody.id := Some "n1"; Backend.NoteBody.title := "Note";
     Backend.NoteBody.subject := "Math"; Backend.NoteBody.content := "";
     Backend.NoteBody.background := "grid" |}.

Definition body_d1 : Backend.DeckBody.t :=
  {| Backend.DeckBody.id := Some "d1"; Backend.DeckBody.title := "New";
     Backend.DeckBody.description := ""; Backend.DeckBody.cards := [] |}.

Definition register_bob : Backend.RegisterBody.t :=
  {| Backend.RegisterBody.email := Some "bob@x.org";
     Backend.RegisterBody.password := Some "secret";
     Backend.RegisterBody.name := "Bob" |}.

(** A stats body that names another user. *)
Definition body_reowning : Backend.StatsRow.t :=
  <["userId" := Backend.JStr "u9"]> (<["xp" := Backend.JNum 1]> ∅).

Definition sample_backend : Backend.Db :=
  {| Backend.users := [user_ann];
     Backend.decks := [row_d1; row_d2; row_d3];
     Backend.notes := [];
     Backend.stats :=
       [<["userId" := Backend.JStr "u1"]>
          (<["xp" := Backend.JNum 5]> (<["goals" := Backend.JArr []]> ∅))];
     Backend.community := [shared_x2; shared_x1] |}.

(** * Properties *)

(** ** Storage slots *)

Lemma getItem_write_same {T} (k : Key T) (v : option T) (s : Storage) :
  getItem k (write_slot k v s) = v.
Proof. destruct k; reflexivity. Qed.

Lemma getItem_write_other {T U} (k : Key T) (k' : Key U) (v : option U)
    (s : Storage) :
  key_name k <> key_name k' -> getItem k (write_slot k' v s) = getItem k s.
Proof. destruct k, k'; simpl; intros H; try reflexivity; congruence. Qed.

Lemma write_slot_twice {T} (k : Key T) (u v : option T) (s : Storage) :
  write_slot k v (write_slot k u s) = write_slot k v s.
Proof. destruct k; reflexivity. Qed.

Lemma write_slot_same {T} (k : Key T) (s : Storage) :
  write_slot k (getItem k s) s = s.
Proof. destruct k, s; reflexivity. Qed.

(** ** Running the monad *)

Lemma bind_Return {A B} (m : Op A) (k : A -> Op B) env w a w' :
  m env w = (Return a, w') -> bind m k env w = k a env w'.
Proof. unfold bind; intros ->; reflexivity. Qed.

Lemma bind_Throw {A B} (m : Op A) (k : A -> Op B) env w e w' :
  m env w = (Throw e, w') -> bind m k env w = (Throw e, w').
Proof. unfold bind; intros ->; reflexivity. Qed.

Lemma sent_nil w : sent [] w = w.
Proof. destruct w; unfold sent; simpl; rewrite app_nil_r; reflexivity. Qed.

Lemma token_and_online_run env w :
  ApiService.token_and_online env w =
  (Return (truthy (token w) && online env), w).
Proof.
  unfold ApiService.token_and_online, ApiService.isOnline, bind, this_token, ask, ret.
  simpl. destruct (truthy (token w)); reflexivity.
Qed.

(** A best-effort remote write: whatever the remote side does, control goes
    on; only the request log can have grown, and not at all when the guard is
    false. *)
Lemma attempt_run {T} (ep : Endpoint T) (h : Op Headers) (c : bool) env w :
  (forall w0, exists hd, h env w0 = (Return hd, w0)) ->
  exists rs,
    (c = false -> rs = []) /\
    (if c then try_catch (x <- h ;; fetch ep x ;; ret tt) ignore else ret tt)
      env w = (Return tt, sent rs w).
Proof.
  intros Hh. destruct c.
  - destruct (Hh w) as [hd Hhd].
    unfold try_catch. rewrite (bind_Return _ _ _ _ _ _ Hhd).
    unfold bind, fetch, ignore, ret.
    destruct (remote env T ep); eexists; (split; [discriminate | reflexivity]).
  - exists []. split; [reflexivity |]. unfold ret. rewrite sent_nil. reflexivity.
Qed.

Lemma getHeaders_run env w : exists hd, ApiService.getHeaders env w = (Return hd, w).
Proof. eexists; reflexivity. Qed.

(** Every write has the same opening: the guarded, best-effort remote call.
    After it the local part runs in a world that differs from the initial one
    by the requests sent at most. *)
Lemma write_through_run {T B} (ep : Endpoint T) (local : Op B) env w :
  exists rs,
    (truthy (token w) && online env = false -> rs = []) /\
    (c <- ApiService.token_and_online ;;
     (if c then
        try_catch (h <- ApiService.getHeaders ;; fetch ep h ;; ret tt) ignore
      else ret tt) ;;
     local) env w = local env (sent rs w).
Proof.
  rewrite (bind_Return _ _ _ _ _ _ (token_and_online_run env w)).
  destruct (attempt_run ep ApiService.getHeaders
              (truthy (token w) && online env) env w) as [rs [Hrs Hrun]].
  { intros w0. apply getHeaders_run. }
  exists rs. split; [exact Hrs |].
  rewrite (bind_Return _ _ _ _ _ _ Hrun). reflexivity.
Qed.

(** ** findIndex and in-place replacement *)

Section FindIndex.
Context {A : Type}.
Implicit Types (p : A -> bool) (l : list A).

Lemma findIndex_lower p l : -1 <= findIndex p l.
Proof.
  induction l as [|x l IH]; simpl; [lia |].
  destruct (p x); [lia |].
  destruct (findIndex p l =? -1) eqn:E; lia.
Qed.

Lemma findIndex_absent p l :
  (forall x, In x l -> p x = false) -> findIndex p l = -1.
Proof.
  induction l as [|x l IH]; simpl; intros H; [reflexivity |].
  rewrite (H x) by (left; reflexivity).
  rewrite IH by (intros y Hy; apply H; right; exact Hy).
  reflexivity.
Qed.

Lemma findIndex_found p l :
  findIndex p l <> -1 ->
  exists (i : nat) (x : A),
    findIndex p l = Z.of_nat i /\ l !! i = Some x /\ p x = true /\
    (forall (j : nat) (z : A), (j < i)%nat -> l !! j = Some z -> p z = false).
Proof.
  induction l as [|x l IH]; simpl; intros H; [congruence |].
  destruct (p x) eqn:Hp.
  - exists 0%nat, x. repeat split; auto. intros j z Hj; lia.
  - destruct (findIndex p l =? -1) eqn:E; [congruence |].
    apply Z.eqb_neq in E. destruct (IH E) as (i & y & Hi & Hy & Hpy & Hlt).
    exists (S i), y. repeat split; auto.
    + rewrite Hi. lia.
    + intros [|j] z Hj Hz; simpl in Hz.
      * congruence.
      * apply (Hlt j); [lia | exact Hz].
Qed.

Lemma findIndex_present p l x :
  In x l -> p x = true -> findIndex p l <> -1.
Proof.
  induction l as [|y l IH]; simpl; intros Hin Hp; [contradiction |].
  destruct (p y) eqn:Hy; [lia |].
  destruct Hin as [-> | Hin]; [congruence |].
  specialize (IH Hin Hp). apply Z.eqb_neq in IH. rewrite IH.
  pose proof (findIndex_lower p l). apply Z.eqb_neq in IH. lia.
Qed.

Lemma count_insert p l (i : nat) x y :
  l !! i = Some y -> p y = p x -> count p (<[i:=x]> l) = count p l.
Proof.
  unfold count. revert i. induction l as [|z l IH]; intros [|i] Hl Hp;
    simpl in *; try congruence.
  - injection Hl as ->. rewrite Hp. destruct (p x); reflexivity.
  - specialize (IH i Hl Hp). destruct (p z); simpl; congruence.
Qed.

Lemma filter_twice p l : List.filter p (List.filter p l) = List.filter p l.
Proof.
  induction l as [|x l IH]; simpl; [reflexivity |].
  destruct (p x) eqn:E; simpl; [rewrite E, IH |]; auto.
Qed.

End FindIndex.

Section Identifiers.
Context {A : Type} (key : A -> string).

Lemma findIndex_id_absent (i : string) (l : list A) :
  ~ In i (map key l) -> findIndex (fun y => (key y =? i)%string) l = -1.
Proof.
  intros H. apply findIndex_absent. intros y Hy.
  apply String.eqb_neq. intros E. apply H. rewrite <- E. apply in_map. exact Hy.
Qed.

Lemma findIndex_id_present (i : string) (l : list A) :
  In i (map key l) -> findIndex (fun y => (key y =? i)%string) l <> -1.
Proof.
  intros H. apply in_map_iff in H. destruct H as (y & Hk & Hy).
  apply (findIndex_present _ _ y Hy). apply String.eqb_eq. exact Hk.
Qed.

Lemma find_id_present (i : string) (l : list A) :
  In i (map key l) -> exists y, find (fun y => (key y =? i)%string) l = Some y.
Proof.
  intros H. apply in_map_iff in H. destruct H as (y & Hk & Hy).
  unfold find.
  destruct (List.find (fun y => (key y =? i)%string) l) eqn:E; [eauto |].
  pose proof (find_none _ _ E y Hy) as Hn. simpl in Hn.
  apply String.eqb_neq in Hn. congruence.
Qed.

Lemma find_id_absent (i : string) (l : list A) :
  ~ In i (map key l) -> find (fun y => (key y =? i)%string) l = None.
Proof.
  intros H. unfold find.
  destruct (List.find (fun y => (key y =? i)%string) l) eqn:E; [| reflexivity].
  apply find_some in E. destruct E as [Hin Hk]. apply String.eqb_eq in Hk.
  exfalso. apply H. rewrite <- Hk. apply in_map. exact Hin.
Qed.

(** [arr[findIndex(..)] = x] replaces in place. *)
Lemma array_set_replaces (x : A) (l : list A) :
  In (key x) (map key l) ->
  replaced_in_place key l x
    (array_set l (findIndex (fun y => (key y =? key x)%string) l) x).
Proof.
  intros H. apply findIndex_id_present in H.
  destruct (findIndex_found _ _ H) as (i & y & Hi & Hy & Hp & Hlt).
  apply String.eqb_eq in Hp.
  assert (Hlen : (i < length l)%nat) by (eapply lookup_lt_Some; exact Hy).
  unfold array_set. rewrite Hi, Nat2Z.id.
  exists i, y. repeat split.
  - exact Hy.
  - exact Hp.
  - intros j z Hj Hz. apply String.eqb_neq. apply (Hlt j z Hj Hz).
  - apply list_lookup_insert_eq. exact Hlen.
  - apply length_insert.
  - intros j Hj. apply list_lookup_insert_ne. congruence.
  - unfold occurrences. apply (count_insert _ _ _ _ y Hy).
    rewrite Hp, !String.eqb_refl. reflexivity.
Qed.

Lemma filter_out_id (i : string) (l : list A) :
  ~ In i (map key (List.filter (fun y => negb (key y =? i)%string) l)).
Proof.
  intros H. apply in_map_iff in H. destruct H as (y & Hk & Hy).
  apply filter_In in Hy. destruct Hy as [_ Hy].
  apply negb_true_iff, String.eqb_neq in Hy. congruence.
Qed.

End Identifiers.

(** ** What each write does *)

Ltac write_through :=
  match goal with
  | |- context [bind ApiService.token_and_online
                  (fun c =>
                     bind (if c then
                             try_catch
                               (bind ApiService.getHeaders
                                  (fun h => bind (fetch ?ep h) _))
                               ignore
                           else ret tt)
                       (fun _ => ?local)) ?env ?w] =>
      let rs := fresh "rs" in
      let Hrs := fresh "Hrs" in
      let Hrun := fresh "Hrun" in
      destruct (write_through_run ep local env w) as (rs & Hrs & Hrun);
      exists rs; split; [exact Hrs |]; rewrite Hrun
  end.

Ltac run_local :=
  unfold bind, ApiService.getLocal, ApiService.setLocal, localStorage_getItem,
    localStorage_setItem, ret; simpl.

Lemma createDeck_run deck env w :
  exists rs,
    (truthy (token w) && online env = false -> rs = []) /\
    ApiService.createDeck deck env w =
    (Return deck,
     with_storage (setItem DECKS (deck :: cached DECKS w) (localStorage w))
       (sent rs w)).
Proof. unfold ApiService.createDeck. write_through. reflexivity. Qed.

Lemma updateDeck_run deck env w :
  exists rs,
    (truthy (token w) && online env = false -> rs = []) /\
    ApiService.updateDeck deck env w =
    (Return tt,
     let index :=
       findIndex (fun d => (Deck.id d =? Deck.id deck)%string) (cached DECKS w) in
     if negb (index =? -1) then
       with_storage
         (setItem DECKS (array_set (cached DECKS w) index deck) (localStorage w))
         (sent rs w)
     else sent rs w).
Proof.
  unfold ApiService.updateDeck. write_through. run_local.
  change (match cardsnaps_decks (localStorage w) with Some v => v | None => [] end)
    with (cached DECKS w).
  destruct (negb _); reflexivity.
Qed.

Lemma deleteDeck_run id env w :
  exists rs,
    (truthy (token w) && online env = false -> rs = []) /\
    ApiService.deleteDeck id env w =
    (Return tt,
     with_storage
       (setItem DECKS
          (List.filter (fun d => negb (Deck.id d =? id)%string) (cached DECKS w))
          (localStorage w))
       (sent rs w)).
Proof. unfold ApiService.deleteDeck. write_through. reflexivity. Qed.

Lemma saveNote_run n env w :
  exists rs,
    (truthy (token w) && online env = false -> rs = []) /\
    ApiService.saveNote n env w =
    (Return n,
     let index :=
       findIndex (fun x => (Note.id x =? Note.id n)%string) (cached NOTES w) in
     with_storage
       (setItem NOTES
          (if negb (index =? -1) then array_set (cached NOTES w) index n
           else n :: cached NOTES w)
          (localStorage w))
       (sent rs w)).
Proof. unfold ApiService.saveNote. write_through. reflexivity. Qed.

Lemma deleteNote_run id env w :
  exists rs,
    (truthy (token w) && online env = false -> rs = []) /\
    ApiService.deleteNote id env w =
    (Return tt,
     with_storage
       (setItem NOTES
          (List.filter (fun x => negb (Note.id x =? id)%string) (cached NOTES w))
          (localStorage w))
       (sent rs w)).
Proof. unfold ApiService.deleteNote. write_through. reflexivity. Qed.

Lemma addTest_run t env w :
  exists rs,
    (truthy (token w) && online env = false -> rs = []) /\
    ApiService.addTest t env w =
    (Return t,
     with_storage (setItem TESTS (cached TESTS w ++ [t]) (localStorage w))
       (sent rs w)).
Proof. unfold ApiService.addTest. write_through. reflexivity. Qed.

Lemma deleteTest_run id env w :
  exists rs,
    (truthy (token w) && online env = false -> rs = []) /\
    ApiService.deleteTest id env w =
    (Return tt,
     with_storage
       (setItem TESTS
          (List.filter (fun x => negb (Test.id x =? id)%string) (cached TESTS w))
          (localStorage w))
       (sent rs w)).
Proof. unfold ApiService.deleteTest. write_through. reflexivity. Qed.

Lemma syncStats_run s env w :
  exists rs,
    (truthy (token w) && online env = false -> rs = []) /\
    ApiService.syncStats s env w =
    (Return tt, with_storage (setItem STATS (Some s) (localStorage w)) (sent rs w)).
Proof. unfold ApiService.syncStats. write_through. reflexivity. Qed.

Lemma saveChatSession_run s env w :
  exists rs,
    (truthy (token w) && online env = false -> rs = []) /\
    ApiService.saveChatSession s env w =
    (Return tt,
     let index :=
       findIndex (fun x => (ChatSession.id x =? ChatSession.id s)%string)
         (cached CHATS w) in
     with_storage
       (setItem CHATS
          (if negb (index =? -1) then array_set (cached CHATS w) index s
           else s :: cached CHATS w)
          (localStorage w))
       (sent rs w)).
Proof. unfold ApiService.saveChatSession. write_through. reflexivity. Qed.

Lemma savePreferences_run t c s env w :
  exists rs,
    (truthy (token w) && online env = false -> rs = []) /\
    exists u,
      ApiService.savePreferences t c s env w =
      (Return tt, with_storage (setItem USER (Some u) (localStorage w)) (sent rs w)).
Proof.
  unfold ApiService.savePreferences. write_through. eexists. reflexivity.
Qed.

(** Expose the final world of a run. *)
Ltac settle := cbv zeta; cbn [snd fst negb].

(** The mirror read back after a slot was written. *)
Lemma cached_with_storage {A} (k : Key (list A)) (l : list A) (s : Storage)
    (w : World) :
  cached k (with_storage (setItem k l s) w) = l.
Proof.
  unfold cached, with_storage, setItem; simpl.
  rewrite getItem_write_same. reflexivity.
Qed.

(** ** Upserts *)




(** C3 (amended).  For an item whose id does not occur in the local mirror:
    [createDeck], [saveNote] and [saveChatSession] put it at the head, in
    front of the old contents; [addTest] appends it at the tail; [updateDeck]
    inserts nothing and leaves the local store as it was. *)
Theorem upsert_new_id_placement :
  forall (deck : Deck.t) (n : Note.t) (session : ChatSession.t) (t : Test.t)
         (env : Env) (w : World),
    (~ In (Deck.id deck) (map Deck.id (cached DECKS w)) ->
     cached DECKS (snd (ApiService.createDeck deck env w)) =
     deck :: cached DECKS w) /\
    (~ In (Note.id n) (map Note.id (cached NOTES w)) ->
     cached NOTES (snd (ApiService.saveNote n env w)) = n :: cached NOTES w) /\
    (~ In (ChatSession.id session) (map ChatSession.id (cached CHATS w)) ->
     cached CHATS (snd (ApiService.saveChatSession session env w)) =
     session :: cached CHATS w) /\
    (~ In (Test.id t) (map Test.id (cached TESTS w)) ->
     cached TESTS (snd (ApiService.addTest t env w)) = cached TESTS w ++ [t]) /\
    (~ In (Deck.id deck) (map Deck.id (cached DECKS w)) ->
     localStorage (snd (ApiService.updateDeck deck env w)) = localStorage w).
Proof.
  intros deck n session t env w. repeat split; intros H.
  - destruct (createDeck_run deck env w) as (rs & _ & ->). settle.
    apply cached_with_storage.
  - destruct (saveNote_run n env w) as (rs & _ & ->). settle.
    rewrite cached_with_storage, (findIndex_id_absent Note.id _ _ H).
    reflexivity.
  - destruct (saveChatSession_run session env w) as (rs & _ & ->). settle.
    rewrite cached_with_storage, (findIndex_id_absent ChatSession.id _ _ H).
    reflexivity.
  - destruct (addTest_run t env w) as (rs & _ & ->). settle.
    apply cached_with_storage.
  - destruct (updateDeck_run deck env w) as (rs & _ & ->). settle.
    rewrite (findIndex_id_absent Deck.id _ _ H). reflexivity.
Qed.

(** C3 at work on a store that holds other items, the server unreachable:
    the new deck, note and chat session come in front of them, the new test
    behind. *)
Lemma upsert_new_id_witness :
  (~ In (Deck.id deck_d3) (map Deck.id (cached DECKS sample_world)) /\
   cached DECKS (snd (ApiService.createDeck deck_d3 unreachable_env sample_world)) =
   [deck_d3; deck_d2; deck_d1] /\
   localStorage (snd (ApiService.updateDeck deck_d3 unreachable_env sample_world)) =
   localStorage sample_world) /\
  (~ In (Note.id note_n3) (map Note.id (cached NOTES sample_world)) /\
   cached NOTES (snd (ApiService.saveNote note_n3 unreachable_env sample_world)) =
   [note_n3; note_n2; note_n1]) /\
  (~ In (ChatSession.id chat_c3) (map ChatSession.id (cached CHATS sample_world)) /\
   cached CHATS
     (snd (ApiService.saveChatSession chat_c3 unreachable_env sample_world)) =
   [chat_c3; chat_c2; chat_c1]) /\
  (~ In (Test.id test_t2) (map Test.id (cached TESTS sample_world)) /\
   cached TESTS (snd (ApiService.addTest test_t2 unreachable_env sample_world)) =
   [test_t1; test_t2]).
Proof.
  destruct (upsert_new_id_placement deck_d3 note_n3 chat_c3 test_t2
              unreachable_env sample_world) as (D & N & C & T & U).
  assert (HD : ~ In (Deck.id deck_d3) (map Deck.id (cached DECKS sample_world))).
  { simpl. intros [H | [H | []]]; discriminate H. }
  assert (HN : ~ In (Note.id note_n3) (map Note.id (cached NOTES sample_world))).
  { simpl. intros [H | [H | []]]; discriminate H. }
  assert (HC : ~ In (ChatSession.id chat_c3)
                   (map ChatSession.id (cached CHATS sample_world))).
  { simpl. intros [H | [H | []]]; discriminate H. }
  assert (HT : ~ In (Test.id test_t2) (map Test.id (cached TESTS sample_world))).
  { simpl. intros [H | []]; discriminate H. }
  split; [| split; [| split]].
  - split; [exact HD |]. split; [exact (D HD) | exact (U HD)].
  - split; [exact HN | exact (N HN)].
  - split; [exact HC | exact (C HC)].
  - split; [exact HT | exact (T HT)].
Defined.

(** C3 as stated fails for [addTest] and for [updateDeck]: a test with a new
    id ends up behind the test already stored, and a deck with a new id is
    not stored at all. *)
Lemma new_id_not_at_head :
  (~ In (Test.id test_t2) (map Test.id (cached TESTS sample_world)) /\
   head (cached TESTS (snd (ApiService.addTest test_t2 offline_env sample_world)))
   = Some test_t1 /\
   Some test_t1 <> Some test_t2) /\
  (~ In (Deck.id deck_d1) (map Deck.id (cached DECKS fresh_world)) /\
   cached DECKS (snd (ApiService.updateDeck deck_d1 offline_env fresh_world)) = []).
Proof.
  repeat split.
  - simpl. intros [H | []]. discriminate H.
  - discriminate.
  - simpl. tauto.
Qed.

(** ** Deletes *)

(** C7.  [deleteDeck], [deleteNote] and [deleteTest] are idempotent on the
    local store: after one call no item with the id is left in the mirror,
    and a second call (whatever the network does in either) leaves the local
    store exactly as the first left it. *)
Theorem delete_idempotent :
  forall (id : string) (env1 env2 : Env) (w : World),
    (let w1 := snd (ApiService.deleteDeck id env1 w) in
     ~ In id (map Deck.id (cached DECKS w1)) /\
     localStorage (snd (ApiService.deleteDeck id env2 w1)) = localStorage w1) /\
    (let w1 := snd (ApiService.deleteNote id env1 w) in
     ~ In id (map Note.id (cached NOTES w1)) /\
     localStorage (snd (ApiService.deleteNote id env2 w1)) = localStorage w1) /\
    (let w1 := snd (ApiService.deleteTest id env1 w) in
     ~ In id (map Test.id (cached TESTS w1)) /\
     localStorage (snd (ApiService.deleteTest id env2 w1)) = localStorage w1).
Proof.
  intros id env1 env2 w. repeat split.
  - destruct (deleteDeck_run id env1 w) as (rs & _ & ->). settle.
    rewrite cached_with_storage. apply filter_out_id.
  - destruct (deleteDeck_run id env1 w) as (rs & _ & ->). settle.
    destruct (deleteDeck_run id env2
                (with_storage
                   (setItem DECKS
                      (List.filter (fun d => negb (Deck.id d =? id)%string)
                         (cached DECKS w)) (localStorage w)) (sent rs w)))
      as (rs' & _ & ->).
    settle. rewrite cached_with_storage, filter_twice.
    unfold setItem. apply write_slot_twice.
  - destruct (deleteNote_run id env1 w) as (rs & _ & ->). settle.
    rewrite cached_with_storage. apply filter_out_id.
  - destruct (deleteNote_run id env1 w) as (rs & _ & ->). settle.
    destruct (deleteNote_run id env2
                (with_storage
                   (setItem NOTES
                      (List.filter (fun x => negb (Note.id x =? id)%string)
                         (cached NOTES w)) (localStorage w)) (sent rs w)))
      as (rs' & _ & ->).
    settle. rewrite cached_with_storage, filter_twice.
    unfold setItem. apply write_slot_twice.
  - destruct (deleteTest_run id env1 w) as (rs & _ & ->). settle.
    rewrite cached_with_storage. apply filter_out_id.
  - destruct (deleteTest_run id env1 w) as (rs & _ & ->). settle.
    destruct (deleteTest_run id env2
                (with_storage
                   (setItem TESTS
                      (List.filter (fun x => negb (Test.id x =? id)%string)
                         (cached TESTS w)) (localStorage w)) (sent rs w)))
      as (rs' & _ & ->).
    settle. rewrite cached_with_storage, filter_twice.
    unfold setItem. apply write_slot_twice.
Qed.

(** ** Reads *)

(** The guarded remote read: the request goes out; what was [obtained] is
    handed to the continuation, anything else falls through. *)
Lemma read_attempt_run {T R} (ep : Endpoint T) (k : T -> Op (option R)) env w :
  try_catch
    (h <- ApiService.getHeaders ;;
     res <- fetch ep h ;;
     if ok res then v <- json res ;; k v else ret None)
    (fun _ => ret None) env w =
  match obtained (remote env T ep) with
  | Some v =>
      try_catch (k v) (fun _ => ret None) env (sent [bearer_request ep env w] w)
  | None => (Return None, sent [bearer_request ep env w] w)
  end.
Proof.
  unfold try_catch, bind, ApiService.getHeaders, this_token, fetch, json, ret,
    throw, obtained.
  simpl.
  destruct (remote env T ep) as [e | [[] [e | v]]]; simpl; reflexivity.
Qed.

Ltac read_through :=
  rewrite (bind_Return _ _ _ _ _ _ (token_and_online_run _ _));
  match goal with
  | |- context [truthy (token ?w) && online ?env] =>
      destruct (truthy (token w) && online env) eqn:?
  end;
  [ eexists [_]; split; [discriminate |];
    unfold bind at 1; rewrite read_attempt_run;
    match goal with
    | |- context [obtained ?o] => destruct (obtained o)
    end
  | exists []; split; [reflexivity |]; rewrite sent_nil ].

Lemma getDecks_run env w :
  exists rs,
    (truthy (token w) && online env = false -> rs = []) /\
    ApiService.getDecks env w =
    match (if truthy (token w) && online env
           then obtained (remote env _ GET_decks) else None) with
    | Some decks =>
        (Return decks,
         with_storage (setItem DECKS decks (localStorage w)) (sent rs w))
    | None => (Return (cached DECKS w), sent rs w)
    end.
Proof. unfold ApiService.getDecks. read_through; reflexivity. Qed.

Lemma getNotes_run env w :
  exists rs,
    (truthy (token w) && online env = false -> rs = []) /\
    ApiService.getNotes env w =
    match (if truthy (token w) && online env
           then obtained (remote env _ GET_notes) else None) with
    | Some notes =>
        (Return notes,
         with_storage (setItem NOTES notes (localStorage w)) (sent rs w))
    | None => (Return (cached NOTES w), sent rs w)
    end.
Proof. unfold ApiService.getNotes. read_through; reflexivity. Qed.

Lemma getTests_run env w :
  exists rs,
    (truthy (token w) && online env = false -> rs = []) /\
    ApiService.getTests env w =
    match (if truthy (token w) && online env
           then obtained (remote env _ GET_tests) else None) with
    | Some tests => (Return tests, sent rs w)
    | None => (Return (cached TESTS w), sent rs w)
    end.
Proof. unfold ApiService.getTests. read_through; reflexivity. Qed.

Lemma getStats_run env w :
  exists rs,
    (truthy (token w) && online env = false -> rs = []) /\
    ApiService.getStats env w =
    match (if truthy (token w) && online env
           then obtained (remote env _ GET_stats) else None) with
    | Some (Some s) =>
        (Return (Some s),
         with_storage (setItem STATS (Some s) (localStorage w)) (sent rs w))
    | Some None => (Return None, sent rs w)
    | None =>
        (Return match getItem STATS (localStorage w) with
                | Some v => v
                | None => None
                end, sent rs w)
    end.
Proof.
  unfold ApiService.getStats. read_through; try reflexivity.
  match goal with |- context [match ?o with Some _ => _ | None => _ end] =>
    destruct o end; reflexivity.
Qed.

Lemma getChatSessions_run env w :
  exists rs,
    (truthy (token w) && online env = false -> rs = []) /\
    ApiService.getChatSessions env w =
    match (if truthy (token w) && online env
           then obtained (remote env _ GET_chats) else None) with
    | Some sessions => (Return sessions, sent rs w)
    | None => (Return (cached CHATS w), sent rs w)
    end.
Proof. unfold ApiService.getChatSessions. read_through; reflexivity. Qed.

Lemma getMe_run env w :
  exists rs,
    (truthy (token w) && online env = false -> rs = []) /\
    ApiService.getMe env w =
    match (if truthy (token w) && online env
           then obtained (remote env _ GET_auth_me) else None) with
    | Some user =>
        (Return (Some user),
         with_storage (setItem USER (Some user) (localStorage w)) (sent rs w))
    | None =>
        (Return match getItem USER (localStorage w) with
                | Some v => v
                | None => None
                end, sent rs w)
    end.
Proof. unfold ApiService.getMe. read_through; reflexivity. Qed.

(** C2 (amended).  With a credential held and the oracle online: when the
    remote read succeeds, every read operation returns the remote response;
    [getDecks] and [getNotes] overwrite their mirror with it, and [getStats]
    overwrites its mirror when the response is not [null] and leaves the
    local store alone when it is.  When the remote read fails (network
    error, timeout, non-success status), every read operation returns the
    local mirror and the local store is unchanged.  (Nothing is said about
    the mirror after a successful [getTests] or [getChatSessions].) *)
Theorem read_collection_online :
  forall (env : Env) (w : World),
    truthy (token w) = true ->
    online env = true ->
    (match obtained (remote env _ GET_decks) with
     | Some decks =>
         fst (ApiService.getDecks env w) = Return decks /\
         localStorage (snd (ApiService.getDecks env w)) =
         setItem DECKS decks (localStorage w)
     | None =>
         fst (ApiService.getDecks env w) = Return (cached DECKS w) /\
         localStorage (snd (ApiService.getDecks env w)) = localStorage w
     end) /\
    (match obtained (remote env _ GET_notes) with
     | Some notes =>
         fst (ApiService.getNotes env w) = Return notes /\
         localStorage (snd (ApiService.getNotes env w)) =
         setItem NOTES notes (localStorage w)
     | None =>
         fst (ApiService.getNotes env w) = Return (cached NOTES w) /\
         localStorage (snd (ApiService.getNotes env w)) = localStorage w
     end) /\
    (match obtained (remote env _ GET_stats) with
     | Some (Some s) =>
         fst (ApiService.getStats env w) = Return (Some s) /\
         localStorage (snd (ApiService.getStats env w)) =
         setItem STATS (Some s) (localStorage w)
     | Some None =>
         fst (ApiService.getStats env w) = Return None /\
         localStorage (snd (ApiService.getStats env w)) = localStorage w
     | None =>
         fst (ApiService.getStats env w) =
         Return match getItem STATS (localStorage w) with
                | Some v => v
                | None => None
                end /\
         localStorage (snd (ApiService.getStats env w)) = localStorage w
     end) /\
    (match obtained (remote env _ GET_tests) with
     | Some tests => fst (ApiService.getTests env w) = Return tests
     | None =>
         fst (ApiService.getTests env w) = Return (cached TESTS w) /\
         localStorage (snd (ApiService.getTests env w)) = localStorage w
     end) /\
    (match obtained (remote env _ GET_chats) with
     | Some sessions => fst (ApiService.getChatSessions env w) = Return sessions
     | None =>
         fst (ApiService.getChatSessions env w) = Return (cached CHATS w) /\
         localStorage (snd (ApiService.getChatSessions env w)) = localStorage w
     end).
Proof.
  intros env w Htok Hon. repeat apply conj.
  - destruct (getDecks_run env w) as (rs & _ & ->). rewrite Htok, Hon.
    cbn [andb]. destruct (obtained _); split; reflexivity.
  - destruct (getNotes_run env w) as (rs & _ & ->). rewrite Htok, Hon.
    cbn [andb]. destruct (obtained _); split; reflexivity.
  - destruct (getStats_run env w) as (rs & _ & ->). rewrite Htok, Hon.
    cbn [andb]. destruct (obtained _) as [[s |] |]; split; reflexivity.
  - destruct (getTests_run env w) as (rs & _ & ->). rewrite Htok, Hon.
    cbn [andb]. destruct (obtained _); [| split]; reflexivity.
  - destruct (getChatSessions_run env w) as (rs & _ & ->). rewrite Htok, Hon.
    cbn [andb]. destruct (obtained _); [| split]; reflexivity.
Qed.

(** C2 at work: [getDecks] against a server that answers. *)
Lemma read_collection_online_witness :
  truthy (token sample_world) = true /\
  online serving_env = true /\
  fst (ApiService.getDecks serving_env sample_world) = Return [deck_d1_new] /\
  localStorage (snd (ApiService.getDecks serving_env sample_world)) =
  setItem DECKS [deck_d1_new] (localStorage sample_world).
Proof.
  split; [reflexivity |]. split; [reflexivity |].
  exact (proj1 (read_collection_online serving_env sample_world eq_refl eq_refl)).
Defined.

(** C2 as stated fails for [getTests] and [getChatSessions], and for
    [getStats] on a [null] response: the remote read succeeds, yet the mirror
    still holds what it held before. *)
Lemma successful_read_not_mirrored :
  truthy (token sample_world) = true /\
  online serving_env = true /\
  (obtained (remote serving_env _ GET_tests) = Some [test_t2] /\
   fst (ApiService.getTests serving_env sample_world) = Return [test_t2] /\
   getItem TESTS (localStorage (snd (ApiService.getTests serving_env sample_world)))
   = Some [test_t1] /\
   Some [test_t1] <> Some [test_t2]) /\
  (obtained (remote serving_env _ GET_chats) = Some [chat_c1_new] /\
   fst (ApiService.getChatSessions serving_env sample_world) = Return [chat_c1_new] /\
   getItem CHATS
     (localStorage (snd (ApiService.getChatSessions serving_env sample_world)))
   = Some [chat_c2; chat_c1] /\
   Some [chat_c2; chat_c1] <> Some [chat_c1_new]) /\
  (obtained (remote serving_env _ GET_stats) = Some None /\
   fst (ApiService.getStats serving_env sample_world) = Return None /\
   getItem STATS (localStorage (snd (ApiService.getStats serving_env sample_world)))
   = Some (Some stats_s1) /\
   Some (Some stats_s1) <> Some None).
Proof.
  repeat split; try reflexivity; discriminate.
Qed.

(** ** Session *)

(** C10.  [logout] clears [this.token] and removes the persisted credential
    (and the persisted profile) from the local store; the slots of decks,
    notes, tests, stats, chats and the community cache are left as they
    were, and no request is sent. *)
Theorem logout_keeps_cached_collections :
  forall (env : Env) (w : World),
    let w' := snd (ApiService.logout env w) in
    fst (ApiService.logout env w) = Return tt /\
    token w' = None /\
    getItem TOKEN (localStorage w') = None /\
    getItem USER (localStorage w') = None /\
    getItem DECKS (localStorage w') = getItem DECKS (localStorage w) /\
    getItem NOTES (localStorage w') = getItem NOTES (localStorage w) /\
    getItem TESTS (localStorage w') = getItem TESTS (localStorage w) /\
    getItem STATS (localStorage w') = getItem STATS (localStorage w) /\
    getItem CHATS (localStorage w') = getItem CHATS (localStorage w) /\
    getItem COMMUNITY (localStorage w') = getItem COMMUNITY (localStorage w) /\
    requests w' = requests w.
Proof. intros env w. repeat split. Qed.

(** ** Community *)

Lemma attempt_plain_run {T} (ep : Endpoint T) (h : Headers) (c : bool) env w :
  exists rs,
    (c = false -> rs = []) /\
    (if c then try_catch (fetch ep h ;; ret tt) ignore else ret tt) env w =
    (Return tt, sent rs w).
Proof.
  destruct c.
  - unfold try_catch, bind, fetch, ignore, ret.
    destruct (remote env T ep); eexists; (split; [discriminate | reflexivity]).
  - exists []. split; [reflexivity |]. unfold ret. rewrite sent_nil. reflexivity.
Qed.

Lemma _localShare_run item env w :
  ApiService._localShare item env w =
  match find (fun c => (CommunityItem.id c =? CommunityItem.id item)%string)
          (cached COMMUNITY w) with
  | Some _ => (Return tt, w)
  | None =>
      (Return tt,
       with_storage
         (setItem COMMUNITY (item :: cached COMMUNITY w) (localStorage w)) w)
  end.
Proof.
  unfold ApiService._localShare. run_local.
  change (match cardsnaps_community_db (localStorage w) with
          | Some v => v
          | None => []
          end) with (cached COMMUNITY w).
  destruct (find _ _); reflexivity.
Qed.

Lemma shareToCommunity_run item type author env w :
  exists rs,
    (online env = false -> rs = []) /\
    ApiService.shareToCommunity item type author env w =
    ApiService._localShare
      {| CommunityItem.id := crypto_randomUUID env;
         CommunityItem.type := type;
         CommunityItem.title := ApiService.item_title item;
         CommunityItem.description :=
           or_else (ApiService.item_description item)
             (or_else (ApiService.item_subject item) "No description");
         CommunityItem.author := author;
         CommunityItem.data := item;
         CommunityItem.downloads := 0;
         CommunityItem.timestamp := Date_now env |} env (sent rs w).
Proof.
  unfold ApiService.shareToCommunity, ApiService.isOnline.
  unfold bind at 1, ask at 1. unfold bind at 1, ask at 1.
  unfold bind at 1, ask at 1.
  match goal with
  | |- context [bind (if _ then try_catch (bind (fetch ?ep ?h) _) _ else _) _] =>
      destruct (attempt_plain_run ep h (online env) env w) as (rs & Hrs & Hrun)
  end.
  exists rs. split; [exact Hrs |].
  rewrite (bind_Return _ _ _ _ _ _ Hrun). reflexivity.
Qed.

(** C6.  Publishing an item whose id is already in the community store
    changes nothing and succeeds: [_localShare] returns normally and leaves
    the whole client state as it was; so does [shareToCommunity] for the
    local store when the id it drew is already there; the server's handler
    answers [success: true] with the message "Already shared" and leaves its
    collection as it was. *)
Theorem publish_existing_id_is_noop :
  forall (item : CommunityItem.t) (env : Env) (w : World)
         (shared : Deck.t + Note.t) (type : ItemType) (author : string)
         (uuid : string) (now : Z) (body : Server.Body.t) (db : Server.Db)
         (id : string),
    (In (CommunityItem.id item) (map CommunityItem.id (cached COMMUNITY w)) ->
     ApiService._localShare item env w = (Return tt, w)) /\
    (In (crypto_randomUUID env) (map CommunityItem.id (cached COMMUNITY w)) ->
     fst (ApiService.shareToCommunity shared type author env w) = Return tt /\
     localStorage (snd (ApiService.shareToCommunity shared type author env w)) =
     localStorage w) /\
    (Server.Body.id body = Some id ->
     In id (map CommunityItem.id (Server.community db)) ->
     Server.post_community uuid now body db =
     (db, {| Server.Reply.success := true;
             Server.Reply.message := Some "Already shared";
             Server.Reply.id := None |})).
Proof.
  intros item env w shared type author uuid now body db id. repeat apply conj.
  - intros H. rewrite _localShare_run.
    destruct (find_id_present CommunityItem.id _ _ H) as [y ->]. reflexivity.
  - intros H.
    destruct (shareToCommunity_run shared type author env w) as (rs & _ & ->).
    rewrite _localShare_run.
    change (cached COMMUNITY (sent rs w)) with (cached COMMUNITY w).
    cbn [CommunityItem.id].
    destruct (find_id_present CommunityItem.id _ _ H) as [y ->].
    split; reflexivity.
  - intros Hid H. unfold Server.post_community. rewrite Hid.
    destruct (find_id_present CommunityItem.id _ _ H) as [y ->]. reflexivity.
Qed.

(** C6 at work: the item "x1" is published where it already is. *)
Lemma publish_existing_id_witness :
  (In (CommunityItem.id shared_x1)
     (map CommunityItem.id (cached COMMUNITY sample_world)) /\
   ApiService._localShare shared_x1 offline_env sample_world =
   (Return tt, sample_world)) /\
  (In (crypto_randomUUID offline_env)
     (map CommunityItem.id (cached COMMUNITY sample_world)) /\
   fst (ApiService.shareToCommunity (inl deck_d1) deck "Ann" offline_env
          sample_world) = Return tt /\
   localStorage
     (snd (ApiService.shareToCommunity (inl deck_d1) deck "Ann" offline_env
             sample_world)) = localStorage sample_world) /\
  (Server.Body.id (Server.body_of shared_x1) = Some "x1" /\
   In "x1" (map CommunityItem.id (Server.community sample_db)) /\
   Server.post_community "u" 50 (Server.body_of shared_x1) sample_db =
   (sample_db, {| Server.Reply.success := true;
                  Server.Reply.message := Some "Already shared";
                  Server.Reply.id := None |})).
Proof.
  destruct (publish_existing_id_is_noop shared_x1 offline_env sample_world
              (inl deck_d1) deck "Ann" "u" 50 (Server.body_of shared_x1)
              sample_db "x1") as (L & S & P).
  assert (H1 : In (CommunityItem.id shared_x1)
                 (map CommunityItem.id (cached COMMUNITY sample_world)))
    by (simpl; auto).
  assert (H2 : In "x1" (map CommunityItem.id (Server.community sample_db)))
    by (simpl; auto).
  split; [| split].
  - split; [exact H1 | exact (L H1)].
  - split; [exact H1 | exact (S H1)].
  - split; [reflexivity |]. split; [exact H2 | exact (P eq_refl H2)].
Defined.

Lemma findIndex_id_absent_inv {A} (key : A -> string) (i : string) (l : list A) :
  findIndex (fun y => (key y =? i)%string) l = -1 -> ~ In i (map key l).
Proof.
  intros E H. revert E. apply findIndex_id_present. exact H.
Qed.

(** [_localIncrement]: either the id is unknown and nothing happens, or the
    first item carrying it is replaced by its bumped copy. *)
Lemma _localIncrement_run id env w :
  (~ In id (map CommunityItem.id (cached COMMUNITY w)) /\
   ApiService._localIncrement id env w = (Return tt, w)) \/
  (exists (i : nat) (c : CommunityItem.t),
      cached COMMUNITY w !! i = Some c /\
      CommunityItem.id c = id /\
      (forall (j : nat) (z : CommunityItem.t),
          (j < i)%nat -> cached COMMUNITY w !! j = Some z ->
          CommunityItem.id z <> id) /\
      ApiService._localIncrement id env w =
      (Return tt,
       with_storage
         (setItem COMMUNITY (<[i := CommunityItem.bump c]> (cached COMMUNITY w))
            (localStorage w)) w)).
Proof.
  unfold ApiService._localIncrement. run_local.
  change (match cardsnaps_community_db (localStorage w) with
          | Some v => v
          | None => []
          end) with (cached COMMUNITY w).
  destruct (findIndex (fun c => (CommunityItem.id c =? id)%string)
              (cached COMMUNITY w) =? -1) eqn:E.
  - left. apply Z.eqb_eq in E. split; [| reflexivity].
    apply (findIndex_id_absent_inv CommunityItem.id). exact E.
  - right. apply Z.eqb_neq in E.
    destruct (findIndex_found _ _ E) as (i & c & Hi & Hc & Hp & Hlt).
    exists i, c. rewrite Hi, Nat2Z.id. cbn [negb]. rewrite Hc.
    apply String.eqb_eq in Hp. repeat split; auto.
    + intros j z Hj Hz. apply String.eqb_neq. apply (Hlt j z Hj Hz).
    + unfold array_set. rewrite Nat2Z.id. reflexivity.
Qed.

Lemma incrementDownload_run id env w :
  exists rs,
    (online env = false -> rs = []) /\
    ApiService.incrementDownload id env w =
    (Return tt, sent rs (snd (ApiService._localIncrement id env w))) /\
    fst (ApiService._localIncrement id env w) = Return tt.
Proof.
  assert (H : exists w1, ApiService._localIncrement id env w = (Return tt, w1)).
  { destruct (_localIncrement_run id env w) as [[_ ->] | (i & c & _ & _ & _ & ->)];
      eexists; reflexivity. }
  destruct H as [w1 H]. unfold ApiService.incrementDownload.
  rewrite (bind_Return _ _ _ _ _ _ H), H.
  unfold ApiService.isOnline. unfold bind at 1, ask at 1.
  destruct (attempt_plain_run (POST_community_download id) no_headers
              (online env) env w1) as (rs & Hrs & Hrun).
  exists rs. repeat split; [exact Hrs | exact Hrun].
Qed.

(** Up to [2^53] in magnitude the sum of two numbers is exact. *)
Lemma number_add_exact (a b : Z) :
  - 2 ^ 53 <= a + b <= 2 ^ 53 -> number_add a b = a + b.
Proof.
  intros H. unfold number_add, nearest_double. cbv zeta.
  destruct (Z.abs (a + b) <=? 2 ^ 53) eqn:E; [reflexivity |].
  apply Z.leb_gt in E. lia.
Qed.

(** C8.  [incrementDownload] never throws.  For an id that does not occur
    in the local community mirror the local store is unchanged.  For an id
    that occurs, the item found (the first one carrying the id) has
    [downloads += 1] applied and its other fields kept: the counter is one
    higher whenever it was a safe integer (from [-2^53] to [2^53 - 1]), and
    is the nearest double to the sum otherwise.  Every other item, the
    length of the mirror and every other slot of the store are unchanged. *)
Theorem incrementDownload_local_effect :
  forall (id : string) (env : Env) (w : World),
    let w' := snd (ApiService.incrementDownload id env w) in
    fst (ApiService.incrementDownload id env w) = Return tt /\
    (~ In id (map CommunityItem.id (cached COMMUNITY w)) ->
     localStorage w' = localStorage w) /\
    (In id (map CommunityItem.id (cached COMMUNITY w)) ->
     exists (i : nat) (c c' : CommunityItem.t),
       cached COMMUNITY w !! i = Some c /\
       CommunityItem.id c = id /\
       (forall (j : nat) (z : CommunityItem.t),
           (j < i)%nat -> cached COMMUNITY w !! j = Some z ->
           CommunityItem.id z <> id) /\
       cached COMMUNITY w' !! i = Some c' /\
       downloads_bumped c c' /\
       (- 2 ^ 53 <= CommunityItem.downloads c < 2 ^ 53 ->
        CommunityItem.downloads c' = CommunityItem.downloads c + 1) /\
       (forall j : nat, j <> i ->
          cached COMMUNITY w' !! j = cached COMMUNITY w !! j) /\
       length (cached COMMUNITY w') = length (cached COMMUNITY w) /\
       localStorage w' =
       setItem COMMUNITY (cached COMMUNITY w') (localStorage w)).
Proof.
  intros id env w.
  destruct (incrementDownload_run id env w) as (rs & _ & -> & _).
  cbn zeta. cbn [fst snd].
  split; [reflexivity |].
  destruct (_localIncrement_run id env w)
    as [[Hno ->] | (i & c & Hc & Hid & Hfirst & ->)].
  - split; [reflexivity | contradiction].
  - split.
    + intros Hno. exfalso. apply Hno. rewrite <- Hid. apply in_map.
      apply list_elem_of_In. eapply list_elem_of_lookup_2. exact Hc.
    + intros _. exists i, c, (CommunityItem.bump c). cbn [snd].
      change (cached COMMUNITY (sent rs ?x)) with (cached COMMUNITY x).
      rewrite cached_with_storage.
      assert (Hlen : (i < length (cached COMMUNITY w))%nat)
        by (eapply lookup_lt_Some; exact Hc).
      split; [exact Hc |]. split; [exact Hid |]. split; [exact Hfirst |].
      split; [apply list_lookup_insert_eq; exact Hlen |].
      split; [repeat split |].
      split.
      { intros Hsafe. cbn [CommunityItem.bump CommunityItem.downloads].
        apply number_add_exact. lia. }
      split; [intros j Hj; apply list_lookup_insert_ne; congruence |].
      split; [apply length_insert | reflexivity].
Qed.

(** C8 at work: an unknown id "zz", and the known id "x1" whose counter goes
    from 7 to 8. *)
Lemma incrementDownload_witness :
  (~ In "zz" (map CommunityItem.id (cached COMMUNITY sample_world)) /\
   localStorage (snd (ApiService.incrementDownload "zz" unreachable_env sample_world))
   = localStorage sample_world) /\
  (In "x1" (map CommunityItem.id (cached COMMUNITY sample_world)) /\
   exists (i : nat) (c c' : CommunityItem.t),
     cached COMMUNITY sample_world !! i = Some c /\
     CommunityItem.id c = "x1" /\
     cached COMMUNITY
       (snd (ApiService.incrementDownload "x1" unreachable_env sample_world)) !! i
     = Some c' /\
     downloads_bumped c c' /\
     CommunityItem.downloads c = 7 /\
     CommunityItem.downloads c' = 8).
Proof.
  assert (H0 : ~ In "zz" (map CommunityItem.id (cached COMMUNITY sample_world))).
  { simpl. intros [H | [H | []]]; discriminate H. }
  assert (H1 : In "x1" (map CommunityItem.id (cached COMMUNITY sample_world)))
    by (simpl; auto).
  split.
  - split; [exact H0 |].
    exact (proj1 (proj2 (incrementDownload_local_effect "zz" unreachable_env
                           sample_world)) H0).
  - split; [exact H1 |].
    destruct (proj2 (proj2 (incrementDownload_local_effect "x1" unreachable_env
                              sample_world)) H1)
      as (i & c & c' & Hc & Hid & Hfirst & Hc' & Hb & Hsafe & _).
    assert (H7 : CommunityItem.downloads c = 7).
    { destruct i as [|[|i]]; simpl in Hc.
      - injection Hc as <-. discriminate Hid.
      - injection Hc as <-. reflexivity.
      - rewrite lookup_nil in Hc. discriminate Hc. }
    exists i, c, c'.
    split; [exact Hc |]. split; [exact Hid |]. split; [exact Hc' |].
    split; [exact Hb |]. split; [exact H7 |].
    rewrite Hsafe, H7; [reflexivity |]. rewrite H7.
    change (2 ^ 53) with 9007199254740992. lia.
Defined.

(** C8, as the claim words it, fails where the number type runs out of
    integers: at [2^53] the sum [2^53 + 1] is no double and rounds back, so
    the item's counter stays, and no item of the mirror has its counter one
    higher. *)
Lemma incrementDownload_counter_stays :
  In "x9" (map CommunityItem.id (cached COMMUNITY saturated_world)) /\
  cached COMMUNITY
    (snd (ApiService.incrementDownload "x9" unreachable_env saturated_world)) =
  cached COMMUNITY saturated_world /\
  ~ (exists (i : nat) (c c' : CommunityItem.t),
        cached COMMUNITY saturated_world !! i = Some c /\
        CommunityItem.id c = "x9" /\
        cached COMMUNITY
          (snd (ApiService.incrementDownload "x9" unreachable_env
                  saturated_world)) !! i = Some c' /\
        CommunityItem.downloads c' = CommunityItem.downloads c + 1).
Proof.
  assert (E : cached COMMUNITY
                (snd (ApiService.incrementDownload "x9" unreachable_env
                        saturated_world)) =
              cached COMMUNITY saturated_world) by (vm_compute; reflexivity).
  split; [simpl; auto |]. split; [exact E |].
  intros (i & c & c' & Hc & _ & Hc' & Hd). rewrite E, Hc in Hc'.
  injection Hc' as <-. lia.
Qed.

Lemma _localGetCommunity_run env w :
  ApiService._localGetCommunity env w =
  if Z.of_nat (length (cached COMMUNITY w)) =? 0 then
    (Return (ApiService.seeds (Date_now env)),
     with_storage
       (setItem COMMUNITY (ApiService.seeds (Date_now env)) (localStorage w)) w)
  else (Return (cached COMMUNITY w), w).
Proof.
  unfold ApiService._localGetCommunity. run_local.
  change (match cardsnaps_community_db (localStorage w) with
          | Some v => v
          | None => []
          end) with (cached COMMUNITY w).
  destruct (Z.of_nat (length (cached COMMUNITY w)) =? 0); reflexivity.
Qed.

Lemma getCommunityItems_run env w :
  exists rs,
    (online env = false -> rs = []) /\
    ApiService.getCommunityItems env w =
    match (if online env then obtained (remote env _ GET_community) else None) with
    | Some items =>
        (Return items,
         with_storage (setItem COMMUNITY items (localStorage w)) (sent rs w))
    | None => ApiService._localGetCommunity env (sent rs w)
    end.
Proof.
  unfold ApiService.getCommunityItems, ApiService.isOnline.
  unfold bind at 1, ask at 1.
  destruct (online env).
  - exists [plain_request GET_community no_headers env]. split; [discriminate |].
    unfold bind at 1, try_catch, fetch, json, obtained.
    unfold bind at 1.
    destruct (remote env _ GET_community) as [e | [[] [e | v]]]; reflexivity.
  - exists []. split; [reflexivity |]. rewrite sent_nil. reflexivity.
Qed.

(** C9.  When the local community mirror is empty and no remote data is
    obtained (the oracle is offline, or the fetch is rejected, times out or
    comes back with a non-success status), [getCommunityItems] returns the
    three seed items, which is not the empty list, and stores them as the
    mirror. *)
Theorem getCommunityItems_seeds_empty_cache :
  forall (env : Env) (w : World),
    cached COMMUNITY w = [] ->
    online env = false \/ obtained (remote env _ GET_community) = None ->
    let w' := snd (ApiService.getCommunityItems env w) in
    fst (ApiService.getCommunityItems env w) =
    Return (ApiService.seeds (Date_now env)) /\
    getItem COMMUNITY (localStorage w') = Some (ApiService.seeds (Date_now env)) /\
    map CommunityItem.id (ApiService.seeds (Date_now env)) =
    ["seed-1"; "seed-2"; "seed-3"] /\
    ApiService.seeds (Date_now env) <> [].
Proof.
  intros env w Hempty Hno.
  destruct (getCommunityItems_run env w) as (rs & _ & ->).
  assert (E : (if online env then obtained (remote env _ GET_community) else None)
              = None).
  { destruct Hno as [-> | ->]; [reflexivity | destruct (online env); reflexivity]. }
  rewrite E, _localGetCommunity_run.
  change (cached COMMUNITY (sent rs w)) with (cached COMMUNITY w).
  rewrite Hempty. cbn [length Z.of_nat Z.eqb]. cbn zeta. cbn [fst snd].
  repeat split. discriminate.
Qed.

(** C9 at work: an empty store and a server answering with status 500. *)
Lemma getCommunityItems_seeds_witness :
  cached COMMUNITY fresh_world = [] /\
  (online erroring_env = false \/
   obtained (remote erroring_env _ GET_community) = None) /\
  fst (ApiService.getCommunityItems erroring_env fresh_world) =
  Return (ApiService.seeds (Date_now erroring_env)).
Proof.
  assert (H0 : cached COMMUNITY fresh_world = []) by reflexivity.
  assert (H1 : online erroring_env = false \/
               obtained (remote erroring_env _ GET_community) = None)
    by (right; reflexivity).
  split; [exact H0 |]. split; [exact H1 |].
  exact (proj1 (getCommunityItems_seeds_empty_cache erroring_env fresh_world H0 H1)).
Defined.

(** ** Every call: requests and rejections *)

Lemma login_run email password env w :
  ApiService.login email password env w =
  if online env then
    match remote env _ (POST_auth_login email password) with
    | Rejected e =>
        (Throw e, sent [plain_request (POST_auth_login email password)
                          json_headers env] w)
    | Resolved res =>
        let w1 := sent [plain_request (POST_auth_login email password)
                          json_headers env] w in
        if ok res then
          match body res with
          | inl e => (Throw e, w1)
          | inr data =>
              (Return (AuthData.user data),
               with_storage
                 (setItem USER (Some (AuthData.user data))
                    (setItem TOKEN (AuthData.token data) (localStorage w)))
                 (with_token (Some (AuthData.token data)) w1))
          end
        else (Throw (MkError "Login failed"), w1)
    end
  else (Throw (MkError "Offline. Cannot login."), w).
Proof.
  unfold ApiService.login, ApiService.isOnline. unfold bind at 1, ask at 1.
  destruct (online env); [| reflexivity]. cbn [negb].
  unfold bind at 1, fetch.
  destruct (remote env _ (POST_auth_login email password)) as [e | [[] [e | v]]];
    reflexivity.
Qed.

Lemma register_run email password name env w :
  ApiService.register email password name env w =
  if online env then
    match remote env _ (POST_auth_register email password name) with
    | Rejected e =>
        (Throw e, sent [plain_request (POST_auth_register email password name)
                          json_headers env] w)
    | Resolved res =>
        let w1 := sent [plain_request (POST_auth_register email password name)
                          json_headers env] w in
        if ok res then
          match body res with
          | inl e => (Throw e, w1)
          | inr data =>
              (Return (AuthData.user data),
               with_storage
                 (setItem USER (Some (AuthData.user data))
                    (setItem TOKEN (AuthData.token data) (localStorage w)))
                 (with_token (Some (AuthData.token data)) w1))
          end
        else (Throw (MkError "Registration failed"), w1)
    end
  else (Throw (MkError "Offline. Cannot register."), w).
Proof.
  unfold ApiService.register, ApiService.isOnline. unfold bind at 1, ask at 1.
  destruct (online env); [| reflexivity]. cbn [negb].
  unfold bind at 1, fetch.
  destruct (remote env _ (POST_auth_register email password name))
    as [e | [[] [e | v]]]; reflexivity.
Qed.

Lemma _localIncrement_requests id env w :
  requests (snd (ApiService._localIncrement id env w)) = requests w.
Proof.
  destruct (_localIncrement_run id env w) as [[_ ->] | (i & c & _ & _ & _ & ->)];
    reflexivity.
Qed.

Ltac split_cases :=
  repeat match goal with
         | |- context [match ?x with _ => _ end] => destruct x
         end.

Ltac offline_guard Hoff := rewrite ?Hoff, ?andb_false_r; reflexivity.

(** Offline, a call leaves the request log as it found it. *)
Lemma perform_offline {T} (c : Call T) env w :
  online env = false -> requests (snd (perform c env w)) = requests w.
Proof.
  intros Hoff. destruct c; cbn [perform].
  - reflexivity.
  - rewrite login_run, Hoff. reflexivity.
  - rewrite register_run, Hoff. reflexivity.
  - destruct (getMe_run env w) as (rs & Hrs & ->).
    rewrite Hrs by offline_guard Hoff. rewrite sent_nil. split_cases; reflexivity.
  - reflexivity.
  - destruct (savePreferences_run themeMode colorScheme enableSeasonal env w)
      as (rs & Hrs & u & ->).
    rewrite Hrs by offline_guard Hoff. rewrite sent_nil. reflexivity.
  - reflexivity.
  - destruct (getDecks_run env w) as (rs & Hrs & ->).
    rewrite Hrs by offline_guard Hoff. rewrite sent_nil. split_cases; reflexivity.
  - destruct (createDeck_run d env w) as (rs & Hrs & ->).
    rewrite Hrs by offline_guard Hoff. rewrite sent_nil. reflexivity.
  - destruct (updateDeck_run d env w) as (rs & Hrs & ->).
    rewrite Hrs by offline_guard Hoff. rewrite sent_nil. settle.
    split_cases; reflexivity.
  - destruct (deleteDeck_run id env w) as (rs & Hrs & ->).
    rewrite Hrs by offline_guard Hoff. rewrite sent_nil. reflexivity.
  - destruct (getNotes_run env w) as (rs & Hrs & ->).
    rewrite Hrs by offline_guard Hoff. rewrite sent_nil. split_cases; reflexivity.
  - destruct (saveNote_run n env w) as (rs & Hrs & ->).
    rewrite Hrs by offline_guard Hoff. rewrite sent_nil. reflexivity.
  - destruct (deleteNote_run id env w) as (rs & Hrs & ->).
    rewrite Hrs by offline_guard Hoff. rewrite sent_nil. reflexivity.
  - destruct (getTests_run env w) as (rs & Hrs & ->).
    rewrite Hrs by offline_guard Hoff. rewrite sent_nil. split_cases; reflexivity.
  - destruct (addTest_run t env w) as (rs & Hrs & ->).
    rewrite Hrs by offline_guard Hoff. rewrite sent_nil. reflexivity.
  - destruct (deleteTest_run id env w) as (rs & Hrs & ->).
    rewrite Hrs by offline_guard Hoff. rewrite sent_nil. reflexivity.
  - destruct (getStats_run env w) as (rs & Hrs & ->).
    rewrite Hrs by offline_guard Hoff. rewrite sent_nil. split_cases; reflexivity.
  - destruct (syncStats_run s env w) as (rs & Hrs & ->).
    rewrite Hrs by offline_guard Hoff. rewrite sent_nil. reflexivity.
  - destruct (getChatSessions_run env w) as (rs & Hrs & ->).
    rewrite Hrs by offline_guard Hoff. rewrite sent_nil. split_cases; reflexivity.
  - destruct (saveChatSession_run s env w) as (rs & Hrs & ->).
    rewrite Hrs by offline_guard Hoff. rewrite sent_nil. reflexivity.
  - destruct (shareToCommunity_run item type author env w) as (rs & Hrs & ->).
    rewrite (Hrs Hoff), sent_nil, _localShare_run. split_cases; reflexivity.
  - destruct (getCommunityItems_run env w) as (rs & Hrs & ->).
    rewrite (Hrs Hoff), sent_nil, Hoff, _localGetCommunity_run.
    split_cases; reflexivity.
  - destruct (incrementDownload_run id env w) as (rs & Hrs & -> & _).
    rewrite (Hrs Hoff), sent_nil. apply _localIncrement_requests.
Qed.

(** C4.  While the connectivity oracle reports offline, no method of the
    client hands a request to [fetch]; [login] and [register] reject at
    once, with the messages "Offline. Cannot login." and "Offline. Cannot
    register.", and leave the whole client state as it was. *)
Theorem offline_no_remote_request :
  forall (env : Env) (w : World),
    online env = false ->
    (forall (T : Type) (c : Call T),
        requests (snd (perform c env w)) = requests w) /\
    (forall email password : string,
        ApiService.login email password env w =
        (Throw (MkError "Offline. Cannot login."), w)) /\
    (forall email password name : string,
        ApiService.register email password name env w =
        (Throw (MkError "Offline. Cannot register."), w)).
Proof.
  intros env w Hoff. repeat apply conj.
  - intros T c. apply perform_offline. exact Hoff.
  - intros email password. rewrite login_run, Hoff. reflexivity.
  - intros email password name. rewrite register_run, Hoff. reflexivity.
Qed.

(** C4 at work in an offline browser. *)
Lemma offline_no_remote_request_witness :
  online offline_env = false /\
  requests (snd (perform (SaveNote note_n1_new) offline_env sample_world)) =
  requests sample_world /\
  ApiService.login "a@b.c" "pw" offline_env sample_world =
  (Throw (MkError "Offline. Cannot login."), sample_world).
Proof.
  assert (H : online offline_env = false) by reflexivity.
  destruct (offline_no_remote_request offline_env sample_world H) as (P & L & _).
  split; [exact H |]. split; [apply P | apply L].
Defined.

Ltac returns := split_cases; eexists; reflexivity.

(** Apart from [login] and [register], a call returns normally whatever the
    remote side does. *)
Lemma perform_returns {T} (c : Call T) env w :
  is_auth_call c = false -> exists v : T, fst (perform c env w) = Return v.
Proof.
  intros Hc. destruct c; cbn [perform]; try discriminate Hc.
  - eexists; reflexivity.
  - destruct (getMe_run env w) as (rs & _ & ->). returns.
  - eexists; reflexivity.
  - destruct (savePreferences_run themeMode colorScheme enableSeasonal env w)
      as (rs & _ & u & ->). returns.
  - eexists; reflexivity.
  - destruct (getDecks_run env w) as (rs & _ & ->). returns.
  - destruct (createDeck_run d env w) as (rs & _ & ->). returns.
  - destruct (updateDeck_run d env w) as (rs & _ & ->). returns.
  - destruct (deleteDeck_run id env w) as (rs & _ & ->). returns.
  - destruct (getNotes_run env w) as (rs & _ & ->). returns.
  - destruct (saveNote_run n env w) as (rs & _ & ->). returns.
  - destruct (deleteNote_run id env w) as (rs & _ & ->). returns.
  - destruct (getTests_run env w) as (rs & _ & ->). returns.
  - destruct (addTest_run t env w) as (rs & _ & ->). returns.
  - destruct (deleteTest_run id env w) as (rs & _ & ->). returns.
  - destruct (getStats_run env w) as (rs & _ & ->). returns.
  - destruct (syncStats_run s env w) as (rs & _ & ->). returns.
  - destruct (getChatSessions_run env w) as (rs & _ & ->). returns.
  - destruct (saveChatSession_run s env w) as (rs & _ & ->). returns.
  - destruct (shareToCommunity_run item type author env w) as (rs & _ & ->).
    rewrite _localShare_run. returns.
  - destruct (getCommunityItems_run env w) as (rs & _ & ->).
    destruct (if online env then _ else _).
    + eexists; reflexivity.
    + rewrite _localGetCommunity_run. returns.
  - destruct (incrementDownload_run id env w) as (rs & _ & -> & _).
    eexists; reflexivity.
Qed.

(** C5.  Every method other than [login] and [register] returns normally,
    for every state and every behaviour of the remote side (rejected fetch,
    timeout, any status, any body).  [login] and [register] are the ones that
    reject: offline with "Offline. Cannot login." / "Offline. Cannot
    register."; on a non-success status with "Login failed" / "Registration
    failed"; and when [fetch] itself rejects, with the error of [fetch]. *)
Theorem data_operations_never_throw :
  forall (env : Env) (w : World),
    (forall (T : Type) (c : Call T),
        is_auth_call c = false ->
        exists v : T, fst (perform c env w) = Return v) /\
    (forall email password : string,
        (online env = false ->
         fst (ApiService.login email password env w) =
         Throw (MkError "Offline. Cannot login.")) /\
        (forall res,
            online env = true ->
            remote env _ (POST_auth_login email password) = Resolved res ->
            ok res = false ->
            fst (ApiService.login email password env w) =
            Throw (MkError "Login failed")) /\
        (forall e,
            online env = true ->
            remote env _ (POST_auth_login email password) = Rejected e ->
            fst (ApiService.login email password env w) = Throw e)) /\
    (forall email password name : string,
        (online env = false ->
         fst (ApiService.register email password name env w) =
         Throw (MkError "Offline. Cannot register.")) /\
        (forall res,
            online env = true ->
            remote env _ (POST_auth_register email password name) = Resolved res ->
            ok res = false ->
            fst (ApiService.register email password name env w) =
            Throw (MkError "Registration failed")) /\
        (forall e,
            online env = true ->
            remote env _ (POST_auth_register email password name) = Rejected e ->
            fst (ApiService.register email password name env w) = Throw e)).
Proof.
  intros env w. split; [| split].
  - intros T c. apply perform_returns.
  - intros email password. repeat apply conj.
    + intros Hoff. rewrite login_run, Hoff. reflexivity.
    + intros res Hon Hres Hok. rewrite login_run, Hon, Hres. cbn zeta.
      rewrite Hok. reflexivity.
    + intros e Hon Hrej. rewrite login_run, Hon, Hrej. reflexivity.
  - intros email password name. repeat apply conj.
    + intros Hoff. rewrite register_run, Hoff. reflexivity.
    + intros res Hon Hres Hok. rewrite register_run, Hon, Hres. cbn zeta.
      rewrite Hok. reflexivity.
    + intros e Hon Hrej. rewrite register_run, Hon, Hrej. reflexivity.
Qed.

(** C5 at work: offline, against a server answering 500, and against an
    unreachable server. *)
Lemma data_operations_never_throw_witness :
  (is_auth_call GetDecks = false /\
   exists v, fst (perform GetDecks unreachable_env sample_world) = Return v) /\
  (is_auth_call (IncrementDownload "x1") = false /\
   exists v,
     fst (perform (IncrementDownload "x1") erroring_env sample_world) = Return v) /\
  (online offline_env = false /\
   fst (ApiService.login "a@b.c" "pw" offline_env sample_world) =
   Throw (MkError "Offline. Cannot login.") /\
   fst (ApiService.register "a@b.c" "pw" "Ann" offline_env sample_world) =
   Throw (MkError "Offline. Cannot register.")) /\
  (online erroring_env = true /\
   remote erroring_env _ (POST_auth_login "a@b.c" "pw") = Resolved error_response /\
   remote erroring_env _ (POST_auth_register "a@b.c" "pw" "Ann") =
   Resolved error_response /\
   ok (@error_response AuthData.t) = false /\
   fst (ApiService.login "a@b.c" "pw" erroring_env sample_world) =
   Throw (MkError "Login failed") /\
   fst (ApiService.register "a@b.c" "pw" "Ann" erroring_env sample_world) =
   Throw (MkError "Registration failed")) /\
  (online unreachable_env = true /\
   remote unreachable_env _ (POST_auth_login "a@b.c" "pw") =
   Rejected (MkError "Failed to fetch") /\
   remote unreachable_env _ (POST_auth_register "a@b.c" "pw" "Ann") =
   Rejected (MkError "Failed to fetch") /\
   fst (ApiService.login "a@b.c" "pw" unreachable_env sample_world) =
   Throw (MkError "Failed to fetch") /\
   fst (ApiService.register "a@b.c" "pw" "Ann" unreachable_env sample_world) =
   Throw (MkError "Failed to fetch")).
Proof.
  destruct (data_operations_never_throw unreachable_env sample_world)
    as (P & LU & RU).
  destruct (data_operations_never_throw erroring_env sample_world)
    as (Q & LE & RE).
  destruct (data_operations_never_throw offline_env sample_world)
    as (_ & LO & RO).
  destruct (LU "a@b.c" "pw") as (_ & _ & LU3).
  destruct (RU "a@b.c" "pw" "Ann") as (_ & _ & RU3).
  destruct (LE "a@b.c" "pw") as (_ & LE2 & _).
  destruct (RE "a@b.c" "pw" "Ann") as (_ & RE2 & _).
  destruct (LO "a@b.c" "pw") as (LO1 & _ & _).
  destruct (RO "a@b.c" "pw" "Ann") as (RO1 & _ & _).
  split; [| split; [| split; [| split]]].
  - split; [reflexivity |]. exact (P _ GetDecks eq_refl).
  - split; [reflexivity |]. exact (Q _ (IncrementDownload "x1") eq_refl).
  - split; [reflexivity |]. split; [exact (LO1 eq_refl) | exact (RO1 eq_refl)].
  - split; [reflexivity |]. split; [reflexivity |]. split; [reflexivity |].
    split; [reflexivity |].
    split; [exact (LE2 error_response eq_refl eq_refl eq_refl)
           | exact (RE2 error_response eq_refl eq_refl eq_refl)].
  - split; [reflexivity |]. split; [reflexivity |]. split; [reflexivity |].
    split; [exact (LU3 _ eq_refl eq_refl) | exact (RU3 _ eq_refl eq_refl)].
Defined.

(** ** The scenarios of the specification, run *)

Example getDecks_fresh_store_offline :
  fst (ApiService.getDecks offline_env fresh_world) = Return [].
Proof. reflexivity. Qed.

Example updateDeck_then_getDecks_offline :
  let w0 := with_storage (setItem DECKS [deck_d1] empty_storage) fresh_world in
  let w1 := snd (ApiService.updateDeck deck_d1_new offline_env w0) in
  fst (ApiService.getDecks offline_env w1) = Return [deck_d1_new].
Proof. reflexivity. Qed.

Example getCommunityItems_fresh_store_offline :
  map CommunityItem.id
    match fst (ApiService.getCommunityItems offline_env fresh_world) with
    | Return items => items
    | Throw _ => []
    end = ["seed-1"; "seed-2"; "seed-3"].
Proof. reflexivity. Qed.

(** * Further properties of the client *)

Ltac unfold_ops :=
  unfold perform, ApiService.isAuthenticated, ApiService.login, ApiService.register,
    ApiService.getMe, ApiService.saveProfile, ApiService.savePreferences,
    ApiService.logout, ApiService.getDecks, ApiService.createDeck,
    ApiService.updateDeck, ApiService.deleteDeck, ApiService.getNotes,
    ApiService.saveNote, ApiService.deleteNote, ApiService.getTests,
    ApiService.addTest, ApiService.deleteTest, ApiService.getStats,
    ApiService.syncStats, ApiService.getChatSessions, ApiService.saveChatSession,
    ApiService.shareToCommunity, ApiService.getCommunityItems,
    ApiService.incrementDownload, ApiService._localShare,
    ApiService._localGetCommunity,
    ApiService.token_and_online, ApiService.isOnline, ApiService.getHeaders,
    ApiService.getLocal, ApiService.setLocal;
  unfold bind, ret, throw, try_catch, ask, ignore, this_token, set_this_token,
    localStorage_getItem, localStorage_setItem, localStorage_removeItem, fetch, json.

Lemma perform_requests {T} (c : Call T) env w :
  requests (snd (perform c env w)) = requests w ++ call_requests c env w.
Proof.
  destruct c; cbn [call_requests perform]; unfold gated, ungated.
  24: { assert (H : exists w1, ApiService._localIncrement id env w = (Return tt, w1) /\
                       requests w1 = requests w).
        { pose proof (_localIncrement_requests id env w) as Hr.
          destruct (_localIncrement_run id env w)
            as [[_ E] | (i & c & _ & _ & _ & E)]; rewrite E in Hr |- *;
            eexists; (split; [reflexivity | exact Hr]). }
        destruct H as (w1 & H & Hr). unfold ApiService.incrementDownload.
        rewrite (bind_Return _ _ _ _ _ _ H).
        unfold ApiService.isOnline. unfold bind at 1, ask at 1.
        destruct (online env); [| cbn; rewrite app_nil_r; exact Hr].
        unfold try_catch, bind, fetch, ignore, ret, plain_request.
        destruct (remote env _ _); cbn; rewrite Hr; reflexivity. }
  18: { unfold ApiService.getStats.
        rewrite (bind_Return _ _ _ _ _ _ (token_and_online_run _ _)).
        destruct (truthy (token w) && online env).
        - unfold bind at 1. rewrite read_attempt_run.
          destruct (obtained _) as [[s |] |]; reflexivity.
        - cbn. rewrite app_nil_r. reflexivity. }
  all: unfold bearer_request, plain_request; unfold_ops; cbn;
    try (match goal with |- context [truthy ?t] => destruct (truthy t); cbn end);
    match goal with |- context [online ?e] => destruct (online e) | _ => idtac end; cbn;
    rewrite ?app_nil_r; try reflexivity;
    repeat match goal with
         | |- context [remote ?e ?T ?ep] =>
             destruct (remote e T ep) as [? | [[] [? | ?]]]; cbn
         end; try reflexivity;
    repeat match goal with
         | |- context [match ?x with _ => _ end] => destruct x; cbn
         end; rewrite ?app_nil_r; reflexivity.
Qed.

(** X1.  Without a credential ([this.token] null or empty) the methods
    guarded by [this.token && this.isOnline()] hand nothing to [fetch], even
    when the browser is online. *)
Theorem credential_gate :
  forall (T : Type) (c : Call T) (env : Env) (w : World),
    truthy (token w) = false ->
    needs_credential c = true ->
    requests (snd (perform c env w)) = requests w.
Proof.
  intros T c env w Htok Hc. rewrite perform_requests.
  destruct c; try discriminate Hc; cbn [call_requests]; unfold gated;
    rewrite Htok; cbn [andb]; apply app_nil_r.
Qed.

Lemma credential_gate_witness :
  truthy (token fresh_world) = false /\
  needs_credential (SaveNote note_n1) = true /\
  requests (snd (perform (SaveNote note_n1) unreachable_env fresh_world)) =
  requests fresh_world.
Proof.
  split; [reflexivity |]. split; [reflexivity |].
  exact (credential_gate _ (SaveNote note_n1) unreachable_env fresh_world
           eq_refl eq_refl).
Defined.

Lemma call_requests_short {T} (c : Call T) env w :
  (length (call_requests c env w) <= 1)%nat.
Proof.
  destruct c; cbn [call_requests]; unfold gated, ungated;
    repeat match goal with |- context [if ?b then _ else _] => destruct b end;
    cbn; lia.
Qed.

Lemma online_same env1 env2 : navigator env1 = navigator env2 -> online env1 = online env2.
Proof. unfold online. intros ->. reflexivity. Qed.

(** X2.  A call appends at most one request to those already sent and
    removes none; which request it sends does not depend on how the remote
    side answers (nothing is retried, nothing is sent as a follow-up). *)
Theorem one_request_whatever_the_answer :
  forall (T : Type) (c : Call T) (env : Env) (w : World),
    (exists rs, requests (snd (perform c env w)) = requests w ++ rs /\
                (length rs <= 1)%nat) /\
    (forall env' : Env,
        same_but_remote env env' ->
        requests (snd (perform c env' w)) = requests (snd (perform c env w))).
Proof.
  intros T c env w. split.
  - exists (call_requests c env w). split; [apply perform_requests |].
    apply call_requests_short.
  - intros env' (Hn & Hu & Hd & Hr). rewrite !perform_requests. f_equal.
    pose proof (online_same _ _ Hn) as Ho.
    destruct c; cbn [call_requests]; unfold gated, ungated, bearer_request,
      plain_request, shared_item; rewrite <- ?Ho, <- ?Hu, <- ?Hd, <- ?Hr; reflexivity.
Qed.

Lemma one_request_witness :
  same_but_remote unreachable_env serving_env /\
  requests (snd (perform GetDecks serving_env sample_world)) =
  requests (snd (perform GetDecks unreachable_env sample_world)).
Proof.
  assert (H : same_but_remote unreachable_env serving_env)
    by (repeat split).
  split; [exact H |].
  exact (proj2 (one_request_whatever_the_answer _ GetDecks unreachable_env
                  sample_world) serving_env H).
Defined.

(** X3.  Every request goes to a path under [API_URL] and is sent only
    while the oracle reports online.  A request of a guarded method carries
    [Authorization: Bearer <token>] with the non-empty token held; the
    requests of [login], [register] and the three community methods carry no
    [Authorization] header. *)
Theorem bearer_token_only_on_guarded_calls :
  forall (T : Type) (c : Call T) (env : Env) (w : World)
         (rs : list Request) (r : Request),
    requests (snd (perform c env w)) = requests w ++ rs ->
    In r rs ->
    online env = true /\
    (exists path : string, url r = API_URL env +:+ path) /\
    if needs_credential c then
      exists tok : string,
        token w = Some tok /\ tok <> "" /\
        Authorization (headers r) = Some ("Bearer " +:+ tok)
    else Authorization (headers r) = None.
Proof.
  intros T c env w rs r Hrs Hin. rewrite perform_requests in Hrs.
  apply app_inv_head in Hrs. subst rs.
  assert (G : forall U (ep : Endpoint U), In r (gated ep env w) ->
              online env = true /\
              (exists path : string, url r = API_URL env +:+ path) /\
              exists tok : string,
                token w = Some tok /\ tok <> "" /\
                Authorization (headers r) = Some ("Bearer " +:+ tok)).
  { intros U ep. unfold gated, bearer_request.
    destruct (truthy (token w)) eqn:Ht; cbn [andb]; [| intros []].
    destruct (online env); [| intros []]. intros [<- | []].
    split; [reflexivity |]. split; [eexists; reflexivity |].
    unfold truthy in Ht. destruct (token w) as [tok |]; [| discriminate].
    exists tok. split; [reflexivity |]. split; [| reflexivity].
    apply negb_true_iff, String.eqb_neq in Ht. exact Ht. }
  assert (P : forall U (ep : Endpoint U) h, Authorization h = None ->
              In r (ungated ep h env) ->
              online env = true /\
              (exists path : string, url r = API_URL env +:+ path) /\
              Authorization (headers r) = None).
  { intros U ep h Hh. unfold ungated. destruct (online env); [| intros []].
    intros [<- | []]. split; [reflexivity |]. split; [eexists; reflexivity |].
    exact Hh. }
  destruct c; cbn [call_requests needs_credential] in *;
    try contradiction;
    first [ eapply G; eassumption | eapply P; [| eassumption]; reflexivity ].
Qed.

Lemma bearer_token_witness :
  requests (snd (perform GetCommunityItems unreachable_env sample_world)) =
  requests sample_world ++ [plain_request GET_community no_headers unreachable_env]
  /\
  In (plain_request GET_community no_headers unreachable_env)
    [plain_request GET_community no_headers unreachable_env] /\
  Authorization (headers (plain_request GET_community no_headers unreachable_env))
  = None.
Proof.
  assert (H : requests (snd (perform GetCommunityItems unreachable_env sample_world))
              = requests sample_world ++
                [plain_request GET_community no_headers unreachable_env])
    by reflexivity.
  assert (I : In (plain_request GET_community no_headers unreachable_env)
                [plain_request GET_community no_headers unreachable_env])
    by (left; reflexivity).
  split; [exact H |]. split; [exact I |].
  exact (proj2 (proj2 (bearer_token_only_on_guarded_calls _ GetCommunityItems
                         unreachable_env sample_world _ _ H I))).
Defined.

Ltac other_slot k Hk :=
  settle; split_cases; cbn [snd fst];
  destruct k; cbn in Hk |- *; try reflexivity; exfalso; tauto.

Lemma perform_slots {T} (c : Call T) env w {U} (k : Key U) :
  ~ In (key_name k) (touched c) ->
  getItem k (localStorage (snd (perform c env w))) = getItem k (localStorage w).
Proof.
  intros Hk. destruct c; cbn [perform touched] in *.
  - reflexivity.
  - rewrite login_run. other_slot k Hk.
  - rewrite register_run. other_slot k Hk.
  - destruct (getMe_run env w) as (rs & _ & ->). other_slot k Hk.
  - other_slot k Hk.
  - destruct (savePreferences_run themeMode colorScheme enableSeasonal env w)
      as (rs & _ & u & ->). other_slot k Hk.
  - other_slot k Hk.
  - destruct (getDecks_run env w) as (rs & _ & ->). other_slot k Hk.
  - destruct (createDeck_run d env w) as (rs & _ & ->). other_slot k Hk.
  - destruct (updateDeck_run d env w) as (rs & _ & ->). other_slot k Hk.
  - destruct (deleteDeck_run id env w) as (rs & _ & ->). other_slot k Hk.
  - destruct (getNotes_run env w) as (rs & _ & ->). other_slot k Hk.
  - destruct (saveNote_run n env w) as (rs & _ & ->). other_slot k Hk.
  - destruct (deleteNote_run id env w) as (rs & _ & ->). other_slot k Hk.
  - destruct (getTests_run env w) as (rs & _ & ->). other_slot k Hk.
  - destruct (addTest_run t env w) as (rs & _ & ->). other_slot k Hk.
  - destruct (deleteTest_run id env w) as (rs & _ & ->). other_slot k Hk.
  - destruct (getStats_run env w) as (rs & _ & ->). other_slot k Hk.
  - destruct (syncStats_run s env w) as (rs & _ & ->). other_slot k Hk.
  - destruct (getChatSessions_run env w) as (rs & _ & ->). other_slot k Hk.
  - destruct (saveChatSession_run s env w) as (rs & _ & ->). other_slot k Hk.
  - destruct (shareToCommunity_run item type author env w) as (rs & _ & ->).
    rewrite _localShare_run. other_slot k Hk.
  - destruct (getCommunityItems_run env w) as (rs & _ & ->).
    destruct (if online env then _ else _).
    + other_slot k Hk.
    + rewrite _localGetCommunity_run. other_slot k Hk.
  - destruct (incrementDownload_run id env w) as (rs & _ & -> & _).
    destruct (_localIncrement_run id env w)
      as [[_ ->] | (i & c & _ & _ & _ & ->)]; other_slot k Hk.
Qed.

Lemma perform_token {T} (c : Call T) env w :
  assigns_token c = false -> token (snd (perform c env w)) = token w.
Proof.
  intros Hc. destruct c; cbn [perform] in *; try discriminate Hc.
  - reflexivity.
  - destruct (getMe_run env w) as (rs & _ & ->). split_cases; reflexivity.
  - reflexivity.
  - destruct (savePreferences_run themeMode colorScheme enableSeasonal env w)
      as (rs & _ & u & ->). reflexivity.
  - destruct (getDecks_run env w) as (rs & _ & ->). split_cases; reflexivity.
  - destruct (createDeck_run d env w) as (rs & _ & ->). reflexivity.
  - destruct (updateDeck_run d env w) as (rs & _ & ->). settle.
    split_cases; reflexivity.
  - destruct (deleteDeck_run id env w) as (rs & _ & ->). reflexivity.
  - destruct (getNotes_run env w) as (rs & _ & ->). split_cases; reflexivity.
  - destruct (saveNote_run n env w) as (rs & _ & ->). reflexivity.
  - destruct (deleteNote_run id env w) as (rs & _ & ->). reflexivity.
  - destruct (getTests_run env w) as (rs & _ & ->). split_cases; reflexivity.
  - destruct (addTest_run t env w) as (rs & _ & ->). reflexivity.
  - destruct (deleteTest_run id env w) as (rs & _ & ->). reflexivity.
  - destruct (getStats_run env w) as (rs & _ & ->). split_cases; reflexivity.
  - destruct (syncStats_run s env w) as (rs & _ & ->). reflexivity.
  - destruct (getChatSessions_run env w) as (rs & _ & ->). split_cases; reflexivity.
  - destruct (saveChatSession_run s env w) as (rs & _ & ->). reflexivity.
  - destruct (shareToCommunity_run item type author env w) as (rs & _ & ->).
    rewrite _localShare_run. split_cases; reflexivity.
  - destruct (getCommunityItems_run env w) as (rs & _ & ->).
    destruct (if online env then _ else _).
    + reflexivity.
    + rewrite _localGetCommunity_run. split_cases; reflexivity.
  - destruct (incrementDownload_run id env w) as (rs & _ & -> & _).
    destruct (_localIncrement_run id env w)
      as [[_ ->] | (i & c & _ & _ & _ & ->)]; reflexivity.
Qed.

(** X4.  A method writes and removes only its own [localStorage] keys (the
    deck methods the decks key, and so on; [getTests], [getChatSessions] and
    [isAuthenticated] none), and only [login], [register] and [logout]
    assign [this.token]. *)
Theorem calls_write_only_their_slots :
  forall (T : Type) (c : Call T) (env : Env) (w : World),
    (forall (U : Type) (k : Key U),
        ~ In (key_name k) (touched c) ->
        getItem k (localStorage (snd (perform c env w))) =
        getItem k (localStorage w)) /\
    (assigns_token c = false -> token (snd (perform c env w)) = token w).
Proof.
  intros T c env w. split.
  - intros U k. apply perform_slots.
  - apply perform_token.
Qed.

Lemma calls_write_only_their_slots_witness :
  ~ In (key_name NOTES) (touched (CreateDeck deck_d3)) /\
  getItem NOTES
    (localStorage (snd (perform (CreateDeck deck_d3) unreachable_env sample_world)))
  = getItem NOTES (localStorage sample_world) /\
  assigns_token (CreateDeck deck_d3) = false /\
  token (snd (perform (CreateDeck deck_d3) unreachable_env sample_world)) =
  token sample_world.
Proof.
  assert (H : ~ In (key_name NOTES) (touched (CreateDeck deck_d3)))
    by (simpl; intuition discriminate).
  destruct (calls_write_only_their_slots _ (CreateDeck deck_d3) unreachable_env
              sample_world) as (S & K).
  split; [exact H |]. split; [exact (S _ NOTES H) |].
  split; [reflexivity | exact (K eq_refl)].
Defined.

(** X5.  [login] and [register] are all or nothing: when they throw, the
    credential and the local store are as before; when they return, the
    remote side answered with a success status and a session, the user
    returned is the session's, and the session's token is both in
    [this.token] and, with the user, in the local store. *)
Theorem login_all_or_nothing :
  forall (email password name : string) (env : Env) (w : World),
    (match fst (ApiService.login email password env w) with
     | Throw _ =>
         token (snd (ApiService.login email password env w)) = token w /\
         localStorage (snd (ApiService.login email password env w)) =
         localStorage w
     | Return user =>
         exists data : AuthData.t,
           online env = true /\
           obtained (remote env _ (POST_auth_login email password)) = Some data /\
           user = AuthData.user data /\
           token (snd (ApiService.login email password env w)) =
           Some (AuthData.token data) /\
           localStorage (snd (ApiService.login email password env w)) =
           setItem USER (Some (AuthData.user data))
             (setItem TOKEN (AuthData.token data) (localStorage w))
     end) /\
    (match fst (ApiService.register email password name env w) with
     | Throw _ =>
         token (snd (ApiService.register email password name env w)) = token w /\
         localStorage (snd (ApiService.register email password name env w)) =
         localStorage w
     | Return user =>
         exists data : AuthData.t,
           online env = true /\
           obtained (remote env _ (POST_auth_register email password name)) =
           Some data /\
           user = AuthData.user data /\
           token (snd (ApiService.register email password name env w)) =
           Some (AuthData.token data) /\
           localStorage (snd (ApiService.register email password name env w)) =
           setItem USER (Some (AuthData.user data))
             (setItem TOKEN (AuthData.token data) (localStorage w))
     end).
Proof.
  intros email password name env w. split.
  - rewrite login_run. unfold obtained.
    destruct (online env); [| split; reflexivity].
    destruct (remote env _ _) as [e | [[] [e | data]]]; cbn;
      try (split; reflexivity).
    exists data. repeat split.
  - rewrite register_run. unfold obtained.
    destruct (online env); [| split; reflexivity].
    destruct (remote env _ _) as [e | [[] [e | data]]]; cbn;
      try (split; reflexivity).
    exists data. repeat split.
Qed.

(** X6.  After [logout] the client is not authenticated and a guarded
    method sends nothing, whatever the network is. *)
Theorem logout_closes_the_gate :
  forall (T : Type) (c : Call T) (env env' : Env) (w : World),
    needs_credential c = true ->
    let w1 := snd (ApiService.logout env w) in
    fst (ApiService.isAuthenticated env' w1) = Return false /\
    requests (snd (perform c env' w1)) = requests w.
Proof.
  intros T c env env' w Hc w1. split; [reflexivity |].
  rewrite perform_requests.
  destruct c; try discriminate Hc; cbn [call_requests]; unfold gated;
    cbn; apply app_nil_r.
Qed.

Lemma logout_closes_the_gate_witness :
  needs_credential GetNotes = true /\
  requests
    (snd (perform GetNotes serving_env (snd (ApiService.logout offline_env
                                               sample_world)))) =
  requests sample_world.
Proof.
  split; [reflexivity |].
  exact (proj2 (logout_closes_the_gate _ GetNotes offline_env serving_env
                  sample_world eq_refl)).
Defined.

(** ** Writing, then reading back *)

Lemma gate_closed {T} (ep : Endpoint T) env w :
  nothing_obtained ep env w ->
  (if truthy (token w) && online env then obtained (remote env T ep) else None)
  = None.
Proof.
  intros [-> | ->]; [reflexivity |].
  destruct (truthy (token w) && online env); reflexivity.
Qed.

Lemma array_set_found_contains {A} (p : A -> bool) (l : list A) (x : A) :
  findIndex p l <> -1 -> In x (array_set l (findIndex p l) x).
Proof.
  intros H. destruct (findIndex_found _ _ H) as (i & y & Hi & Hy & _ & _).
  unfold array_set. rewrite Hi, Nat2Z.id.
  apply list_elem_of_In. eapply list_elem_of_lookup_2.
  apply list_lookup_insert_eq. eapply lookup_lt_Some. exact Hy.
Qed.

Lemma upsert_contains {A} (p : A -> bool) (l : list A) (x : A) :
  In x (if negb (findIndex p l =? -1) then array_set l (findIndex p l) x
        else x :: l).
Proof.
  destruct (findIndex p l =? -1) eqn:E; cbn [negb].
  - left. reflexivity.
  - apply array_set_found_contains. apply Z.eqb_neq. exact E.
Qed.

(** X7.  What a write stored is what the next read returns when that read
    gets nothing from the remote side (whatever the network did during the
    write). *)
Theorem read_returns_last_local_write :
  forall (env1 env2 : Env) (w : World),
    (forall d : Deck.t,
        nothing_obtained GET_decks env2 w ->
        fst (ApiService.getDecks env2 (snd (ApiService.createDeck d env1 w))) =
        Return (d :: cached DECKS w)) /\
    (forall d : Deck.t,
        nothing_obtained GET_decks env2 w ->
        In (Deck.id d) (map Deck.id (cached DECKS w)) ->
        exists l,
          fst (ApiService.getDecks env2 (snd (ApiService.updateDeck d env1 w))) =
          Return l /\ In d l /\ length l = length (cached DECKS w)) /\
    (forall n : Note.t,
        nothing_obtained GET_notes env2 w ->
        exists l,
          fst (ApiService.getNotes env2 (snd (ApiService.saveNote n env1 w))) =
          Return l /\ In n l) /\
    (forall t : Test.t,
        nothing_obtained GET_tests env2 w ->
        fst (ApiService.getTests env2 (snd (ApiService.addTest t env1 w))) =
        Return (cached TESTS w ++ [t])) /\
    (forall s : ChatSession.t,
        nothing_obtained GET_chats env2 w ->
        exists l,
          fst (ApiService.getChatSessions env2
                 (snd (ApiService.saveChatSession s env1 w))) =
          Return l /\ In s l) /\
    (forall s : UserStats.t,
        nothing_obtained GET_stats env2 w ->
        fst (ApiService.getStats env2 (snd (ApiService.syncStats s env1 w))) =
        Return (Some s)).
Proof.
  intros env1 env2 w. repeat apply conj.
  - intros d H. destruct (createDeck_run d env1 w) as (rs & _ & ->). settle.
    match goal with |- context [ApiService.getDecks ?e ?x] =>
      destruct (getDecks_run e x) as (rs' & _ & ->) end.
    change (token (with_storage _ (sent rs w))) with (token w).
    rewrite (gate_closed _ _ _ H). settle. rewrite cached_with_storage.
    reflexivity.
  - intros d H Hin. destruct (updateDeck_run d env1 w) as (rs & _ & ->). settle.
    pose proof (findIndex_id_present Deck.id _ _ Hin) as Hi.
    destruct (array_set_replaces Deck.id d _ Hin)
      as (i & y & _ & _ & _ & Hnew & Hlen & _).
    apply Z.eqb_neq in Hi. rewrite Hi. settle.
    match goal with |- context [ApiService.getDecks ?e ?x] =>
      destruct (getDecks_run e x) as (rs' & _ & ->) end.
    change (token (with_storage _ (sent rs w))) with (token w).
    rewrite (gate_closed _ _ _ H). settle. rewrite cached_with_storage.
    eexists. split; [reflexivity |]. split; [| exact Hlen].
    apply list_elem_of_In. eapply list_elem_of_lookup_2. exact Hnew.
  - intros n H. destruct (saveNote_run n env1 w) as (rs & _ & ->). settle.
    match goal with |- context [ApiService.getNotes ?e ?x] =>
      destruct (getNotes_run e x) as (rs' & _ & ->) end.
    change (token (with_storage _ (sent rs w))) with (token w).
    rewrite (gate_closed _ _ _ H). settle. rewrite cached_with_storage.
    eexists. split; [reflexivity |]. apply upsert_contains.
  - intros t H. destruct (addTest_run t env1 w) as (rs & _ & ->). settle.
    match goal with |- context [ApiService.getTests ?e ?x] =>
      destruct (getTests_run e x) as (rs' & _ & ->) end.
    change (token (with_storage _ (sent rs w))) with (token w).
    rewrite (gate_closed _ _ _ H). settle. rewrite cached_with_storage.
    reflexivity.
  - intros s H. destruct (saveChatSession_run s env1 w) as (rs & _ & ->). settle.
    match goal with |- context [ApiService.getChatSessions ?e ?x] =>
      destruct (getChatSessions_run e x) as (rs' & _ & ->) end.
    change (token (with_storage _ (sent rs w))) with (token w).
    rewrite (gate_closed _ _ _ H). settle. rewrite cached_with_storage.
    eexists. split; [reflexivity |]. apply upsert_contains.
  - intros s H. destruct (syncStats_run s env1 w) as (rs & _ & ->). settle.
    match goal with |- context [ApiService.getStats ?e ?x] =>
      destruct (getStats_run e x) as (rs' & _ & ->) end.
    change (token (with_storage _ (sent rs w))) with (token w).
    rewrite (gate_closed _ _ _ H). reflexivity.
Qed.

Lemma read_returns_last_local_write_witness :
  nothing_obtained GET_decks unreachable_env sample_world /\
  In (Deck.id deck_d1_new) (map Deck.id (cached DECKS sample_world)) /\
  fst (ApiService.getDecks unreachable_env
         (snd (ApiService.createDeck deck_d3 offline_env sample_world))) =
  Return (deck_d3 :: cached DECKS sample_world) /\
  exists l,
    fst (ApiService.getDecks unreachable_env
           (snd (ApiService.updateDeck deck_d1_new offline_env sample_world))) =
    Return l /\ In deck_d1_new l.
Proof.
  assert (H : nothing_obtained GET_decks unreachable_env sample_world)
    by (right; reflexivity).
  assert (I : In (Deck.id deck_d1_new) (map Deck.id (cached DECKS sample_world)))
    by (simpl; auto).
  destruct (read_returns_last_local_write offline_env unreachable_env sample_world)
    as (C & U & _).
  split; [exact H |]. split; [exact I |]. split; [exact (C deck_d3 H) |].
  destruct (U deck_d1_new H I) as (l & Hl & Hin & _).
  exists l. split; [exact Hl | exact Hin].
Defined.

(** ** Distinct ids *)

Section DistinctIds.
Context {A : Type} (key : A -> string).

Lemma map_key_insert (l : list A) (i : nat) (x y : A) :
  l !! i = Some y -> key y = key x -> map key (<[i:=x]> l) = map key l.
Proof.
  revert i. induction l as [|z l IH]; intros [|i] Hl Hk; simpl in *;
    try discriminate.
  - injection Hl as ->. rewrite Hk. reflexivity.
  - rewrite (IH i Hl Hk). reflexivity.
Qed.

Lemma map_key_array_set (l : list A) (x : A) :
  findIndex (fun y => (key y =? key x)%string) l <> -1 ->
  map key (array_set l (findIndex (fun y => (key y =? key x)%string) l) x) =
  map key l.
Proof.
  intros H. destruct (findIndex_found _ _ H) as (i & y & Hi & Hy & Hp & _).
  unfold array_set. rewrite Hi, Nat2Z.id.
  apply (map_key_insert _ _ _ y Hy). apply String.eqb_eq. exact Hp.
Qed.

Lemma NoDup_map_filter (p : A -> bool) (l : list A) :
  List.NoDup (map key l) -> List.NoDup (map key (List.filter p l)).
Proof.
  induction l as [|x l IH]; simpl; intros H; [constructor |].
  apply List.NoDup_cons_iff in H. destruct H as [Hx Hl].
  destruct (p x); simpl; [| apply IH; exact Hl].
  apply List.NoDup_cons; [| apply IH; exact Hl].
  intros Hin. apply Hx. apply in_map_iff in Hin.
  destruct Hin as (y & Hy & Hf). apply filter_In in Hf.
  rewrite <- Hy. apply in_map. apply Hf.
Qed.

Lemma NoDup_map_upsert (l : list A) (x : A) :
  List.NoDup (map key l) ->
  List.NoDup
    (map key
       (if negb (findIndex (fun y => (key y =? key x)%string) l =? -1)
        then array_set l (findIndex (fun y => (key y =? key x)%string) l) x
        else x :: l)).
Proof.
  intros H. destruct (findIndex _ l =? -1) eqn:E; cbn [negb].
  - apply Z.eqb_eq in E. simpl. apply List.NoDup_cons; [| exact H].
    apply (findIndex_id_absent_inv key). exact E.
  - apply Z.eqb_neq in E. rewrite map_key_array_set by exact E. exact H.
Qed.

Lemma NoDup_map_push (l : list A) (x : A) :
  List.NoDup (map key l) -> ~ In (key x) (map key l) ->
  List.NoDup (map key (l ++ [x])).
Proof.
  intros H Hx. rewrite map_app. simpl.
  apply List.NoDup_rev in H.
  rewrite <- (rev_involutive (map key l ++ [key x])).
  apply List.NoDup_rev. rewrite rev_app_distr. simpl.
  apply List.NoDup_cons; [| exact H].
  intros Hin. apply Hx. apply in_rev. exact Hin.
Qed.

End DistinctIds.

Lemma cached_frame {A T} (K : Key (list A)) (c : Call T) env w :
  ~ In (key_name K) (touched c) ->
  cached K (snd (perform c env w)) = cached K w.
Proof.
  intros H. unfold cached. rewrite (perform_slots c env w K H). reflexivity.
Qed.

Ltac untouched :=
  rewrite cached_frame by (cbn; intuition discriminate); assumption.

(** X8.  Distinct ids are an invariant of the local store: if no two
    items of a mirror share an id, this still holds after any method, as long
    as [createDeck] and [addTest] are given an id that is not in their mirror
    and the lists read from the server have distinct ids.  The upserts, the
    deletes, [shareToCommunity] and [incrementDownload] need no such
    care. *)
Theorem distinct_ids_invariant :
  forall (T : Type) (c : Call T) (env : Env) (w : World),
    distinct_ids w ->
    supplies_distinct_ids c env w ->
    distinct_ids (snd (perform c env w)).
Proof.
  intros T c env w. unfold distinct_ids. intros (HD & HN & HT & HC & HX) Hs.
  destruct c; cbn [supplies_distinct_ids] in Hs;
    repeat apply conj; try untouched; cbn [perform].
  - destruct (getDecks_run env w) as (rs & _ & ->).
    destruct (truthy (token w) && online env); [| exact HD].
    destruct (obtained _) as [l |] eqn:E; [| exact HD]. settle.
    rewrite cached_with_storage. apply Hs. reflexivity.
  - destruct (createDeck_run d env w) as (rs & _ & ->). settle.
    rewrite cached_with_storage. simpl. apply List.NoDup_cons; assumption.
  - destruct (updateDeck_run d env w) as (rs & _ & ->). settle.
    destruct (findIndex _ _ =? -1) eqn:E; cbn [negb]; [exact HD |].
    rewrite cached_with_storage. apply Z.eqb_neq in E.
    rewrite (map_key_array_set Deck.id) by exact E. exact HD.
  - destruct (deleteDeck_run id env w) as (rs & _ & ->). settle.
    rewrite cached_with_storage. apply NoDup_map_filter. exact HD.
  - destruct (getNotes_run env w) as (rs & _ & ->).
    destruct (truthy (token w) && online env); [| exact HN].
    destruct (obtained _) as [l |] eqn:E; [| exact HN]. settle.
    rewrite cached_with_storage. apply Hs. reflexivity.
  - destruct (saveNote_run n env w) as (rs & _ & ->). settle.
    rewrite cached_with_storage. apply (NoDup_map_upsert Note.id). exact HN.
  - destruct (deleteNote_run id env w) as (rs & _ & ->). settle.
    rewrite cached_with_storage. apply NoDup_map_filter. exact HN.
  - destruct (addTest_run t env w) as (rs & _ & ->). settle.
    rewrite cached_with_storage. apply NoDup_map_push; assumption.
  - destruct (deleteTest_run id env w) as (rs & _ & ->). settle.
    rewrite cached_with_storage. apply NoDup_map_filter. exact HT.
  - destruct (saveChatSession_run s env w) as (rs & _ & ->). settle.
    rewrite cached_with_storage. apply (NoDup_map_upsert ChatSession.id).
    exact HC.
  - destruct (shareToCommunity_run item type author env w) as (rs & _ & ->).
    rewrite _localShare_run.
    change (cached COMMUNITY (sent rs w)) with (cached COMMUNITY w).
    destruct (find _ _) eqn:E; [exact HX |]. settle.
    rewrite cached_with_storage. simpl. apply List.NoDup_cons; [| exact HX].
    intros Hin. destruct (find_id_present CommunityItem.id _ _ Hin) as [y Hy].
    cbn [CommunityItem.id] in E. congruence.
  - destruct (getCommunityItems_run env w) as (rs & _ & ->).
    destruct (online env).
    + destruct (obtained _) as [l |] eqn:E.
      * settle. rewrite cached_with_storage. apply Hs. reflexivity.
      * rewrite _localGetCommunity_run.
        change (cached COMMUNITY (sent rs w)) with (cached COMMUNITY w).
        destruct (Z.of_nat (length (cached COMMUNITY w)) =? 0); [| exact HX].
        settle. rewrite cached_with_storage. simpl.
        repeat (apply List.NoDup_cons; [simpl; intuition discriminate |]).
        constructor.
    + rewrite _localGetCommunity_run.
      change (cached COMMUNITY (sent rs w)) with (cached COMMUNITY w).
      destruct (Z.of_nat (length (cached COMMUNITY w)) =? 0); [| exact HX].
      settle. rewrite cached_with_storage. simpl.
      repeat (apply List.NoDup_cons; [simpl; intuition discriminate |]).
      constructor.
  - destruct (incrementDownload_run id env w) as (rs & _ & -> & _).
    destruct (_localIncrement_run id env w)
      as [[_ ->] | (i & c & Hc & Hid & _ & ->)]; [exact HX |].
    settle. change (cached COMMUNITY (sent rs ?x)) with (cached COMMUNITY x).
    rewrite cached_with_storage.
    rewrite (map_key_insert CommunityItem.id _ _ _ c Hc) by reflexivity.
    exact HX.
Qed.

Ltac distinct := repeat (apply List.NoDup_cons; [simpl; intuition discriminate |]);
                 apply List.NoDup_nil.

Lemma sample_world_distinct : distinct_ids sample_world.
Proof. unfold distinct_ids. simpl. repeat apply conj; distinct. Defined.

Lemma distinct_ids_invariant_witness :
  distinct_ids sample_world /\
  supplies_distinct_ids (CreateDeck deck_d3) unreachable_env sample_world /\
  distinct_ids (snd (perform (CreateDeck deck_d3) unreachable_env sample_world)).
Proof.
  assert (H : supplies_distinct_ids (CreateDeck deck_d3) unreachable_env
                sample_world) by (simpl; intuition discriminate).
  split; [exact sample_world_distinct |]. split; [exact H |].
  exact (distinct_ids_invariant _ (CreateDeck deck_d3) unreachable_env sample_world
           sample_world_distinct H).
Defined.

(** ** Deleting *)

Lemma filter_absent_id {A} (key : A -> string) (i : string) (l : list A) :
  ~ In i (map key l) ->
  List.filter (fun y => negb (key y =? i)%string) l = l.
Proof.
  induction l as [|x l IH]; simpl; intros H; [reflexivity |].
  destruct (key x =? i)%string eqn:E.
  - apply String.eqb_eq in E. exfalso. apply H. left. exact E.
  - simpl. rewrite IH; [reflexivity |]. intros Hin. apply H. right. exact Hin.
Qed.

Lemma in_filter_out {A} (key : A -> string) (i : string) (l : list A) (x : A) :
  In x (List.filter (fun y => negb (key y =? i)%string) l) <->
  In x l /\ key x <> i.
Proof.
  rewrite filter_In, negb_true_iff, String.eqb_neq. reflexivity.
Qed.

(** X9.  A delete removes all the items carrying the id and nothing else; for
    an id that is not in the mirror the mirror's contents stay as they are. *)
Theorem delete_removes_exactly_the_id :
  forall (id : string) (env : Env) (w : World),
    ((forall d : Deck.t,
         In d (cached DECKS (snd (ApiService.deleteDeck id env w))) <->
         In d (cached DECKS w) /\ Deck.id d <> id) /\
     (~ In id (map Deck.id (cached DECKS w)) ->
      cached DECKS (snd (ApiService.deleteDeck id env w)) = cached DECKS w)) /\
    ((forall n : Note.t,
         In n (cached NOTES (snd (ApiService.deleteNote id env w))) <->
         In n (cached NOTES w) /\ Note.id n <> id) /\
     (~ In id (map Note.id (cached NOTES w)) ->
      cached NOTES (snd (ApiService.deleteNote id env w)) = cached NOTES w)) /\
    ((forall t : Test.t,
         In t (cached TESTS (snd (ApiService.deleteTest id env w))) <->
         In t (cached TESTS w) /\ Test.id t <> id) /\
     (~ In id (map Test.id (cached TESTS w)) ->
      cached TESTS (snd (ApiService.deleteTest id env w)) = cached TESTS w)).
Proof.
  intros id env w. repeat apply conj.
  - intros d. destruct (deleteDeck_run id env w) as (rs & _ & ->). settle.
    rewrite cached_with_storage. apply (in_filter_out Deck.id).
  - intros H. destruct (deleteDeck_run id env w) as (rs & _ & ->). settle.
    rewrite cached_with_storage. apply (filter_absent_id Deck.id). exact H.
  - intros n. destruct (deleteNote_run id env w) as (rs & _ & ->). settle.
    rewrite cached_with_storage. apply (in_filter_out Note.id).
  - intros H. destruct (deleteNote_run id env w) as (rs & _ & ->). settle.
    rewrite cached_with_storage. apply (filter_absent_id Note.id). exact H.
  - intros t. destruct (deleteTest_run id env w) as (rs & _ & ->). settle.
    rewrite cached_with_storage. apply (in_filter_out Test.id).
  - intros H. destruct (deleteTest_run id env w) as (rs & _ & ->). settle.
    rewrite cached_with_storage. apply (filter_absent_id Test.id). exact H.
Qed.

Lemma delete_removes_exactly_witness :
  ~ In "zz" (map Deck.id (cached DECKS sample_world)) /\
  cached DECKS (snd (ApiService.deleteDeck "zz" unreachable_env sample_world)) =
  cached DECKS sample_world.
Proof.
  assert (H : ~ In "zz" (map Deck.id (cached DECKS sample_world)))
    by (simpl; intuition discriminate).
  split; [exact H |].
  destruct (delete_removes_exactly_the_id "zz" unreachable_env sample_world)
    as ((_ & D) & _).
  exact (D H).
Defined.

(** X10.  Inserting an item under a new id and deleting that id again gives
    back the mirror's contents. *)
Theorem insert_then_delete_restores :
  forall (d : Deck.t) (n : Note.t) (t : Test.t) (env1 env2 : Env) (w : World),
    (~ In (Deck.id d) (map Deck.id (cached DECKS w)) ->
     cached DECKS
       (snd (ApiService.deleteDeck (Deck.id d) env2
               (snd (ApiService.createDeck d env1 w)))) = cached DECKS w) /\
    (~ In (Note.id n) (map Note.id (cached NOTES w)) ->
     cached NOTES
       (snd (ApiService.deleteNote (Note.id n) env2
               (snd (ApiService.saveNote n env1 w)))) = cached NOTES w) /\
    (~ In (Test.id t) (map Test.id (cached TESTS w)) ->
     cached TESTS
       (snd (ApiService.deleteTest (Test.id t) env2
               (snd (ApiService.addTest t env1 w)))) = cached TESTS w).
Proof.
  intros d n t env1 env2 w. repeat apply conj; intros H.
  - destruct (createDeck_run d env1 w) as (rs & _ & ->). settle.
    match goal with |- context [ApiService.deleteDeck ?i ?e ?x] =>
      destruct (deleteDeck_run i e x) as (rs' & _ & ->) end.
    settle. rewrite !cached_with_storage. simpl. rewrite String.eqb_refl. simpl.
    apply (filter_absent_id Deck.id). exact H.
  - destruct (saveNote_run n env1 w) as (rs & _ & ->). settle.
    match goal with |- context [ApiService.deleteNote ?i ?e ?x] =>
      destruct (deleteNote_run i e x) as (rs' & _ & ->) end.
    settle. rewrite !cached_with_storage.
    rewrite (findIndex_id_absent Note.id _ _ H). simpl.
    rewrite String.eqb_refl. simpl.
    apply (filter_absent_id Note.id). exact H.
  - destruct (addTest_run t env1 w) as (rs & _ & ->). settle.
    match goal with |- context [ApiService.deleteTest ?i ?e ?x] =>
      destruct (deleteTest_run i e x) as (rs' & _ & ->) end.
    settle. rewrite !cached_with_storage. rewrite List.filter_app. simpl.
    rewrite String.eqb_refl. simpl. rewrite app_nil_r.
    apply (filter_absent_id Test.id). exact H.
Qed.

Lemma insert_then_delete_witness :
  ~ In (Deck.id deck_d3) (map Deck.id (cached DECKS sample_world)) /\
  cached DECKS
    (snd (ApiService.deleteDeck (Deck.id deck_d3) offline_env
            (snd (ApiService.createDeck deck_d3 unreachable_env sample_world)))) =
  cached DECKS sample_world.
Proof.
  assert (H : ~ In (Deck.id deck_d3) (map Deck.id (cached DECKS sample_world)))
    by (simpl; intuition discriminate).
  split; [exact H |].
  exact (proj1 (insert_then_delete_restores deck_d3 note_n1 test_t1
                  unreachable_env offline_env sample_world) H).
Defined.

(** ** Profile *)

Lemma saveProfile_run profile env w :
  ApiService.saveProfile profile env w =
  (Return (profile ∪ stored_profile w),
   with_storage (setItem USER (Some (profile ∪ stored_profile w)) (localStorage w))
     w).
Proof. reflexivity. Qed.

Lemma savePreferences_stores t c s env w :
  exists rs,
    ApiService.savePreferences t c s env w =
    (Return tt,
     with_storage
       (setItem USER
          (Some (<["enableSeasonal" := JBool s]>
                   (<["colorScheme" := JString c]>
                      (<["themeMode" := JString t]> (stored_profile w)))))
          (localStorage w)) (sent rs w)).
Proof.
  unfold ApiService.savePreferences.
  destruct (write_through_run (PUT_user_preferences t c s)
              (current <- ApiService.getLocal USER (Some ∅) ;;
               ApiService.setLocal USER
                 (Some (<["enableSeasonal" := JBool s]>
                          (<["colorScheme" := JString c]>
                             (<["themeMode" := JString t]> (object_of current))))))
              env w) as (rs & _ & Hrun).
  exists rs. rewrite Hrun. reflexivity.
Qed.

Lemma stored_profile_written (u : JsObject) (s : Storage) (w : World) :
  stored_profile (with_storage (setItem USER (Some u) s) w) = u.
Proof.
  unfold stored_profile, with_storage, setItem. cbn [localStorage].
  rewrite getItem_write_same. reflexivity.
Qed.

(** X11.  The two profile writers merge into the stored profile: the fields
    given win, every other stored field is kept; this happens whatever the
    network does.  Saving the same profile twice stores what saving it once
    stores, and [getMe] returns the merged profile when it gets nothing from
    the remote side. *)
Theorem profile_writes_merge :
  forall (profile : JsObject) (themeMode colorScheme : string)
         (enableSeasonal : bool) (env env' : Env) (w : World),
    (exists u : JsObject,
        ApiService.saveProfile profile env w =
        (Return u, with_storage (setItem USER (Some u) (localStorage w)) w) /\
        (forall f : string,
            u !! f = match profile !! f with
                     | Some v => Some v
                     | None => stored_profile w !! f
                     end) /\
        localStorage
          (snd (ApiService.saveProfile profile env'
                  (snd (ApiService.saveProfile profile env w)))) =
        localStorage (snd (ApiService.saveProfile profile env w)) /\
        (nothing_obtained GET_auth_me env' w ->
         fst (ApiService.getMe env' (snd (ApiService.saveProfile profile env w))) =
         Return (Some u))) /\
    (exists u : JsObject,
        fst (ApiService.savePreferences themeMode colorScheme enableSeasonal env w)
        = Return tt /\
        getItem USER
          (localStorage
             (snd (ApiService.savePreferences themeMode colorScheme enableSeasonal
                     env w))) = Some (Some u) /\
        u !! "themeMode" = Some (JString themeMode) /\
        u !! "colorScheme" = Some (JString colorScheme) /\
        u !! "enableSeasonal" = Some (JBool enableSeasonal) /\
        (forall f : string,
            f <> "themeMode" -> f <> "colorScheme" -> f <> "enableSeasonal" ->
            u !! f = stored_profile w !! f)).
Proof.
  intros profile t c s env env' w. split.
  - exists (profile ∪ stored_profile w). rewrite saveProfile_run.
    split; [reflexivity |]. split; [| split].
    + intros f. rewrite lookup_union.
      destruct (profile !! f), (stored_profile w !! f); reflexivity.
    + cbn [snd]. rewrite saveProfile_run. cbn [snd].
      rewrite stored_profile_written.
      unfold with_storage, setItem. cbn [localStorage].
      rewrite write_slot_twice. do 3 f_equal.
      apply map_eq. intros f. rewrite !lookup_union.
      destruct (profile !! f), (stored_profile w !! f); reflexivity.
    + intros H. cbn [snd].
      match goal with |- context [ApiService.getMe ?e ?x] =>
        destruct (getMe_run e x) as (rs' & _ & ->) end.
      change (token (with_storage _ w)) with (token w).
      rewrite (gate_closed _ _ _ H). cbn [fst].
      unfold with_storage, setItem. cbn [localStorage].
      rewrite getItem_write_same. reflexivity.
  - destruct (savePreferences_stores t c s env w) as (rs & ->).
    eexists. split; [reflexivity |]. split.
    { cbn [snd]. unfold with_storage, setItem. cbn [localStorage].
      apply getItem_write_same. }
    repeat apply conj.
    + rewrite lookup_insert_ne by discriminate.
      rewrite lookup_insert_ne by discriminate. apply lookup_insert_eq.
    + rewrite lookup_insert_ne by discriminate. apply lookup_insert_eq.
    + apply lookup_insert_eq.
    + intros f H1 H2 H3. rewrite !lookup_insert_ne by congruence. reflexivity.
Qed.

Lemma profile_writes_merge_witness :
  (nothing_obtained GET_auth_me unreachable_env sample_world /\
   fst (ApiService.getMe unreachable_env
          (snd (ApiService.saveProfile profile_ann offline_env sample_world)))
   = Return (Some profile_ann)) /\
  ("name" <> "themeMode" /\ "name" <> "colorScheme" /\
   "name" <> "enableSeasonal" /\
   exists u : JsObject,
     getItem USER
       (localStorage
          (snd (ApiService.savePreferences "light" "ocean" false offline_env
                  (snd (ApiService.saveProfile profile_ann offline_env
                          sample_world))))) = Some (Some u) /\
     u !! "themeMode" = Some (JString "light") /\
     u !! "name" = Some (JString "Ann")).
Proof.
  split.
  - assert (H : nothing_obtained GET_auth_me unreachable_env sample_world)
      by (right; reflexivity).
    split; [exact H |].
    destruct (profile_writes_merge profile_ann "light" "ocean" false offline_env
                unreachable_env sample_world) as ((u & Hu & _ & _ & Hget) & _).
    rewrite (Hget H). injection Hu as Hu _. rewrite <- Hu. reflexivity.
  - split; [discriminate |]. split; [discriminate |]. split; [discriminate |].
    destruct (profile_writes_merge profile_ann "light" "ocean" false offline_env
                offline_env
                (snd (ApiService.saveProfile profile_ann offline_env sample_world)))
      as (_ & (u & _ & Hs & Ht & _ & _ & Hf)).
    exists u. split; [exact Hs |]. split; [exact Ht |].
    rewrite (Hf "name") by discriminate. reflexivity.
Defined.

(** ** Community cache *)

(** X12.  [getCommunityItems] needs no credential.  Whatever the server list
    is, even the empty one, it is returned and becomes the mirror; with
    nothing obtained and a mirror that is not empty, the mirror is returned
    and the local store is left as it was. *)
Theorem getCommunityItems_remote_or_cache :
  forall (env : Env) (w : World),
    (forall items : list CommunityItem.t,
        online env = true ->
        obtained (remote env _ GET_community) = Some items ->
        fst (ApiService.getCommunityItems env w) = Return items /\
        localStorage (snd (ApiService.getCommunityItems env w)) =
        setItem COMMUNITY items (localStorage w)) /\
    (cached COMMUNITY w <> [] ->
     online env = false \/ obtained (remote env _ GET_community) = None ->
     fst (ApiService.getCommunityItems env w) = Return (cached COMMUNITY w) /\
     localStorage (snd (ApiService.getCommunityItems env w)) = localStorage w).
Proof.
  intros env w. split.
  - intros items Hon Hob.
    destruct (getCommunityItems_run env w) as (rs & _ & ->).
    rewrite Hon, Hob. split; reflexivity.
  - intros Hne Hno.
    destruct (getCommunityItems_run env w) as (rs & _ & ->).
    assert (E : (if online env then obtained (remote env _ GET_community)
                 else None) = None).
    { destruct Hno as [-> | ->]; [reflexivity |].
      destruct (online env); reflexivity. }
    rewrite E, _localGetCommunity_run.
    change (cached COMMUNITY (sent rs w)) with (cached COMMUNITY w).
    destruct (cached COMMUNITY w) as [| c l] eqn:Ec; [congruence |].
    cbn [length]. rewrite Nat2Z.inj_succ.
    destruct (Z.succ (Z.of_nat (length l)) =? 0) eqn:Ez;
      [apply Z.eqb_eq in Ez; lia |].
    split; reflexivity.
Qed.

Lemma getCommunityItems_remote_or_cache_witness :
  cached COMMUNITY sample_world <> [] /\
  (online offline_env = false \/
   obtained (remote offline_env _ GET_community) = None) /\
  fst (ApiService.getCommunityItems offline_env sample_world) =
  Return (cached COMMUNITY sample_world).
Proof.
  assert (H0 : cached COMMUNITY sample_world <> []) by discriminate.
  assert (H1 : online offline_env = false \/
               obtained (remote offline_env _ GET_community) = None)
    by (left; reflexivity).
  split; [exact H0 |]. split; [exact H1 |].
  exact (proj1 (proj2 (getCommunityItems_remote_or_cache offline_env sample_world)
                  H0 H1)).
Defined.

Lemma or_else_nonempty (a : option string) (b : string) :
  b <> "" -> or_else a b <> "".
Proof.
  intros Hb. unfold or_else. destruct a as [s |]; [| exact Hb].
  destruct (s =? "")%string eqn:E; [exact Hb |].
  apply String.eqb_neq. exact E.
Qed.

(** X13.  [shareToCommunity] with an id that is not in the mirror puts a new
    item at the head: the drawn id, the given type, author and payload, the
    payload's title, zero downloads, the current time, and a description that
    is never empty: a deck's description, a note's subject, or "No
    description" when that text is empty. *)
Theorem shareToCommunity_publishes_snapshot :
  forall (item : Deck.t + Note.t) (type : ItemType) (author : string)
         (env : Env) (w : World),
    ~ In (crypto_randomUUID env) (map CommunityItem.id (cached COMMUNITY w)) ->
    exists c : CommunityItem.t,
      cached COMMUNITY (snd (ApiService.shareToCommunity item type author env w)) =
      c :: cached COMMUNITY w /\
      CommunityItem.id c = crypto_randomUUID env /\
      CommunityItem.type c = type /\
      CommunityItem.author c = author /\
      CommunityItem.data c = item /\
      CommunityItem.downloads c = 0 /\
      CommunityItem.timestamp c = Date_now env /\
      CommunityItem.title c =
        match item with inl d => Deck.title d | inr n => Note.title n end /\
      CommunityItem.description c <> "" /\
      CommunityItem.description c =
        match item with
        | inl d =>
            if (Deck.description d =? "")%string then "No description"
            else Deck.description d
        | inr n =>
            if (Note.subject n =? "")%string then "No description"
            else Note.subject n
        end.
Proof.
  intros item type author env w H.
  destruct (shareToCommunity_run item type author env w) as (rs & _ & ->).
  rewrite _localShare_run.
  change (cached COMMUNITY (sent rs w)) with (cached COMMUNITY w).
  cbn [CommunityItem.id].
  rewrite (find_id_absent CommunityItem.id _ _ H). cbn [snd].
  rewrite cached_with_storage. eexists. split; [reflexivity |].
  cbn. repeat apply conj; try reflexivity.
  - apply or_else_nonempty, or_else_nonempty. discriminate.
  - destruct item as [d | n]; reflexivity.
Qed.

Lemma shareToCommunity_publishes_witness :
  ~ In (crypto_randomUUID unreachable_env)
      (map CommunityItem.id (cached COMMUNITY sample_world)) /\
  exists c : CommunityItem.t,
    cached COMMUNITY
      (snd (ApiService.shareToCommunity (inr note_n2) note "Bob" unreachable_env
              sample_world)) = c :: cached COMMUNITY sample_world /\
    CommunityItem.description c = "No description".
Proof.
  assert (H : ~ In (crypto_randomUUID unreachable_env)
                  (map CommunityItem.id (cached COMMUNITY sample_world)))
    by (simpl; intuition discriminate).
  split; [exact H |].
  destruct (shareToCommunity_publishes_snapshot (inr note_n2) note "Bob"
              unreachable_env sample_world H)
    as (c & Hc & _ & _ & _ & _ & _ & _ & _ & _ & Hd).
  exists c. split; [exact Hc | exact Hd].
Defined.

(** * Properties of the server's handlers *)

(** ** Sorting *)

Section Sorting.
Context {A : Type}.

Lemma insert_sorted_perm (compare : A -> A -> Z) (x : A) (l : list A) :
  Permutation (Backend.insert_sorted compare x l) (x :: l).
Proof.
  induction l as [|y l IH]; simpl; [reflexivity |].
  destruct (compare x y <=? 0); [reflexivity |].
  rewrite IH. apply perm_swap.
Qed.

Lemma sort_perm (compare : A -> A -> Z) (l : list A) :
  Permutation (Backend.sort compare l) l.
Proof.
  induction l as [|x l IH]; simpl; [reflexivity |].
  rewrite insert_sorted_perm, IH. reflexivity.
Qed.

Lemma newest_first_insert (key : A -> Z) (x : A) (l : list A) :
  newest_first key l ->
  newest_first key (Backend.insert_sorted (fun a b => key b - key a) x l).
Proof.
  induction l as [|y l IH]; simpl; intros H.
  - split; [intros y [] | exact I].
  - destruct H as [Hy Hl].
    destruct (key y - key x <=? 0) eqn:E.
    + apply Z.leb_le in E. simpl. split; [| split; assumption].
      intros z [<- | Hz]; [lia |]. specialize (Hy z Hz). lia.
    + apply Z.leb_gt in E. simpl. split; [| apply IH; exact Hl].
      intros z Hz.
      apply (Permutation_in _ (insert_sorted_perm _ x l)) in Hz.
      destruct Hz as [<- | Hz]; [lia | apply Hy; exact Hz].
Qed.

Lemma sort_newest_first (key : A -> Z) (l : list A) :
  newest_first key (Backend.sort (fun a b => key b - key a) l).
Proof.
  induction l as [|x l IH]; simpl; [exact I |].
  apply newest_first_insert. exact IH.
Qed.

Lemma in_firstn (n : nat) (l : list A) (y : A) : In y (firstn n l) -> In y l.
Proof.
  revert n. induction l as [|x l IH]; intros [|n]; simpl; auto; try tauto.
  intros [-> | H]; [left; reflexivity | right; eapply IH; exact H].
Qed.

Lemma newest_first_firstn (key : A -> Z) (n : nat) (l : list A) :
  newest_first key l -> newest_first key (firstn n l).
Proof.
  revert n. induction l as [|x l IH]; intros [|n]; simpl; auto.
  intros [Hx Hl]. split; [| apply IH; exact Hl].
  intros y Hy. apply Hx. eapply in_firstn. exact Hy.
Qed.

Lemma newest_first_map {B : Type} (key : A -> Z) (key' : B -> Z) (f : A -> B)
    (l : list A) :
  (forall x, key' (f x) = key x) ->
  newest_first key l -> newest_first key' (map f l).
Proof.
  intros Hf. induction l as [|x l IH]; simpl; [auto |].
  intros [Hx Hl]. split; [| apply IH; exact Hl].
  intros y Hy. apply in_map_iff in Hy. destruct Hy as (z & <- & Hz).
  rewrite !Hf. apply Hx. exact Hz.
Qed.

End Sorting.



(** X15.  GET /api/community sends at most fifty items, newest first, all taken
    from the collection; it reorders the stored collection newest first
    without adding or dropping an item, and sends the whole collection when
    it holds fifty items or fewer. *)
Theorem community_listing :
  forall db : Backend.Db,
    exists (items : list CommunityItem.t) (db' : Backend.Db),
      Backend.get_community db = (db', Backend.Ok items) /\
      (length items <= 50)%nat /\
      newest_first CommunityItem.timestamp items /\
      (forall c, In c items -> In c (Backend.community db)) /\
      Permutation (Backend.community db') (Backend.community db) /\
      newest_first CommunityItem.timestamp (Backend.community db') /\
      ((length (Backend.community db) <= 50)%nat ->
       items = Backend.community db') /\
      Backend.users db' = Backend.users db /\
      Backend.decks db' = Backend.decks db /\
      Backend.notes db' = Backend.notes db /\
      Backend.stats db' = Backend.stats db.
Proof.
  intros db. eexists. eexists. split; [reflexivity |].
  cbn [Backend.community Backend.with_community Backend.users Backend.decks
         Backend.notes Backend.stats].
  repeat apply conj; try reflexivity.
  - unfold Backend.slice0. rewrite length_firstn. lia.
  - apply newest_first_firstn, sort_newest_first.
  - intros c Hc. apply in_firstn in Hc.
    apply (Permutation_in _ (sort_perm _ _)) in Hc. exact Hc.
  - apply sort_perm.
  - apply sort_newest_first.
  - intros Hlen. unfold Backend.slice0. apply firstn_all2.
    rewrite (Permutation_length (sort_perm _ _)). exact Hlen.
Qed.

Lemma community_listing_witness :
  (length (Backend.community sample_backend) <= 50)%nat /\
  exists (items : list CommunityItem.t) (db' : Backend.Db),
    Backend.get_community sample_backend = (db', Backend.Ok items) /\
    items = Backend.community db'.
Proof.
  assert (H : (length (Backend.community sample_backend) <= 50)%nat)
    by (simpl; lia).
  split; [exact H |].
  destruct (community_listing sample_backend)
    as (items & db' & Hg & _ & _ & _ & _ & _ & Hall & _).
  exists items, db'. split; [exact Hg | exact (Hall H)].
Defined.

(** ** Find-and-assign *)

Section UpdateFirst.
Context {A : Type}.
Implicit Types (p q : A -> bool) (f : A -> A) (l : list A).

Lemma update_first_find p f l :
  Backend.update_first p f l = None <-> find p l = None.
Proof.
  unfold find. induction l as [|x l IH]; simpl; [tauto |].
  destruct (p x); [split; discriminate |].
  destruct (Backend.update_first p f l); [| tauto].
  split; [discriminate |]. intros H. apply IH in H. discriminate.
Qed.

Lemma update_first_None p f l :
  Backend.update_first p f l = None <-> forall x, In x l -> p x = false.
Proof.
  rewrite update_first_find. unfold find. split.
  - intros H x Hx. apply (find_none _ _ H x Hx).
  - intros H. destruct (List.find p l) eqn:E; [| reflexivity].
    apply find_some in E. destruct E as [Hin Hp]. rewrite (H _ Hin) in Hp.
    discriminate.
Qed.

Lemma update_first_Some p f l l' :
  Backend.update_first p f l = Some l' ->
  exists (i : nat) (x : A),
    l !! i = Some x /\ p x = true /\
    (forall (j : nat) (y : A), (j < i)%nat -> l !! j = Some y -> p y = false) /\
    l' = <[i := f x]> l.
Proof.
  revert l'. induction l as [|x l IH]; simpl; intros l' H; [discriminate |].
  destruct (p x) eqn:Hp.
  - injection H as <-. exists 0%nat, x. repeat split; auto. intros j y Hj; lia.
  - destruct (Backend.update_first p f l) as [l'' |]; [| discriminate].
    injection H as <-. destruct (IH l'' eq_refl) as (i & y & Hy & Hpy & Hlt & ->).
    exists (S i), y. repeat split; auto.
    intros [|j] z Hj Hz; simpl in Hz; [congruence |].
    apply (Hlt j); [lia | exact Hz].
Qed.

Lemma update_first_findIndex p f l :
  Backend.update_first p f l =
  if findIndex p l =? -1 then None
  else match l !! Z.to_nat (findIndex p l) with
       | Some x => Some (array_set l (findIndex p l) (f x))
       | None => None
       end.
Proof.
  induction l as [|x l IH]; simpl; [reflexivity |].
  destruct (p x); [reflexivity |]. rewrite IH.
  pose proof (findIndex_lower p l) as Hlow.
  destruct (findIndex p l =? -1) eqn:E; [reflexivity |].
  apply Z.eqb_neq in E.
  destruct (findIndex p l + 1 =? -1) eqn:E'; [apply Z.eqb_eq in E'; lia |].
  unfold array_set.
  replace (Z.to_nat (findIndex p l + 1)) with (S (Z.to_nat (findIndex p l)))
    by lia.
  simpl. destruct (l !! Z.to_nat (findIndex p l)); reflexivity.
Qed.

Lemma update_first_length p f l l' :
  Backend.update_first p f l = Some l' -> length l' = length l.
Proof.
  intros H. destruct (update_first_Some _ _ _ _ H) as (i & x & _ & _ & _ & ->).
  apply length_insert.
Qed.

Lemma update_first_filter p q f l l' :
  (forall x, p x = true -> q x = false) ->
  (forall x, p x = true -> q (f x) = false) ->
  Backend.update_first p f l = Some l' ->
  List.filter q l' = List.filter q l.
Proof.
  intros Hpq Hf. revert l'. induction l as [|x l IH]; simpl; intros l' H;
    [discriminate |].
  destruct (p x) eqn:Hp.
  - injection H as <-. simpl. rewrite (Hpq x Hp), (Hf x Hp). reflexivity.
  - destruct (Backend.update_first p f l) as [l'' |]; [| discriminate].
    injection H as <-. simpl. rewrite (IH l'' eq_refl). reflexivity.
Qed.

Lemma filter_filter_out p q l :
  (forall x, p x = true -> q x = false) ->
  List.filter q (List.filter (fun x => negb (p x)) l) = List.filter q l.
Proof.
  intros Hpq. induction l as [|x l IH]; simpl; [reflexivity |].
  destruct (p x) eqn:Hp; simpl.
  - rewrite (Hpq x Hp). exact IH.
  - destruct (q x); rewrite IH; reflexivity.
Qed.

Lemma filter_same_length p l :
  length (List.filter p l) = length l -> List.filter p l = l.
Proof.
  induction l as [|x l IH]; simpl; [reflexivity |].
  destruct (p x); simpl; intros H.
  - rewrite IH by lia. reflexivity.
  - pose proof (filter_length_le p l). lia.
Qed.

End UpdateFirst.

(** ** Ownership *)

Ltac not_mine :=
  let x := fresh "x" in
  let H := fresh "H" in
  intros x H; cbn; apply andb_true_iff in H; destruct H as [_ H];
  rewrite H; reflexivity.

(** ** Stats rows *)

Lemma owned_by_iff (id : string) (s : Backend.StatsRow.t) :
  Backend.StatsRow.owned_by id s = true <->
  s !! "userId" = Some (Backend.JStr id).
Proof.
  unfold Backend.StatsRow.owned_by.
  destruct (s !! "userId") as [[| | | u | |] |]; try (split; discriminate).
  split.
  - intros H. apply String.eqb_eq in H. subst u. reflexivity.
  - intros H. injection H as ->. apply String.eqb_refl.
Qed.

Lemma spread_keeps_owner (me : string) (body row : Backend.StatsRow.t) :
  keeps_owner me body ->
  Backend.StatsRow.owned_by me row = true ->
  (body ∪ row) !! "userId" = row !! "userId".
Proof.
  intros [H | H] Hrow.
  - apply lookup_union_r. exact H.
  - apply owned_by_iff in Hrow. rewrite Hrow.
    apply lookup_union_Some_l. exact H.
Qed.

Lemma owned_by_spread (me : string) (body row : Backend.StatsRow.t) :
  keeps_owner me body ->
  Backend.StatsRow.owned_by me row = true ->
  Backend.StatsRow.owned_by me (body ∪ row) = true.
Proof.
  intros Hk Hrow. apply owned_by_iff.
  rewrite (spread_keeps_owner _ _ _ Hk Hrow). apply owned_by_iff. exact Hrow.
Qed.

Lemma owned_by_userId (me : string) :
  Backend.StatsRow.owned_by me (<["userId" := Backend.JStr me]> ∅) = true.
Proof. apply owned_by_iff. apply lookup_insert_eq. Qed.

Lemma stats_body_keeps_owner (me : string) (s : UserStats.t) :
  keeps_owner me (Backend.stats_body s).
Proof.
  left. unfold Backend.stats_body.
  rewrite lookup_insert_ne by discriminate.
  rewrite lookup_insert_ne by discriminate.
  apply lookup_empty.
Qed.



(** ** Rows that are not there *)

Lemma existsb_false_filter {A} (p : A -> bool) (l : list A) :
  existsb p l = false -> List.filter (fun x => negb (p x)) l = l.
Proof.
  induction l as [|x l IH]; simpl; [reflexivity |].
  intros H. apply orb_false_iff in H. destruct H as [-> H]. simpl.
  rewrite (IH H). reflexivity.
Qed.

Lemma existsb_true_filter {A} (p : A -> bool) (l : list A) :
  existsb p l = true ->
  (length (List.filter (fun x => negb (p x)) l) < length l)%nat.
Proof.
  induction l as [|x l IH]; simpl; [discriminate |].
  destruct (p x); simpl; intros H.
  - pose proof (filter_length_le (fun x => negb (p x)) l). lia.
  - specialize (IH H). lia.
Qed.

Lemma update_first_existsb {A} (p : A -> bool) (f : A -> A) (l : list A) :
  Backend.update_first p f l = None <-> existsb p l = false.
Proof.
  rewrite update_first_None. split.
  - intros H. destruct (existsb p l) eqn:E; [| reflexivity].
    apply existsb_exists in E. destruct E as (x & Hx & Hp).
    rewrite (H x Hx) in Hp. discriminate.
  - intros H x Hx. destruct (p x) eqn:Hp; [| reflexivity].
    assert (E : existsb p l = true) by (apply existsb_exists; eauto).
    congruence.
Qed.

(** X17.  PUT and DELETE /api/decks/:id and POST /api/community/:id/download
    answer 404 and leave the database as it is exactly when no row carries
    the id (for a deck: the id together with the caller as owner, so another
    user's deck is "not found"); otherwise they answer [{ success: true }]. *)
Theorem missing_rows_answer_404 :
  forall (id : string) (deck : Backend.DeckBody.t) (user : Backend.Claims.t)
         (db : Backend.Db),
    let mine (d : Backend.DeckRow.t) :=
      (Backend.DeckRow.id d =? id)%string &&
      (Backend.DeckRow.userId d =? Backend.Claims.id user)%string in
    let it (c : CommunityItem.t) := (CommunityItem.id c =? id)%string in
    (if existsb mine (Backend.decks db) then
       snd (Backend.put_decks id deck user db) = Backend.Ok Backend.Success /\
       snd (Backend.delete_decks id user db) = Backend.Ok Backend.Success
     else
       Backend.put_decks id deck user db =
       (db, Backend.Failed 404 "Deck not found") /\
       Backend.delete_decks id user db =
       (db, Backend.Failed 404 "Deck not found")) /\
    (if existsb it (Backend.community db) then
       snd (Backend.post_community_download id db) = Backend.Ok Backend.Success
     else
       Backend.post_community_download id db =
       (db, Backend.Failed 404 "Item not found")).
Proof.
  intros id deck user db mine it. split.
  - destruct (existsb mine (Backend.decks db)) eqn:E.
    + split.
      * unfold Backend.put_decks.
        match goal with |- context [Backend.update_first ?p ?f ?l] =>
          destruct (Backend.update_first p f l) eqn:U; [reflexivity |];
          apply update_first_existsb in U end.
        subst mine. cbv beta in E. congruence.
      * pose proof (existsb_true_filter mine _ E) as Hlt.
        subst mine. cbv beta in Hlt. unfold Backend.delete_decks.
        cbn [Backend.decks Backend.with_decks].
        destruct (_ =? _)%nat eqn:El; [| reflexivity].
        apply Nat.eqb_eq in El. lia.
    + split.
      * unfold Backend.put_decks.
        match goal with |- context [Backend.update_first ?p ?f ?l] =>
          assert (N : Backend.update_first p f l = None)
            by (apply update_first_existsb; exact E);
          rewrite N end.
        reflexivity.
      * pose proof (existsb_false_filter mine _ E) as Hf.
        subst mine. cbv beta in Hf. unfold Backend.delete_decks.
        cbn [Backend.decks Backend.with_decks]. rewrite Hf, Nat.eqb_refl.
        cbn. destruct db; reflexivity.
  - unfold Backend.post_community_download.
    destruct (existsb it (Backend.community db)) eqn:E.
    + match goal with |- context [Backend.update_first ?p ?f ?l] =>
        destruct (Backend.update_first p f l) eqn:U; [reflexivity |];
        apply update_first_existsb in U end.
      subst it. cbv beta in E. congruence.
    + apply (update_first_existsb it CommunityItem.bump) in E.
      subst it. cbv beta in E. rewrite E. reflexivity.
Qed.

(** ** Retrying a request *)

Section UpdateFirstAgain.
Context {A : Type}.
Implicit Types (p : A -> bool) (f g : A -> A) (l : list A).

Lemma update_first_map {K : Type} (key : A -> K) p f l l' :
  (forall x, key (f x) = key x) ->
  Backend.update_first p f l = Some l' -> map key l' = map key l.
Proof.
  intros Hk. revert l'. induction l as [|x l IH]; simpl; intros l' H;
    [discriminate |].
  destruct (p x).
  - injection H as <-. simpl. rewrite Hk. reflexivity.
  - destruct (Backend.update_first p f l) as [l'' |]; [| discriminate].
    injection H as <-. simpl. rewrite (IH l'' eq_refl). reflexivity.
Qed.

Lemma update_first_again p f g l l' :
  Backend.update_first p f l = Some l' ->
  (forall x, p x = true -> p (f x) = true) ->
  exists l'', Backend.update_first p g l' = Some l'' /\
              ((forall x, g (f x) = f x) -> l'' = l').
Proof.
  intros H0 Hp. revert l' H0. induction l as [|x l IH]; simpl; intros l' H;
    [discriminate |].
  destruct (p x) eqn:E.
  - injection H as <-. simpl. rewrite (Hp x E). eexists. split; [reflexivity |].
    intros Hg. rewrite Hg. reflexivity.
  - destruct (Backend.update_first p f l) as [l1 |]; [| discriminate].
    injection H as <-. destruct (IH l1 eq_refl) as (l2 & H2 & Hsame).
    simpl. rewrite E, H2. eexists. split; [reflexivity |].
    intros Hg. rewrite (Hsame Hg). reflexivity.
Qed.

Lemma find_update_first p f l l' :
  Backend.update_first p f l = Some l' ->
  (forall x, p x = true -> p (f x) = true) ->
  exists x, find p l = Some x /\ find p l' = Some (f x).
Proof.
  intros H0 Hp. unfold find. revert l' H0.
  induction l as [|x l IH]; simpl; intros l' H; [discriminate |].
  destruct (p x) eqn:E.
  - injection H as <-. simpl. rewrite (Hp x E). eauto.
  - destruct (Backend.update_first p f l) as [l1 |]; [| discriminate].
    injection H as <-. simpl. rewrite E. apply IH. reflexivity.
Qed.

Lemma find_app_none p l l' :
  List.find p l = None -> List.find p (l ++ l') = List.find p l'.
Proof.
  induction l as [|x l IH]; simpl; [reflexivity |].
  destruct (p x); [discriminate | exact IH].
Qed.

End UpdateFirstAgain.

(** X18.  POST /api/notes can be retried: with an id in the body, sending the
    same body again neither adds a row nor changes an id, and stores exactly
    the same database when the clock has not moved.  POST /api/decks cannot:
    the same body sent twice is stored twice under the same id. *)
Theorem notes_upsert_retries_decks_create_duplicates :
  forall (fresh1 fresh2 : Backend.Fresh) (note : Backend.NoteBody.t)
         (deck : Backend.DeckBody.t) (user : Backend.Claims.t)
         (db : Backend.Db) (i : string),
    i <> "" ->
    (Backend.NoteBody.id note = Some i ->
     let db1 := fst (Backend.post_notes fresh1 note user db) in
     let db2 := fst (Backend.post_notes fresh2 note user db1) in
     map Backend.NoteRow.id (Backend.notes db2) =
     map Backend.NoteRow.id (Backend.notes db1) /\
     (Backend.now fresh2 = Backend.now fresh1 -> db2 = db1)) /\
    (Backend.DeckBody.id deck = Some i ->
     let db1 := fst (Backend.post_decks fresh1 deck user db) in
     let db2 := fst (Backend.post_decks fresh2 deck user db1) in
     exists d1 d2 : Backend.DeckRow.t,
       Backend.decks db2 = d2 :: d1 :: Backend.decks db /\
       Backend.DeckRow.id d1 = i /\ Backend.DeckRow.id d2 = i /\
       Backend.DeckRow.userId d1 = Backend.Claims.id user /\
       Backend.DeckRow.userId d2 = Backend.Claims.id user).
Proof.
  intros fresh1 fresh2 note deck user db i Hi. split.
  - intros Hid db1 db2. subst db1 db2.
    pose (P := fun n : Backend.NoteRow.t =>
                 (Backend.NoteRow.id n =? i)%string &&
                 (Backend.NoteRow.userId n =? Backend.Claims.id user)%string).
    pose (G := fun (t : Z) (n : Backend.NoteRow.t) =>
                 {| Backend.NoteRow.id := Backend.NoteRow.id n;
                    Backend.NoteRow.userId := Backend.NoteRow.userId n;
                    Backend.NoteRow.title := Backend.NoteBody.title note;
                    Backend.NoteRow.subject := Backend.NoteBody.subject note;
                    Backend.NoteRow.content := Backend.NoteBody.content note;
                    Backend.NoteRow.background := Backend.NoteBody.background note;
                    Backend.NoteRow.created_at := Backend.NoteRow.created_at n;
                    Backend.NoteRow.updated_at := t |}).
    pose (N := fun t : Z =>
                 {| Backend.NoteRow.id := i;
                    Backend.NoteRow.userId := Backend.Claims.id user;
                    Backend.NoteRow.title := Backend.NoteBody.title note;
                    Backend.NoteRow.subject := Backend.NoteBody.subject note;
                    Backend.NoteRow.content := Backend.NoteBody.content note;
                    Backend.NoteRow.background := Backend.NoteBody.background note;
                    Backend.NoteRow.created_at := t;
                    Backend.NoteRow.updated_at := t |}).
    assert (E1 : forall fresh d,
               fst (Backend.post_notes fresh note user d) =
               Backend.with_notes
                 match Backend.update_first P (G (Backend.now fresh))
                         (Backend.notes d) with
                 | Some l => l
                 | None => N (Backend.now fresh) :: Backend.notes d
                 end d).
    { intros fresh d. unfold Backend.post_notes. rewrite Hid. fold P.
      change (fun n : Backend.NoteRow.t =>
                {| Backend.NoteRow.id := Backend.NoteRow.id n;
                   Backend.NoteRow.userId := Backend.NoteRow.userId n;
                   Backend.NoteRow.title := Backend.NoteBody.title note;
                   Backend.NoteRow.subject := Backend.NoteBody.subject note;
                   Backend.NoteRow.content := Backend.NoteBody.content note;
                   Backend.NoteRow.background := Backend.NoteBody.background note;
                   Backend.NoteRow.created_at := Backend.NoteRow.created_at n;
                   Backend.NoteRow.updated_at := Backend.now fresh |})
        with (G (Backend.now fresh)).
      destruct (Backend.update_first P _ _); [reflexivity |].
      cbn. apply String.eqb_neq in Hi. rewrite Hi. reflexivity. }
    rewrite !E1. cbn [Backend.notes Backend.with_notes].
    destruct (Backend.update_first P (G (Backend.now fresh1)) (Backend.notes db))
      as [l1 |] eqn:U.
    + destruct (update_first_again P _ (G (Backend.now fresh2)) _ _ U
                  (fun x H => H)) as (l2 & U2 & Hsame).
      rewrite U2. split.
      * eapply update_first_map; [| exact U2]. reflexivity.
      * intros Hnow. rewrite Hsame; [reflexivity |].
        intros x. rewrite Hnow. reflexivity.
    + clear E1 U. subst P G N. cbn. rewrite !String.eqb_refl. cbn.
      split; [reflexivity |]. intros ->. reflexivity.
  - intros Hid db1 db2. subst db1 db2. cbn. rewrite Hid. cbn.
    apply String.eqb_neq in Hi. rewrite Hi.
    eexists. eexists. split; [reflexivity |]. repeat split.
Qed.

Lemma notes_upsert_retries_witness :
  "n1" <> "" /\
  Backend.NoteBody.id body_n1 = Some "n1" /\
  Backend.DeckBody.id body_d1 = Some "d1" /\
  fst (Backend.post_notes sample_fresh body_n1 claims_ann
         (fst (Backend.post_notes sample_fresh body_n1 claims_ann sample_backend)))
  = fst (Backend.post_notes sample_fresh body_n1 claims_ann sample_backend) /\
  length
    (Backend.decks
       (fst (Backend.post_decks sample_fresh body_d1 claims_ann
               (fst (Backend.post_decks sample_fresh body_d1 claims_ann
                       sample_backend))))) = 5%nat.
Proof.
  assert (H1 : "n1" <> "") by discriminate.
  assert (H2 : "d1" <> "") by discriminate.
  destruct (notes_upsert_retries_decks_create_duplicates sample_fresh sample_fresh
              body_n1 body_d1 claims_ann sample_backend "n1" H1) as (N & _).
  destruct (notes_upsert_retries_decks_create_duplicates sample_fresh sample_fresh
              body_n1 body_d1 claims_ann sample_backend "d1" H2) as (_ & D).
  split; [exact H1 |]. split; [reflexivity |]. split; [reflexivity |].
  split.
  - exact (proj2 (N eq_refl) eq_refl).
  - destruct (D eq_refl) as (d1 & d2 & Hd & _). cbv zeta in Hd. rewrite Hd.
    reflexivity.
Defined.

(** ** Stats *)

Section Owners.
Context {A K : Type} (key : A -> K).
Implicit Types (p : A -> bool) (f : A -> A) (l : list A).

Lemma update_first_map_on p f l l' :
  (forall x, p x = true -> key (f x) = key x) ->
  Backend.update_first p f l = Some l' -> map key l' = map key l.
Proof.
  intros Hk. revert l'. induction l as [|x l IH]; simpl; intros l' H;
    [discriminate |].
  destruct (p x) eqn:Hp.
  - injection H as <-. simpl. rewrite (Hk x Hp). reflexivity.
  - destruct (Backend.update_first p f l) as [l'' |]; [| discriminate].
    injection H as <-. simpl. rewrite (IH l'' eq_refl). reflexivity.
Qed.

Lemma NoDup_key_push l (x : A) :
  List.NoDup (map key l) -> ~ In (key x) (map key l) ->
  List.NoDup (map key (l ++ [x])).
Proof.
  intros H Hx. rewrite map_app. simpl.
  apply List.NoDup_rev in H.
  rewrite <- (rev_involutive (map key l ++ [key x])).
  apply List.NoDup_rev. rewrite rev_app_distr. simpl.
  apply List.NoDup_cons; [| exact H].
  intros Hin. apply Hx. apply in_rev. exact Hin.
Qed.

(** When keys are distinct and [p] selects by key, replacing the first
    selected element by one that [p] rejects leaves nothing selected, and
    the replacement is in the list. *)
Lemma update_first_deselects (k : K) p f l l' :
  (forall x, p x = true <-> key x = k) ->
  (forall x, p x = true -> p (f x) = false) ->
  List.NoDup (map key l) ->
  Backend.update_first p f l = Some l' ->
  find p l' = None /\
  exists x, find p l = Some x /\ In (f x) l'.
Proof.
  intros Hp Hf. unfold find. revert l'.
  induction l as [|x l IH]; simpl; intros l' Hnd H; [discriminate |].
  apply List.NoDup_cons_iff in Hnd. destruct Hnd as [Hx Hnd].
  destruct (p x) eqn:E.
  - injection H as <-. simpl. rewrite (Hf x E). split.
    + destruct (List.find p l) as [y |] eqn:Ey; [| reflexivity].
      apply find_some in Ey. destruct Ey as [Hin Hy].
      exfalso. apply Hx. apply Hp in E, Hy. rewrite E, <- Hy.
      apply in_map. exact Hin.
    + exists x. split; [reflexivity | left; reflexivity].
  - destruct (Backend.update_first p f l) as [l'' |]; [| discriminate].
    injection H as <-. simpl. rewrite E.
    destruct (IH l'' Hnd eq_refl) as (Hnone & y & Hy & Hin).
    split; [exact Hnone |]. exists y. split; [exact Hy | right; exact Hin].
Qed.

End Owners.



(** ** Registration and login *)

Lemma find_email_absent (e : string) (l : list Backend.User.t) :
  ~ In e (map Backend.User.email l) ->
  find (fun u => (Backend.User.email u =? e)%string) l = None.
Proof. apply (find_id_absent Backend.User.email). Qed.

(** X20.  Registration refuses a body without email or password and an email
    that is taken, and then leaves the database as it is; so does every
    registration that does not answer 200, and every login.  Emails that are
    distinct stay distinct.  A login for an unknown email answers 400 "User
    not found". *)
Theorem registration_guards :
  forall (lib : Backend.Lib) (fresh : Backend.Fresh)
         (body : Backend.RegisterBody.t) (db : Backend.Db),
    (truthy (Backend.RegisterBody.email body) = false \/
     truthy (Backend.RegisterBody.password body) = false ->
     Backend.post_auth_register lib fresh body db =
     (db, Backend.Failed 400 "Missing fields")) /\
    (forall e : string,
        Backend.RegisterBody.email body = Some e -> e <> "" ->
        truthy (Backend.RegisterBody.password body) = true ->
        In e (map Backend.User.email (Backend.users db)) ->
        Backend.post_auth_register lib fresh body db =
        (db, Backend.Failed 400 "Email already exists")) /\
    (Backend.status (snd (Backend.post_auth_register lib fresh body db)) <> 200 ->
     fst (Backend.post_auth_register lib fresh body db) = db) /\
    (List.NoDup (map Backend.User.email (Backend.users db)) ->
     List.NoDup
       (map Backend.User.email
          (Backend.users (fst (Backend.post_auth_register lib fresh body db))))) /\
    (forall email password : string,
        fst (Backend.post_auth_login lib fresh email password db) = db /\
        (~ In email (map Backend.User.email (Backend.users db)) ->
         Backend.post_auth_login lib fresh email password db =
         (db, Backend.Failed 400 "User not found"))).
Proof.
  intros lib fresh body db. repeat apply conj.
  - intros H. unfold Backend.post_auth_register.
    destruct H as [-> | ->]; cbn; rewrite ?orb_true_r; reflexivity.
  - intros e He Hne Hp Hin. unfold Backend.post_auth_register.
    rewrite He, Hp. cbn. apply String.eqb_neq in Hne. rewrite Hne. cbn.
    destruct (find_id_present Backend.User.email _ _ Hin) as [y ->].
    reflexivity.
  - unfold Backend.post_auth_register.
    destruct (negb _ || negb _); [reflexivity |].
    destruct (find _ _); [reflexivity |].
    destruct (Backend.hashed fresh); [| reflexivity].
    destruct (Backend.encodeURIComponent lib _); [| reflexivity].
    cbn. intros H. exfalso. apply H. reflexivity.
  - intros H. unfold Backend.post_auth_register.
    destruct (negb _ || negb _); [exact H |].
    destruct (find _ _) eqn:E; [exact H |].
    destruct (Backend.hashed fresh); [| exact H].
    destruct (Backend.encodeURIComponent lib _); [| exact H].
    cbn. apply (NoDup_map_push Backend.User.email); [exact H |].
    cbn. intros Hin.
    destruct (find_id_present Backend.User.email _ _ Hin) as [y Hy].
    congruence.
  - intros email password. unfold Backend.post_auth_login. split.
    + destruct (find _ _); [| reflexivity].
      destruct (Backend.bcrypt_compare _ _ _); reflexivity.
    + intros H. rewrite (find_email_absent _ _ H). reflexivity.
Qed.

(** X21.  A registration with email, password and a free email, whose name
    [encodeURIComponent] accepts, appends the user with the hashed password
    and a stats row with zero points, and answers with the token signed for
    the new id at the second of the registration.  After it, a login with
    the same email answers, when bcrypt accepts the password against the
    stored hash, with the same user and a token signed for the same id and
    email at the second of the login, which is the registration's session
    when the two seconds are the same; and with 403 "Invalid password" when
    bcrypt does not accept it. *)
Theorem registered_user_can_log_in :
  forall (lib : Backend.Lib) (fresh later : Backend.Fresh)
         (body : Backend.RegisterBody.t) (db : Backend.Db)
         (e p h seed : string),
    Backend.RegisterBody.email body = Some e -> e <> "" ->
    Backend.RegisterBody.password body = Some p -> p <> "" ->
    Backend.hashed fresh = Some h ->
    Backend.encodeURIComponent lib (Backend.RegisterBody.name body) = Some seed ->
    ~ In e (map Backend.User.email (Backend.users db)) ->
    exists (session : Backend.Session.t) (newUser : Backend.User.t),
      let db' := fst (Backend.post_auth_register lib fresh body db) in
      let claims := {| Backend.Claims.id := Backend.uuid fresh;
                       Backend.Claims.email := e |} in
      snd (Backend.post_auth_register lib fresh body db) = Backend.Ok session /\
      Backend.users db' = Backend.users db ++ [newUser] /\
      Backend.User.id newUser = Backend.uuid fresh /\
      Backend.User.email newUser = e /\
      Backend.User.password newUser = h /\
      Backend.User.avatar newUser =
      "https://api.dicebear.com/7.x/avataaars/svg?seed=" +:+ seed /\
      Backend.Session.user session = Backend.userSafe newUser /\
      Backend.Session.token session =
      Backend.jwt_sign lib claims (Backend.iat fresh) /\
      Backend.stats db' =
      Backend.stats db ++ [Backend.StatsRow.initial (Backend.uuid fresh)] /\
      (forall p' : string,
          Backend.post_auth_login lib later e p' db' =
          if Backend.bcrypt_compare lib p' h
          then (db', Backend.Ok
                       {| Backend.Session.token :=
                            Backend.jwt_sign lib claims (Backend.iat later);
                          Backend.Session.user := Backend.Session.user session |})
          else (db', Backend.Failed 403 "Invalid password")) /\
      (Backend.iat later = Backend.iat fresh ->
       forall p' : string,
         Backend.bcrypt_compare lib p' h = true ->
         Backend.post_auth_login lib later e p' db' = (db', Backend.Ok session)).
Proof.
  intros lib fresh later body db e p h seed He Hne Hp Hpne Hh Hseed Hfree.
  assert (L : forall (user : Backend.User.t) (rest : Backend.Db) (p' : string),
             Backend.users rest = Backend.users db ++ [user] ->
             Backend.User.email user = e ->
             Backend.post_auth_login lib later e p' rest =
             if Backend.bcrypt_compare lib p' (Backend.User.password user)
             then (rest, Backend.Ok
                           {| Backend.Session.token :=
                                Backend.jwt_sign lib
                                  {| Backend.Claims.id := Backend.User.id user;
                                     Backend.Claims.email := e |}
                                  (Backend.iat later);
                              Backend.Session.user := Backend.userSafe user |})
             else (rest, Backend.Failed 403 "Invalid password")).
  { intros user rest p' Hu Hemail. unfold Backend.post_auth_login.
    rewrite Hu. unfold find.
    rewrite (find_app_none _ _ _ (find_email_absent _ _ Hfree)).
    cbn [List.find]. rewrite Hemail, String.eqb_refl. rewrite Hemail.
    reflexivity. }
  unfold Backend.post_auth_register. rewrite He, Hp, Hh, Hseed.
  cbn -[Backend.StatsRow.initial].
  apply String.eqb_neq in Hne, Hpne. rewrite Hne, Hpne.
  cbn -[Backend.StatsRow.initial]. rewrite (find_email_absent _ _ Hfree).
  eexists. eexists. cbn -[Backend.StatsRow.initial Backend.post_auth_login].
  split; [reflexivity |]. split; [reflexivity |]. split; [reflexivity |].
  split; [reflexivity |]. split; [reflexivity |]. split; [reflexivity |].
  split; [reflexivity |]. split; [reflexivity |]. split; [reflexivity |].
  split.
  - intros p'. erewrite (L _ _ p'); [| reflexivity | reflexivity].
    reflexivity.
  - intros Hiat p' Hok. erewrite (L _ _ p'); [| reflexivity | reflexivity].
    cbn [Backend.User.password]. rewrite Hok, Hiat. reflexivity.
Qed.

(** X21 at work: Bob registers, then logs in ninety seconds later; the token
    of the login is not the token of the registration. *)
Lemma registered_user_can_log_in_witness :
  exists session : Backend.Session.t,
    snd (Backend.post_auth_register sample_lib sample_fresh register_bob
           sample_backend) = Backend.Ok session /\
    Backend.Session.token session = "jwt:u2" /\
    snd (Backend.post_auth_login sample_lib later_fresh "bob@x.org" "secret"
           (fst (Backend.post_auth_register sample_lib sample_fresh register_bob
                   sample_backend))) =
    Backend.Ok {| Backend.Session.token := "jwt+:u2";
                  Backend.Session.user := Backend.Session.user session |} /\
    snd (Backend.post_auth_login sample_lib sample_fresh "bob@x.org" "secret"
           (fst (Backend.post_auth_register sample_lib sample_fresh register_bob
                   sample_backend))) = Backend.Ok session /\
    snd (Backend.post_auth_login sample_lib later_fresh "bob@x.org" "guess"
           (fst (Backend.post_auth_register sample_lib sample_fresh register_bob
                   sample_backend))) = Backend.Failed 403 "Invalid password".
Proof.
  destruct (registered_user_can_log_in sample_lib sample_fresh later_fresh
              register_bob sample_backend "bob@x.org" "secret" "h:secret" "Bob")
    as (session & newUser & Hr & _ & _ & _ & _ & _ & _ & Ht & _ & Hl & _).
  - reflexivity.
  - discriminate.
  - reflexivity.
  - discriminate.
  - reflexivity.
  - reflexivity.
  - simpl. intuition discriminate.
  - destruct (registered_user_can_log_in sample_lib sample_fresh sample_fresh
                register_bob sample_backend "bob@x.org" "secret" "h:secret" "Bob")
      as (session' & newUser' & Hr' & _ & _ & _ & _ & _ & _ & _ & _ & _ & Hs).
    + reflexivity.
    + discriminate.
    + reflexivity.
    + discriminate.
    + reflexivity.
    + reflexivity.
    + simpl. intuition discriminate.
    + assert (session' = session) by congruence. subst session'.
      exists session. split; [exact Hr |]. split; [rewrite Ht; reflexivity |].
      split; [rewrite (Hl "secret"); reflexivity |].
      split; [rewrite (Hs eq_refl "secret" eq_refl); reflexivity |].
      rewrite (Hl "guess"). reflexivity.
Defined.

Lemma registration_guards_witness :
  Backend.RegisterBody.email
    {| Backend.RegisterBody.email := Some "ann@x.org";
       Backend.RegisterBody.password := Some "pw";
       Backend.RegisterBody.name := "Ann" |} = Some "ann@x.org" /\
  In "ann@x.org" (map Backend.User.email (Backend.users sample_backend)) /\
  Backend.post_auth_register sample_lib sample_fresh
    {| Backend.RegisterBody.email := Some "ann@x.org";
       Backend.RegisterBody.password := Some "pw";
       Backend.RegisterBody.name := "Ann" |} sample_backend =
  (sample_backend, Backend.Failed 400 "Email already exists").
Proof.
  split; [reflexivity |].
  assert (H : In "ann@x.org" (map Backend.User.email (Backend.users sample_backend)))
    by (simpl; auto).
  split; [exact H |].
  destruct (registration_guards sample_lib sample_fresh
              {| Backend.RegisterBody.email := Some "ann@x.org";
                 Backend.RegisterBody.password := Some "pw";
                 Backend.RegisterBody.name := "Ann" |} sample_backend)
    as (_ & G & _).
  apply (G "ann@x.org"); [reflexivity | discriminate | reflexivity | exact H].
Defined.

(** ** The bearer header, from the client to the middleware *)

Lemma split_space_no_space (s : string) :
  has_no_space s = true -> Backend.split_space s = [s].
Proof.
  induction s as [|c s IH]; simpl; [reflexivity |].
  intros H. apply andb_true_iff in H. destruct H as [Hc Hs].
  apply negb_true_iff in Hc. rewrite Hc, (IH Hs). reflexivity.
Qed.

(** X22.  The header the client's guarded calls send brings the held token to
    [jwt.verify] unchanged, provided the token has no space in it: the
    middleware answers 403 when the token does not verify and otherwise runs
    the handler for the verified user.  A request without the header, or
    with a header that has no space in it, is answered 401 and changes
    nothing. *)
Theorem bearer_header_reaches_verify :
  forall (B : Type) (lib : Backend.Lib)
         (next : Backend.Claims.t -> Backend.Db -> Backend.Db * Backend.Reply B)
         (db : Backend.Db),
    (forall (T : Type) (ep : Endpoint T) (env : Env) (w : World) (tok : string),
        token w = Some tok -> tok <> "" -> has_no_space tok = true ->
        Backend.authenticateToken lib
          (Authorization (headers (bearer_request ep env w))) next db =
        match Backend.jwt_verify lib tok with
        | Some user => next user db
        | None => (db, Backend.SendStatus 403)
        end) /\
    Backend.authenticateToken lib None next db = (db, Backend.SendStatus 401) /\
    (forall header : string,
        has_no_space header = true ->
        Backend.authenticateToken lib (Some header) next db =
        (db, Backend.SendStatus 401)).
Proof.
  intros B lib next db. repeat apply conj.
  - intros T ep env w tok Htok Hne Hns. unfold bearer_request. rewrite Htok.
    cbn [headers Authorization]. unfold Backend.authenticateToken.
    cbn -[Backend.split_space truthy].
    change (Backend.split_space ("Bearer " +:+ tok))
      with ("Bearer" :: Backend.split_space tok).
    rewrite (split_space_no_space _ Hns).
    change ("Bearer " +:+ tok =? "")%string with false.
    cbn. apply String.eqb_neq in Hne. rewrite Hne. reflexivity.
  - reflexivity.
  - intros header Hns. unfold Backend.authenticateToken.
    destruct (header =? "")%string eqn:E; [reflexivity |].
    rewrite (split_space_no_space _ Hns). reflexivity.
Qed.

Lemma bearer_header_reaches_verify_witness :
  token sample_world = Some "tok" /\ "tok" <> "" /\ has_no_space "tok" = true /\
  Backend.authenticateToken sample_lib
    (Authorization (headers (bearer_request GET_decks unreachable_env sample_world)))
    (Backend.get_decks) sample_backend =
  (sample_backend, Backend.SendStatus 403) /\
  has_no_space "Bearer" = true /\
  Backend.authenticateToken sample_lib (Some "Bearer") Backend.get_decks
    sample_backend = (sample_backend, Backend.SendStatus 401).
Proof.
  destruct (bearer_header_reaches_verify _ sample_lib Backend.get_decks
              sample_backend) as (V & _ & N).
  split; [reflexivity |]. split; [discriminate |]. split; [reflexivity |].
  split.
  - rewrite (V _ GET_decks unreachable_env sample_world "tok" eq_refl
               ltac:(discriminate) eq_refl).
    reflexivity.
  - split; [reflexivity |]. exact (N "Bearer" eq_refl).
Defined.

(** ** The local simulation and the server *)

(** X23.  The client's local community writes compute what the server's
    handlers compute: starting from the same list, [shareToCommunity] leaves
    in the mirror the list POST /api/community leaves in the collection for
    the body the client posts (the drawn id not being empty and both sides
    reading the same clock), and [incrementDownload] leaves the list POST
    /api/community/:id/download leaves. *)
Theorem local_community_matches_server :
  forall (item : Deck.t + Note.t) (type : ItemType) (author : string)
         (id : string) (env : Env) (w : World)
         (fresh : Backend.Fresh) (db : Backend.Db),
    cached COMMUNITY w = Backend.community db ->
    (crypto_randomUUID env <> "" ->
     Backend.now fresh = Date_now env ->
     cached COMMUNITY (snd (ApiService.shareToCommunity item type author env w)) =
     Backend.community
       (fst (Backend.post_community fresh
               (Server.body_of (shared_item item type author env)) db))) /\
    cached COMMUNITY (snd (ApiService.incrementDownload id env w)) =
    Backend.community (fst (Backend.post_community_download id db)).
Proof.
  intros item type author id env w fresh db Hsame. split.
  - intros Hne Hnow.
    destruct (shareToCommunity_run item type author env w) as (rs & _ & ->).
    rewrite _localShare_run.
    change (cached COMMUNITY (sent rs w)) with (cached COMMUNITY w).
    unfold Backend.post_community, Server.post_community.
    cbn [Server.Body.id Server.body_of Server.community CommunityItem.id
           shared_item].
    rewrite Hsame.
    destruct (find _ (Backend.community db)) eqn:E.
    + cbn. exact Hsame.
    + cbn [snd fst]. rewrite cached_with_storage.
      cbn. apply String.eqb_neq in Hne. rewrite Hne, Hnow. reflexivity.
  - destruct (incrementDownload_run id env w) as (rs & _ & -> & _).
    cbn [snd]. change (cached COMMUNITY (sent rs ?x)) with (cached COMMUNITY x).
    unfold Backend.post_community_download. rewrite update_first_findIndex.
    rewrite <- Hsame.
    destruct (_localIncrement_run id env w)
      as [[Hno ->] | (i & c & Hc & Hid & Hfirst & ->)].
    + rewrite (findIndex_id_absent CommunityItem.id _ _ Hno). cbn. exact Hsame.
    + cbn [snd]. rewrite cached_with_storage.
      assert (Hin : In id (map CommunityItem.id (cached COMMUNITY w))).
      { rewrite <- Hid. apply in_map. apply list_elem_of_In.
        eapply list_elem_of_lookup_2. exact Hc. }
      pose proof (findIndex_id_present CommunityItem.id _ _ Hin) as Hf.
      destruct (findIndex_found _ _ Hf) as (i' & c' & Hi' & Hc' & Hp' & Hlt').
      assert (i' = i).
      { destruct (Nat.lt_trichotomy i' i) as [Hlt | [Heq | Hgt]]; [| exact Heq |].
        - exfalso. apply (Hfirst i' c' Hlt Hc'). apply String.eqb_eq. exact Hp'.
        - exfalso. specialize (Hlt' i c Hgt Hc). rewrite Hid in Hlt'.
          rewrite String.eqb_refl in Hlt'. discriminate. }
      subst i'. apply Z.eqb_neq in Hf. rewrite Hf, Hi', Nat2Z.id, Hc.
      cbn. unfold array_set. rewrite Nat2Z.id. reflexivity.
Qed.

Lemma local_community_matches_server_witness :
  cached COMMUNITY sample_world = Backend.community sample_backend /\
  crypto_randomUUID unreachable_env <> "" /\
  Backend.now {| Backend.uuid := "u"; Backend.now := Date_now unreachable_env;
                 Backend.hashed := None; Backend.iat := 0 |} = Date_now unreachable_env /\
  cached COMMUNITY
    (snd (ApiService.shareToCommunity (inl deck_d1) deck "Ann" unreachable_env
            sample_world)) =
  Backend.community
    (fst (Backend.post_community
            {| Backend.uuid := "u"; Backend.now := Date_now unreachable_env;
               Backend.hashed := None; Backend.iat := 0 |}
            (Server.body_of (shared_item (inl deck_d1) deck "Ann" unreachable_env))
            sample_backend)).
Proof.
  split; [reflexivity |]. split; [discriminate |]. split; [reflexivity |].
  apply (proj1 (local_community_matches_server (inl deck_d1) deck "Ann" "x1"
                  unreachable_env sample_world
                  {| Backend.uuid := "u"; Backend.now := Date_now unreachable_env;
                     Backend.hashed := None; Backend.iat := 0 |} sample_backend eq_refl)).
  - discriminate.
  - reflexivity.
Defined.
